(** * Bitrix ID checker: [check_ids_2025.py], embedded in Rocq.

    The per-identifier verification loop and the functions around it:
    the settings read from the environment, the choice and the loading
    of the identifiers, and the colouring of the report.

    Python [str] values are sequences of Unicode code points; the browser
    driver (Playwright), the file system, pandas and the workbook are
    external collaborators and are modelled as arbitrary handlers
    answering the calls the script makes. *)

From Stdlib Require Import String Ascii Strings.Byte DecimalString.
From Stdlib Require Import List ZArith NArith Lia Bool.
Import ListNotations.

Set Implicit Arguments.

(** ** Python strings *)

Module PyStr.

(** A character is a Unicode code point. *)
Definition char := N.
Definition pystr := list char.

(** UTF-8 decoding of the bytes of a source literal (the [.py] file is
    UTF-8; its literals are Russian text and a few emoji). *)
Fixpoint utf8_decode (bs : list N) : pystr :=
  match bs with
  | [] => []
  | b0 :: r0 =>
    if (b0 <? 0x80)%N then b0 :: utf8_decode r0
    else match r0 with
    | [] => [b0]
    | b1 :: r1 =>
      if (b0 <? 0xE0)%N
      then ((b0 - 0xC0) * 64 + (b1 - 0x80))%N :: utf8_decode r1
      else match r1 with
      | [] => [b0; b1]
      | b2 :: r2 =>
        if (b0 <? 0xF0)%N
        then ((b0 - 0xE0) * 4096 + (b1 - 0x80) * 64 + (b2 - 0x80))%N
               :: utf8_decode r2
        else match r2 with
        | [] => [b0; b1; b2]
        | b3 :: r3 =>
          ((b0 - 0xF0) * 262144 + (b1 - 0x80) * 4096
             + (b2 - 0x80) * 64 + (b3 - 0x80))%N :: utf8_decode r3
        end
      end
    end
  end.

(** A Python string literal. *)
Definition lit (s : string) : pystr :=
  utf8_decode (map Byte.to_N (list_byte_of_string s)).

(** [str.isspace] on one character, which is also what [\s] matches in a
    [str] pattern and what [str.strip()] removes. *)
Definition isspace (c : char) : bool :=
  ((9 <=? c) && (c <=? 13)
   || (28 <=? c) && (c <=? 32)
   || (c =? 0x85) || (c =? 0xA0) || (c =? 0x1680)
   || (0x2000 <=? c) && (c <=? 0x200A)
   || (c =? 0x2028) || (c =? 0x2029) || (c =? 0x202F)
   || (c =? 0x205F) || (c =? 0x3000))%N.

(** The interpreter's Unicode database decides which code points beyond
    ASCII are decimal digits (category Nd) and what they are worth; it
    changes from one Python release to the next, so it is an interface. *)
Class UnicodeDB := { nd_value : char -> option N }.

(** [unicodedata.decimal]: ASCII digits are fixed, the rest is looked up. *)
Definition decimal {U : UnicodeDB} (c : char) : option N :=
  if (c <? 128)%N
  then if ((48 <=? c) && (c <=? 57))%N then Some (c - 48)%N else None
  else nd_value c.

Definition isdecimal {U : UnicodeDB} (c : char) : bool :=
  match decimal c with Some _ => true | None => false end.

(** [s.lstrip()], [s.rstrip()] and [s.strip()] without arguments. *)
Fixpoint lstrip (s : pystr) : pystr :=
  match s with
  | c :: s' => if isspace c then lstrip s' else s
  | [] => []
  end.

Definition rstrip (s : pystr) : pystr := rev (lstrip (rev s)).

Definition strip (s : pystr) : pystr := rstrip (lstrip s).

(** [a or b] on strings: the empty string is falsy. *)
Definition str_or (a b : pystr) : pystr :=
  match a with [] => b | _ => a end.

(** [s.replace(old, new)] for one-character [old] and [new]. *)
Definition replace1 (old new : char) (s : pystr) : pystr :=
  map (fun c => if (c =? old)%N then new else c) s.

(** [str(n)] for an integer: its decimal digits, after [-] when it is
    negative. *)
Definition str_of_Z (z : Z) : pystr :=
  lit (NilZero.string_of_int (Z.to_int z)).

(** Value of a run of decimal digits, most significant first. *)
Fixpoint digits_value {U : UnicodeDB} (acc : N) (s : pystr) : option N :=
  match s with
  | [] => Some acc
  | c :: s' =>
    match decimal c with
    | Some v => digits_value (acc * 10 + v) s'
    | None => None
    end
  end.

End PyStr.
Import PyStr.

(** ** Regular expressions, as Python's [re] runs them

    Only the constructs of the two patterns the script relies on:
    [DATE_RE] and the pattern [datetime.strptime] compiles its format to. *)

Module Regex.

(** One-character classes. *)
Inductive cls : Set :=
  | CChr (c : char)          (* a literal character *)
  | CRng (lo hi : char)      (* [lo-hi] *)
  | CDigit                   (* \d *)
  | CSpace.                  (* \s *)

Inductive re : Set :=
  | Eps                      (* the empty pattern *)
  | One (k : cls)
  | Many1 (k : cls)          (* k+, greedy *)
  | Cat (r1 r2 : re)
  | Alt (r1 r2 : re)         (* r1|r2, r1 tried first *)
  | Grp (name : string) (r : re).   (* (?P<name>r) *)

Definition cls_match {U : UnicodeDB} (k : cls) (c : char) : bool :=
  match k with
  | CChr c0 => (c =? c0)%N
  | CRng lo hi => ((lo <=? c) && (c <=? hi))%N
  | CDigit => isdecimal c
  | CSpace => isspace c
  end.

(** The declarative meaning: the strings a pattern matches. *)
Inductive matches {U : UnicodeDB} : re -> pystr -> Prop :=
  | m_eps : matches Eps []
  | m_one k c : cls_match k c = true -> matches (One k) [c]
  | m_many1_one k c : cls_match k c = true -> matches (Many1 k) [c]
  | m_many1_more k c m :
      cls_match k c = true -> matches (Many1 k) m -> matches (Many1 k) (c :: m)
  | m_cat r1 r2 m1 m2 :
      matches r1 m1 -> matches r2 m2 -> matches (Cat r1 r2) (m1 ++ m2)
  | m_alt_l r1 r2 m : matches r1 m -> matches (Alt r1 r2) m
  | m_alt_r r1 r2 m : matches r2 m -> matches (Alt r1 r2) m
  | m_grp name r m : matches r m -> matches (Grp name r) m.

(** A match of a prefix of the input: the named groups captured, the text
    matched and the text left. *)
Definition captures := list (string * pystr).
Definition success : Set := captures * pystr * pystr.

(** [k*]: the run of characters taken and the text left, from the longest
    run down to the empty one. *)
Fixpoint star {U : UnicodeDB} (k : cls) (s : pystr) : list (pystr * pystr) :=
  match s with
  | c :: s' =>
    if cls_match k c
    then map (fun '(m, rest) => (c :: m, rest)) (star k s') ++ [([], s)]
    else [([], s)]
  | [] => [([], [])]
  end.

(** The backtracking matcher: every way the pattern matches a prefix of
    [s], in the order the engine tries them. *)
Fixpoint run {U : UnicodeDB} (r : re) (s : pystr) : list success :=
  match r with
  | Eps => [([], [], s)]
  | One k =>
    match s with
    | c :: s' => if cls_match k c then [([], [c], s')] else []
    | [] => []
    end
  | Many1 k =>
    match s with
    | c :: s' =>
      if cls_match k c
      then map (fun '(m, rest) => ([], c :: m, rest)) (star k s')
      else []
    | [] => []
    end
  | Cat r1 r2 =>
    flat_map
      (fun '(g1, m1, s1) =>
         map (fun '(g2, m2, s2) => (g1 ++ g2, m1 ++ m2, s2)) (run r2 s1))
      (run r1 s)
  | Alt r1 r2 => run r1 s ++ run r2 s
  | Grp name r0 =>
    map (fun '(g, m, rest) => ((name, m) :: g, m, rest)) (run r0 s)
  end.

(** [pattern.match(s)]: the first success, if any. *)
Definition re_match {U : UnicodeDB} (r : re) (s : pystr) : option success :=
  match run r s with
  | x :: _ => Some x
  | [] => None
  end.

(** [pattern.search(s)]: the match at the leftmost position that has one,
    as (text before, [group(0)], text after). *)
Fixpoint re_search_from {U : UnicodeDB} (r : re) (before s : pystr)
  : option (pystr * pystr * pystr) :=
  match re_match r s with
  | Some (_, m, rest) => Some (before, m, rest)
  | None =>
    match s with
    | c :: s' => re_search_from r (before ++ [c]) s'
    | [] => None
    end
  end.

Definition re_search {U : UnicodeDB} (r : re) (s : pystr) :=
  re_search_from r [] s.

(** [m.group(name)] *)
Fixpoint group (g : captures) (name : string) : option pystr :=
  match g with
  | (n, v) :: g' => if String.eqb n name then Some v else group g' name
  | [] => None
  end.

(** [r{n}] *)
Fixpoint rep (n : nat) (r : re) : re :=
  match n with
  | O => Eps
  | S n' => Cat r (rep n' r)
  end.

(** A sequence of patterns, left to right. *)
Definition seq (rs : list re) : re := fold_right Cat Eps rs.

(** Alternatives, first to last; the last one closes the list. *)
Fixpoint alts (rs : list re) (last : re) : re :=
  match rs with
  | [] => last
  | r :: rs' => Alt r (alts rs' last)
  end.

(** A literal character, a range [[lo-hi]] and [\d], written with the
    characters themselves. *)
Definition chr (s : string) : re :=
  match lit s with c :: _ => One (CChr c) | [] => Eps end.
Definition rng (lo hi : string) : re :=
  match lit lo, lit hi with
  | a :: _, b :: _ => One (CRng a b)
  | _, _ => Eps
  end.
Definition digit : re := One CDigit.

End Regex.
Import Regex.

(** ** Exceptions *)

(** The exception classes the script's [except] clauses tell apart;
    [str(e)] is the message.  Playwright's [TimeoutError] is a subclass of
    its [Error], which is an [Exception].  Signals that are not
    [Exception]s (KeyboardInterrupt, SystemExit) end the process and are
    outside the model. *)
Inductive fault : Set :=
  | PWTimeoutError (msg : pystr)
  | PWError (msg : pystr)          (* an Error that is no TimeoutError *)
  | ValueError (msg : pystr)
  | Exception (msg : pystr).       (* any other Exception *)

Definition str_of_fault (e : fault) : pystr :=
  match e with
  | PWTimeoutError m | PWError m | ValueError m | Exception m => m
  end.

Inductive Res (A : Type) : Type :=
  | Ok (a : A)
  | Raise (e : fault).
Arguments Ok {A} a.
Arguments Raise {A} e.

(** ** Dates: [datetime.strptime(date_str, "%d.%m.%Y %H:%M:%S")] *)

Module Datetime.

Record datetime : Set := mk_datetime {
  year : Z; month : Z; day : Z; hour : Z; minute : Z; second : Z
}.

Definition is_leap (y : Z) : bool :=
  ((y mod 4 =? 0) && (negb (y mod 100 =? 0) || (y mod 400 =? 0)))%Z.

Definition days_in_month (y m : Z) : Z :=
  if (m =? 2)%Z then (if is_leap y then 29 else 28)%Z
  else if ((m =? 4) || (m =? 6) || (m =? 9) || (m =? 11))%Z then 30%Z
  else 31%Z.

(** [datetime.date(y, m, d)]: the constructor's range checks. *)
Definition check_date_fields (y m d : Z) : Res unit :=
  if negb ((1 <=? y) && (y <=? 9999))%Z
  then Raise (ValueError (lit "year is out of range"))
  else if negb ((1 <=? m) && (m <=? 12))%Z
  then Raise (ValueError (lit "month must be in 1..12"))
  else if negb ((1 <=? d) && (d <=? days_in_month y m))%Z
  then Raise (ValueError (lit "day is out of range for month"))
  else Ok tt.

(** [datetime.datetime(...)]: the checks on the time of day. *)
Definition check_time_fields (h mi s : Z) : Res unit :=
  if negb ((0 <=? h) && (h <=? 23))%Z
  then Raise (ValueError (lit "hour must be in 0..23"))
  else if negb ((0 <=? mi) && (mi <=? 59))%Z
  then Raise (ValueError (lit "minute must be in 0..59"))
  else if negb ((0 <=? s) && (s <=? 59))%Z
  then Raise (ValueError (lit "second must be in 0..59"))
  else Ok tt.

(** The pattern [_strptime.TimeRE] builds for ["%d.%m.%Y %H:%M:%S"]:
    each directive's group, [.] escaped, the blank turned into [\s+].  It
    is compiled with IGNORECASE, which changes nothing for digits and
    punctuation. *)
Definition re_d : re :=
  Grp "d" (alts [Cat (chr "3") (rng "0" "1"); Cat (rng "1" "2") digit;
                 Cat (chr "0") (rng "1" "9"); rng "1" "9"]
                (Cat (chr " ") (rng "1" "9"))).
Definition re_m : re :=
  Grp "m" (alts [Cat (chr "1") (rng "0" "2"); Cat (chr "0") (rng "1" "9")]
                (rng "1" "9")).
Definition re_Y : re :=
  Grp "Y" (Cat digit (Cat digit (Cat digit digit))).
Definition re_H : re :=
  Grp "H" (alts [Cat (chr "2") (rng "0" "3"); Cat (rng "0" "1") digit] digit).
Definition re_M : re :=
  Grp "M" (alts [Cat (rng "0" "5") digit] digit).
Definition re_S : re :=
  Grp "S" (alts [Cat (chr "6") (rng "0" "1"); Cat (rng "0" "5") digit] digit).

Definition format_regex : re :=
  seq [re_d; chr "."; re_m; chr "."; re_Y; Many1 CSpace;
       re_H; chr ":"; re_M; chr ":"; re_S].

(** [int(s)] on what a group of [format_regex] can capture: decimal
    digits, possibly after blanks. *)
Definition py_int {U : UnicodeDB} (s : pystr) : Res Z :=
  match strip s with
  | [] => Raise (ValueError (lit "invalid literal for int()"))
  | t =>
    match digits_value 0 t with
    | Some n => Ok (Z.of_N n)
    | None => Raise (ValueError (lit "invalid literal for int()"))
    end
  end.

Definition int_group {U : UnicodeDB} (g : captures) (name : string) : Res Z :=
  match group g name with
  | Some v => py_int v
  | None => Raise (Exception (lit "KeyError"))
  end.

Definition bindR {A B} (r : Res A) (k : A -> Res B) : Res B :=
  match r with Ok a => k a | Raise e => Raise e end.

(** [_strptime] followed by the [datetime] constructor.  The messages of
    the exceptions are abridged; [extract_year] drops them. *)
Definition strptime {U : UnicodeDB} (data_string : pystr) : Res datetime :=
  match re_match format_regex data_string with
  | None => Raise (ValueError (lit "time data does not match format"))
  | Some (found, _, rest) =>
    match rest with
    | _ :: _ => Raise (ValueError (lit "unconverted data remains"))
    | [] =>
      bindR (int_group found "d") (fun d =>
      bindR (int_group found "m") (fun m =>
      bindR (int_group found "Y") (fun y =>
      bindR (int_group found "H") (fun h =>
      bindR (int_group found "M") (fun mi =>
      bindR (int_group found "S") (fun s =>
      bindR (check_date_fields y m d) (fun _ =>
      bindR (check_time_fields h mi s) (fun _ =>
      Ok (mk_datetime y m d h mi s)))))))))
    end
  end.

End Datetime.
Import Datetime.

(** ** The date extractor *)

(** [DATE_RE = re.compile(r"\d{2}\.\d{2}\.\d{4}\s+\d{2}:\d{2}:\d{2}")] *)
Definition DATE_RE : re :=
  seq [rep 2 digit; chr "."; rep 2 digit; chr "."; rep 4 digit; Many1 CSpace;
       rep 2 digit; chr ":"; rep 2 digit; chr ":"; rep 2 digit].

(** [try: ... except Exception: ...] around a computation without state. *)
Definition try_except {A} (body : Res A) (handler : fault -> Res A) : Res A :=
  match body with
  | Ok a => Ok a
  | Raise e => handler e
  end.

Definition extract_year {U : UnicodeDB} (text : pystr)
  : Res (pystr * option Z) :=
  let text := strip (str_or text (lit "")) in
  match re_search DATE_RE text with
  | None => Ok (lit "", None)
  | Some (_, date_str, _) =>
    try_except
      (bindR (strptime date_str) (fun dt => Ok (date_str, Some (year dt))))
      (fun _ => Ok (date_str, None))
  end.

(** Two Unicode databases to compute with: ASCII digits only, and ASCII
    plus the Arabic-Indic digits U+0660..U+0669. *)
Definition ascii_db : UnicodeDB := {| nd_value := fun _ => None |}.
Definition arabic_db : UnicodeDB :=
  {| nd_value := fun c =>
       if ((0x660 <=? c) && (c <=? 0x669))%N then Some (c - 0x660)%N
       else None |}.

(** ** The browser driver and the script's effects *)

(** The calls the script makes on the outside world, indexed by what they
    return.  Each may raise. *)
Inductive call : Set -> Set :=
  | Goto (url : pystr) : call unit
      (* page.goto(url, wait_until="domcontentloaded") *)
  | WaitForSelector (selector : pystr) (timeout : Z) : call unit
      (* page.wait_for_selector(selector, timeout=timeout) *)
  | Count (selector : pystr) : call nat
      (* page.locator(selector).count() *)
  | FirstCount (selector : pystr) : call nat
      (* page.locator(selector).first.count() *)
  | RowInnerText (selector : pystr) : call pystr
      (* page.locator(selector).first
             .locator("xpath=ancestor::tr[1]").inner_text() *)
  | WaitForTimeout (ms : Z) : call unit
      (* page.wait_for_timeout(ms) *)
  | Screenshot (path : pystr) : call unit
      (* page.screenshot(path=path, full_page=True) *)
  | Print (msg : pystr) : call unit
  | Input (prompt : pystr) : call pystr.

(** A call together with how the world answered it. *)
Inductive event : Type :=
  | Ev {X : Set} (c : call X) (r : Res X).

(** The world: any state, any answers. *)
Definition Handler (W : Type) : Type := forall X : Set, call X -> W -> Res X * W.

Record St (W : Type) : Type := mkSt { world : W; trace : list event }.
Arguments mkSt {W} world trace.

(** State and exceptions; the state survives a raise, as Python's
    variables and the browser do. *)
Definition SE (S A : Type) : Type := S -> Res A * S.

Definition ret {S A} (a : A) : SE S A := fun s => (Ok a, s).

Definition raise {S A} (e : fault) : SE S A := fun s => (Raise e, s).

Definition bind {S A B} (m : SE S A) (k : A -> SE S B) : SE S B :=
  fun s =>
    match m s with
    | (Ok a, s') => k a s'
    | (Raise e, s') => (Raise e, s')
    end.

Declare Scope se_scope.
Delimit Scope se_scope with se.
Notation "x <- m ;; k" := (bind m (fun x => k))
  (at level 61, m at next level, right associativity) : se_scope.
Notation "m ;; k" := (bind m (fun _ => k))
  (at level 61, right associativity) : se_scope.
Open Scope se_scope.

(** [try: body except ...: handler]; a handler re-raises what its clause
    does not name. *)
Definition try_catch {S A} (body : SE S A) (handler : fault -> SE S A)
  : SE S A :=
  fun s =>
    match body s with
    | (Ok a, s') => (Ok a, s')
    | (Raise e, s') => handler e s'
    end.

(** A pure computation that may raise. *)
Definition lift_res {S A} (r : Res A) : SE S A := fun s => (r, s).

(** Running a computation on a component of the state. *)
Definition zoom {L S A} (m : SE S A) : SE (L * S) A :=
  fun '(l, s) => let '(r, s') := m s in (r, (l, s')).

Definition modify {L S} (f : L -> L) : SE (L * S) unit :=
  fun '(l, s) => (Ok tt, (f l, s)).

Definition get {L S} : SE (L * S) L := fun '(l, s) => (Ok l, (l, s)).

(** ** Configuration *)

(** The module's globals: [BASE_URL] and [ENTITY_ID] come from the
    environment, [OK_YEAR] is a constant of the file; [os_sep] is the path
    separator of the platform. *)
Record Config : Set := mkConfig {
  BASE_URL : pystr;
  ENTITY_ID : pystr;
  OK_YEAR : Z;
  os_sep : pystr
}.

(** The values the file gives them when the environment sets nothing. *)
Definition default_config : Config :=
  {| BASE_URL := lit "https://globaldrive.ru";
     ENTITY_ID := lit "4";
     OK_YEAR := 2025;
     os_sep := lit "\" |}.

Definition SCREEN_DIR : pystr := lit "screenshots".

(** [os.path.join(a, b)] for a relative [b] and an [a] that does not end
    in a separator, the only way the script calls it. *)
Definition path_join (cfg : Config) (a b : pystr) : pystr :=
  a ++ os_sep cfg ++ b.

Definition make_url (cfg : Config) (item_id : pystr) : pystr :=
  BASE_URL cfg ++ lit "/bitrix/admin/highloadblock_rows_list.php"
  ++ lit "?PAGEN_1=1&SIZEN_1=20&ENTITY_ID=" ++ ENTITY_ID cfg ++ lit "&lang=ru"
  ++ lit "&set_filter=Y&adm_filter_applied=0&find_id=" ++ item_id.

(** The row of the report one identifier gets (the dictionary appended to
    [results]; the keys are in the comments). *)
Record Row : Set := mkRow {
  r_id : pystr;               (* "ID" *)
  r_url : pystr;              (* "URL" *)
  r_date_text : pystr;        (* "Дата добавления" *)
  r_year : option Z;          (* "Год" *)
  r_expected_year : Z;        (* "Ожидаемый год" *)
  r_status : pystr;           (* "Статус" *)
  r_comment : pystr;          (* "Комментарий" *)
  r_screenshot : pystr        (* "Screenshot" *)
}.

(** The variables of one pass of the loop. *)
Record Locals : Set := mkLocals {
  status : pystr;
  date_text : pystr;
  year_ : option Z;
  screenshot_path : pystr;
  comment : pystr
}.

Definition set_status (v : pystr) (l : Locals) : Locals :=
  mkLocals v (date_text l) (year_ l) (screenshot_path l) (comment l).
Definition set_date_text (v : pystr) (l : Locals) : Locals :=
  mkLocals (status l) v (year_ l) (screenshot_path l) (comment l).
Definition set_year (v : option Z) (l : Locals) : Locals :=
  mkLocals (status l) (date_text l) v (screenshot_path l) (comment l).
Definition set_screenshot_path (v : pystr) (l : Locals) : Locals :=
  mkLocals (status l) (date_text l) (year_ l) v (comment l).
Definition set_comment (v : pystr) (l : Locals) : Locals :=
  mkLocals (status l) (date_text l) (year_ l) (screenshot_path l) v.

(** ** The script's functions *)

Section Engine.

Context {U : UnicodeDB} {W : Type} (page : Handler W).

(** Making a call: the world answers and the trace grows by one event. *)
Definition perform {X : Set} (c : call X) : SE (St W) X :=
  fun st =>
    let '(r, w) := page c (world st) in
    (r, mkSt w (trace st ++ [Ev c r])).

Definition save_screenshot (cfg : Config) (status item_id : pystr)
  : SE (St W) pystr :=
  let safe_status := replace1 32%N 95%N status in
  let path :=
    path_join cfg SCREEN_DIR (safe_status ++ lit "_" ++ item_id ++ lit ".png") in
  try_catch
    (perform (Screenshot path) ;; ret path)
    (fun _ => ret (lit "")).

Definition is_logged_in_admin : SE (St W) bool :=
  n <- perform (Count (lit "a[href*='logout=Y']")) ;;
  ret (0 <? n)%nat.

Definition is_login_page : SE (St W) bool :=
  n <- perform (Count (lit "input[name='USER_LOGIN']")) ;;
  if (0 <? n)%nat
  then m <- perform (Count (lit "input[name='USER_PASSWORD']")) ;;
       ret (0 <? m)%nat
  else ret false.

Definition ensure_admin_session : SE (St W) unit :=
  a <- is_logged_in_admin ;;
  if a : bool then ret tt
  else
    b <- is_login_page ;;
    if b : bool then
      perform (Print (lit "⚠️ Открылась страница логина. Похоже, сессия закончилась.")) ;;
      perform (Input (lit "👉 Войди в админку в этом окне и нажми ENTER, чтобы продолжить...")) ;;
      ret tt
    else
      perform (WaitForTimeout 500).

Definition table_selector : pystr := lit "table.adm-list-table".

Definition wait_for_table : SE (St W) unit :=
  try_catch
    (perform (WaitForSelector table_selector 15000))
    (fun e =>
       match e with
       | PWTimeoutError _ =>
         ensure_admin_session ;;
         perform (WaitForSelector table_selector 15000)
       | _ => raise e
       end).

Definition admin_root (cfg : Config) : pystr :=
  BASE_URL cfg ++ lit "/bitrix/admin/".

(** [year == OK_YEAR] *)
Definition year_eqb (y : option Z) (ok : Z) : bool :=
  match y with Some v => (v =? ok)%Z | None => false end.

(** [f"{year if year else 'не распознано'}"]: [None] and [0] are falsy. *)
Definition year_or_unknown (y : option Z) : pystr :=
  match y with
  | Some v => if (v =? 0)%Z then lit "не распознано" else str_of_Z v
  | None => lit "не распознано"
  end.

Definition link_selector (item_id : pystr) : pystr :=
  lit "a:has-text('" ++ item_id ++ lit "')".

(** The body of the [try] of one pass. *)
Definition main_try (cfg : Config) (item_id url : pystr)
  : SE (Locals * St W) unit :=
  zoom (perform (Goto url)) ;;
  zoom wait_for_table ;;
  zoom ensure_admin_session ;;
  let id_link := link_selector item_id in
  n <- zoom (perform (FirstCount id_link)) ;;
  if (n =? 0)%nat then
    modify (set_status (lit "NOT FOUND")) ;;
    modify (set_comment (lit "ID не найден в таблице (фильтр/результат пустой)")) ;;
    l <- get ;;
    p <- zoom (save_screenshot cfg (status l) item_id) ;;
    modify (set_screenshot_path p)
  else
    row_text <- zoom (perform (RowInnerText id_link)) ;;
    dy <- lift_res (extract_year row_text) ;;
    modify (set_date_text (fst dy)) ;;
    modify (set_year (snd dy)) ;;
    l <- get ;;
    if year_eqb (year_ l) (OK_YEAR cfg) then
      modify (set_status (lit "OK"))
    else
      modify (set_status (lit "FAIL")) ;;
      modify (set_comment
                (lit "Ожидали " ++ str_of_Z (OK_YEAR cfg) ++ lit ", фактически: "
                 ++ year_or_unknown (year_ l))) ;;
      l <- get ;;
      p <- zoom (save_screenshot cfg (status l) item_id) ;;
      modify (set_screenshot_path p).

(** The three [except] clauses of the pass, in the file's order. *)
Definition main_except (cfg : Config) (item_id : pystr) (e : fault)
  : SE (Locals * St W) unit :=
  match e with
  | PWTimeoutError _ =>
    modify (set_status (lit "ERROR")) ;;
    modify (set_comment (lit "Timeout: " ++ str_of_fault e)) ;;
    l <- get ;;
    p <- zoom (save_screenshot cfg (status l) item_id) ;;
    modify (set_screenshot_path p)
  | PWError _ =>
    modify (set_status (lit "ERROR")) ;;
    modify (set_comment
              (lit "Playwright error (возможен вылет вкладки/сессии): "
               ++ str_of_fault e)) ;;
    l <- get ;;
    p <- zoom (save_screenshot cfg (status l) item_id) ;;
    modify (set_screenshot_path p) ;;
    try_catch
      (zoom (perform (Goto (admin_root cfg))) ;;
       zoom ensure_admin_session)
      (fun _ => ret tt)
  | _ =>
    modify (set_status (lit "ERROR")) ;;
    modify (set_comment (lit "Exception: " ++ str_of_fault e)) ;;
    l <- get ;;
    p <- zoom (save_screenshot cfg (status l) item_id) ;;
    modify (set_screenshot_path p)
  end.

Definition initial_locals : Locals :=
  {| status := lit "FAIL"; date_text := lit ""; year_ := None;
     screenshot_path := lit ""; comment := lit "" |}.

(** One pass of [for i, item_id in enumerate(ids, start=1)], from
    [item_id = str(item_id).strip()] to the dictionary it appends. *)
Definition main_iter (cfg : Config) (item_id : pystr) : SE (St W) Row :=
  let item_id := strip item_id in
  let url := make_url cfg item_id in
  fun st =>
    match
      try_catch (main_try cfg item_id url) (main_except cfg item_id)
                (initial_locals, st)
    with
    | (Ok _, (l, st')) =>
      (Ok {| r_id := item_id; r_url := url; r_date_text := date_text l;
             r_year := year_ l; r_expected_year := OK_YEAR cfg;
             r_status := status l; r_comment := comment l;
             r_screenshot := screenshot_path l |}, st')
    | (Raise e, (_, st')) => (Raise e, st')
    end.

(** The loop: [results.append(...)] after every pass.  The line a pass
    writes to the log is left out; [logging] does not raise. *)
Fixpoint main_loop (cfg : Config) (ids : list pystr) (results : list Row)
  : SE (St W) (list Row) :=
  match ids with
  | [] => ret results
  | item_id :: ids' =>
    row <- main_iter cfg item_id ;;
    main_loop cfg ids' (results ++ [row])
  end.

End Engine.

(** ** A scripted world to compute with

    The world is the list of answers still to give, one per call, in
    order; when the script runs out every call succeeds with a neutral
    value. *)

Inductive reply : Set :=
  | RDone                       (* the call returns *)
  | RCount (n : nat)
  | RText (s : pystr)
  | RFail (e : fault).

Definition answer {X : Set} (c : call X) (r : reply) : Res X :=
  match c in call X0 return Res X0 with
  | Goto _ | WaitForSelector _ _ | WaitForTimeout _ | Screenshot _ | Print _ =>
    match r with RFail e => Raise e | _ => Ok tt end
  | Count _ | FirstCount _ =>
    match r with RFail e => Raise e | RCount n => Ok n | _ => Ok 0%nat end
  | RowInnerText _ | Input _ =>
    match r with RFail e => Raise e | RText s => Ok s | _ => Ok [] end
  end.

Definition scripted : Handler (list reply) :=
  fun X c w =>
    match w with
    | [] => (answer c RDone, [])
    | r :: w' => (answer c r, w')
    end.

Definition start (script : list reply) : St (list reply) := mkSt script [].

(** The calls of a trace, by kind. *)
Definition is_goto (url : pystr) (ev : event) : bool :=
  match ev with
  | Ev (Goto u) _ => if list_eq_dec N.eq_dec u url then true else false
  | _ => false
  end.

Definition is_goto_any (ev : event) : bool :=
  match ev with
  | Ev (Goto _) _ => true
  | _ => false
  end.

Definition is_wait_for_selector (ev : event) : bool :=
  match ev with
  | Ev (WaitForSelector _ _) _ => true
  | _ => false
  end.

Definition is_table_wait (ev : event) : bool :=
  match ev with
  | Ev (WaitForSelector s t) _ =>
    (if list_eq_dec N.eq_dec s table_selector then true else false)
    && (t =? 15000)%Z
  | _ => false
  end.

Definition count_events (p : event -> bool) (tr : list event) : nat :=
  length (filter p tr).

(** * The vocabulary of the properties *)

Unset Implicit Arguments.

(** ** Texts and their substrings *)

(** A string of blanks. *)
Definition all_space (s : pystr) : Prop := Forall (fun c => isspace c = true) s.

(** [m] is a leftmost substring of [s] with property [P]: [s] is
    [pre ++ m ++ post] and no substring with [P] starts earlier. *)
Definition leftmost (P : pystr -> Prop) (s pre m post : pystr) : Prop :=
  s = pre ++ m ++ post /\ P m /\
  forall pre' m' post',
    s = pre' ++ m' ++ post' -> P m' -> (length pre <= length pre')%nat.

(** No substring of [s] has property [P]. *)
Definition absent (P : pystr -> Prop) (s : pystr) : Prop :=
  forall pre m post, s = pre ++ m ++ post -> ~ P m.

Definition first_match {U : UnicodeDB} (r : re) := leftmost (matches r).
Definition no_match {U : UnicodeDB} (r : re) := absent (matches r).

Definition all_decimal {U : UnicodeDB} (s : pystr) : Prop :=
  Forall (fun c => isdecimal c = true) s.

(** [DD.MM.YYYY HH:MM:SS]: two digits, a dot, two digits, a dot, four
    digits, at least one blank, then two digits, a colon, two digits, a
    colon and two digits. *)
Definition date_token {U : UnicodeDB} (m : pystr) : Prop :=
  exists d1 d2 m1 m2 y1 y2 y3 y4 ws h1 h2 i1 i2 s1 s2,
    m = [d1; d2; 46; m1; m2; 46; y1; y2; y3; y4]%N ++ ws
        ++ [h1; h2; 58; i1; i2; 58; s1; s2]%N
    /\ all_decimal [d1; d2; m1; m2; y1; y2; y3; y4; h1; h2; i1; i2; s1; s2]
    /\ ws <> [] /\ all_space ws.

(** The year [strptime] reads off a token, when it parses. *)
Definition parsed_year {U : UnicodeDB} (m : pystr) : option Z :=
  match strptime m with
  | Ok dt => Some (year dt)
  | Raise _ => None
  end.

(** ** Tokens written with ASCII digits *)

(** The ASCII digit of value [v]. *)
Definition dchar (v : nat) : char := N.of_nat (48 + v).

(** The patterns of the two-digit fields, on digit values. *)
Definition day_pat (a b : nat) : bool :=
  ((a =? 3) && (b <=? 1) || (a =? 1) || (a =? 2) || (a =? 0) && (1 <=? b))%nat.
Definition month_pat (a b : nat) : bool :=
  ((a =? 1) && (b <=? 2) || (a =? 0) && (1 <=? b))%nat.
Definition hour_pat (a b : nat) : bool :=
  ((a =? 2) && (b <=? 3) || (a <=? 1))%nat.
Definition minute_pat (a : nat) : bool := (a <=? 5)%nat.
Definition second_pat (a b : nat) : bool :=
  ((a =? 6) && (b <=? 1) || (a <=? 5))%nat.

(** A two-digit group followed by a separator: the group takes both
    digits or the match fails. *)
Definition field2 (name : string) (a b : nat) (sep : char) : success -> success :=
  fun '(g, m, s) =>
    ((name, [dchar a; dchar b]) :: g, [dchar a; dchar b] ++ sep :: m, s).

(** [DD.MM.YYYY<blanks>HH:MM:SS] written with ASCII digits. *)
Definition ascii_token (d1 d2 m1 m2 y1 y2 y3 y4 h1 h2 i1 i2 s1 s2 : nat)
    (ws : pystr) : pystr :=
  [dchar d1; dchar d2; 46; dchar m1; dchar m2; 46;
   dchar y1; dchar y2; dchar y3; dchar y4]%N
  ++ ws
  ++ [dchar h1; dchar h2; 58; dchar i1; dchar i2; 58; dchar s1; dchar s2]%N.

Definition two (a b : nat) : Z := Z.of_nat (10 * a + b).
Definition four (a b c d : nat) : Z := Z.of_nat (1000 * a + 100 * b + 10 * c + d).

(** The date and time the digits spell. *)
Definition spelled (d1 d2 m1 m2 y1 y2 y3 y4 h1 h2 i1 i2 s1 s2 : nat)
  : datetime :=
  mk_datetime (four y1 y2 y3 y4) (two m1 m2) (two d1 d2)
              (two h1 h2) (two i1 i2) (two s1 s2).

(** A calendar date and a time of day, as [datetime] accepts them. *)
Definition valid_datetime (dt : datetime) : bool :=
  ((1 <=? year dt) && (year dt <=? 9999)
   && (1 <=? month dt) && (month dt <=? 12)
   && (1 <=? day dt) && (day dt <=? days_in_month (year dt) (month dt))
   && (0 <=? hour dt) && (hour dt <=? 23)
   && (0 <=? minute dt) && (minute dt <=? 59)
   && (0 <=? second dt) && (second dt <=? 59))%Z.

(** ** The URL the specification describes *)

(** What the specification asks of the identifier in the URL: query
    encoding, every character outside [A-Za-z0-9-._~] replaced by [%XX]
    for each byte of its UTF-8 form. *)
Definition is_unreserved (c : char) : bool :=
  ((65 <=? c) && (c <=? 90) || (97 <=? c) && (c <=? 122)
   || (48 <=? c) && (c <=? 57)
   || (c =? 45) || (c =? 46) || (c =? 95) || (c =? 126))%N.

Definition utf8_encode (c : char) : list N :=
  if (c <? 0x80)%N then [c]
  else if (c <? 0x800)%N then [0xC0 + c / 64; 0x80 + c mod 64]%N
  else if (c <? 0x10000)%N
  then [0xE0 + c / 4096; 0x80 + (c / 64) mod 64; 0x80 + c mod 64]%N
  else [0xF0 + c / 262144; 0x80 + (c / 4096) mod 64;
        0x80 + (c / 64) mod 64; 0x80 + c mod 64]%N.

Definition hex_digit (n : N) : char :=
  if (n <? 10)%N then (48 + n)%N else (55 + n)%N.

Definition spec_url_encode (s : pystr) : pystr :=
  flat_map
    (fun c =>
       if is_unreserved c then [c]
       else flat_map (fun b => [37%N; hex_digit (b / 16); hex_digit (b mod 16)])
                     (utf8_encode c))
    s.

(** Everything of the URL that comes before the identifier. *)
Definition query_prefix (cfg : Config) : pystr :=
  BASE_URL cfg
  ++ lit "/bitrix/admin/highloadblock_rows_list.php?PAGEN_1=1&SIZEN_1=20&ENTITY_ID="
  ++ ENTITY_ID cfg
  ++ lit "&lang=ru&set_filter=Y&adm_filter_applied=0&find_id=".

(** ** The parts of a pass *)

(** The file a screenshot goes to. *)
Definition screenshot_file (cfg : Config) (safe_status item_id : pystr) : pystr :=
  path_join cfg SCREEN_DIR (safe_status ++ lit "_" ++ item_id ++ lit ".png").

(** The comment of a FAIL row. *)
Definition fail_comment (cfg : Config) (y : option Z) : pystr :=
  lit "Ожидали " ++ str_of_Z (OK_YEAR cfg) ++ lit ", фактически: "
  ++ year_or_unknown y.

(** The comment of a NOT FOUND row. *)
Definition not_found_comment : pystr :=
  lit "ID не найден в таблице (фильтр/результат пустой)".

(** The text an [except] clause puts before the exception's message. *)
Definition except_prefix (e : fault) : pystr :=
  match e with
  | PWTimeoutError _ => lit "Timeout: "
  | PWError _ => lit "Playwright error (возможен вылет вкладки/сессии): "
  | _ => lit "Exception: "
  end.

(** The variables after an [except] clause that took screenshot [p]. *)
Definition error_locals (l : Locals) (e : fault) (p : pystr) : Locals :=
  mkLocals (lit "ERROR") (date_text l) (year_ l) p
           (except_prefix e ++ str_of_fault e).

(** The dictionary appended for the variables [l]. *)
Definition row_of (cfg : Config) (item_id : pystr) (l : Locals) : Row :=
  mkRow item_id (make_url cfg item_id) (date_text l) (year_ l) (OK_YEAR cfg)
        (status l) (comment l) (screenshot_path l).

Section PassParts.

Context {U : UnicodeDB} {W : Type} (page : Handler W).

(** The steps of a pass up to the row lookup: navigation, the wait for the
    table, session assurance and the count of matching links. *)
Definition locate (cfg : Config) (item_id : pystr) : SE (St W) nat :=
  perform page (Goto (make_url cfg item_id)) ;;
  wait_for_table page ;;
  ensure_admin_session page ;;
  perform page (FirstCount (link_selector item_id)).

(** Reading the row found and extracting its date. *)
Definition read_row (item_id : pystr) : SE (St W) (pystr * option Z) :=
  row_text <- perform page (RowInnerText (link_selector item_id)) ;;
  lift_res (extract_year row_text).

(** What [save_screenshot] comes to: one call, and the path or the empty
    string according to its answer. *)
Definition shot (cfg : Config) (status item_id : pystr) (st : St W)
  : pystr * St W :=
  let path := screenshot_file cfg (replace1 32%N 95%N status) item_id in
  let '(r, w) := page _ (Screenshot path) (world st) in
  (match r with Ok _ => path | Raise _ => lit "" end,
   mkSt w (trace st ++ [Ev (Screenshot path) r])).

(** The recovery of the [except PWError] clause: back to the admin root,
    session assurance, and whatever fails is dropped. *)
Definition recovery (cfg : Config) : SE (St W) unit :=
  try_catch
    (perform page (Goto (admin_root cfg)) ;; ensure_admin_session page)
    (fun _ => ret tt).

(** A pass whose [try] raised [e] in state [st1]. *)
Definition error_pass (cfg : Config) (id : pystr) (e : fault) (st1 : St W)
  : Res Row * St W :=
  let '(p, st2) := shot cfg (lit "ERROR") id st1 in
  (Ok (row_of cfg id (error_locals initial_locals e p)),
   match e with PWError _ => snd (recovery cfg st2) | _ => st2 end).

(** Every event a computation adds to the trace satisfies [P]. *)
Definition grows (P : event -> Prop) {A} (m : SE (St W) A) : Prop :=
  forall st, exists evs, trace (snd (m st)) = trace st ++ evs /\ Forall P evs.

(** [rows] are the rows of the passes over [ids], one after the other,
    each pass starting in the state the one before left. *)
Inductive passes (cfg : Config)
  : list pystr -> St W -> list Row -> St W -> Prop :=
  | passes_nil st : passes cfg [] st [] st
  | passes_cons item_id ids st row st1 rows st2 :
      main_iter page cfg item_id st = (Ok row, st1) ->
      passes cfg ids st1 rows st2 ->
      passes cfg (item_id :: ids) st (row :: rows) st2.

End PassParts.

(** ** Events *)

(** The calls of session assurance: counts of elements, the prompt and
    the short wait. *)
Definition is_probe (ev : event) : Prop :=
  match ev with
  | Ev c _ =>
    match c with
    | Count _ | Print _ | Input _ | WaitForTimeout _ => True
    | _ => False
    end
  end.

(** The wait for the results table. *)
Definition table_wait : call unit := WaitForSelector table_selector 15000.

(** An event that is no navigation to the admin root. *)
Definition not_root (cfg : Config) (ev : event) : Prop :=
  is_goto (admin_root cfg) ev = false.

(** ** Scripted pages *)

Definition pystr_eqb (a b : pystr) : bool :=
  if list_eq_dec N.eq_dec a b then true else false.

(** A page on which the link is there but the row goes away before its
    text is read: navigation, the table, the logout link, one matching
    link, then a Playwright error. *)
Definition detached_script : list reply :=
  [RDone; RDone; RCount 1; RCount 1; RFail (PWError (lit "Target closed"))].

(** The configuration of the boundary case: the expected year is 2024. *)
Definition config_2024 : Config :=
  mkConfig (BASE_URL default_config) (ENTITY_ID default_config) 2024
           (os_sep default_config).

(** A page with one matching row, created on 1 February 2025. *)
Definition boundary_script : list reply :=
  [RDone; RDone; RCount 1; RCount 1;
   RText (lit "A1	Тест	01.02.2025 10:00:00	admin")].

(** A page with one matching row that shows no date. *)
Definition dateless_script : list reply :=
  [RDone; RDone; RCount 1; RCount 1; RText (lit "A1	Тест	admin")].

(** A navigation that fails with an exception of no particular class. *)
Definition broken_script : list reply :=
  [RFail (Exception (lit "net::ERR_CONNECTION_RESET"))].

(** A page without a matching link, on which the screenshot fails. *)
Definition empty_script : list reply :=
  [RDone; RDone; RCount 1; RCount 0; RFail (PWError (lit "Target closed"))].

(** The same page with a working screenshot. *)
Definition empty_script_shot : list reply :=
  [RDone; RDone; RCount 1; RCount 0; RDone].

(** A page whose table never shows: navigation, a timeout, the logout
    link, a second timeout. *)
Definition timeout_script : list reply :=
  [RDone; RFail (PWTimeoutError (lit "Timeout 15000ms exceeded."));
   RCount 1; RFail (PWTimeoutError (lit "Timeout 15000ms exceeded, again."))].

(** ** The calls of a pass, by kind *)

Definition is_screenshot (ev : event) : bool :=
  match ev with
  | Ev (Screenshot _) _ => true
  | _ => false
  end.

Definition is_input (ev : event) : bool :=
  match ev with
  | Ev (Input _) _ => true
  | _ => false
  end.

(** The elements session assurance looks for. *)
Definition logout_link : pystr := lit "a[href*='logout=Y']".
Definition login_field : pystr := lit "input[name='USER_LOGIN']".
Definition password_field : pystr := lit "input[name='USER_PASSWORD']".

(** The statuses under which a pass takes a screenshot. *)
Definition shot_status (s : pystr) : Prop :=
  s = lit "NOT FOUND" \/ s = lit "FAIL" \/ s = lit "ERROR".

(** An event that is neither a navigation nor a screenshot. *)
Definition quiet (ev : event) : Prop :=
  is_goto_any ev = false /\ is_screenshot ev = false.

(** What session assurance prints and asks on the login page. *)
Definition login_notice : pystr :=
  lit "⚠️ Открылась страница логина. Похоже, сессия закончилась.".
Definition login_prompt : pystr :=
  lit "👉 Войди в админку в этом окне и нажми ENTER, чтобы продолжить...".

(** ** The settings of the module *)

(** [os.getenv(key, default)]; the environment is the one [load_dotenv]
    left. *)
Definition getenv (environ : pystr -> option pystr) (key default : pystr)
  : pystr :=
  match environ key with
  | Some v => v
  | None => default
  end.

(** [s.lstrip(chars)] and [s.rstrip(chars)]: the characters of [chars]
    are removed from that end for as long as there are any. *)
Fixpoint lstrip_chars (chars s : pystr) : pystr :=
  match s with
  | c :: s' => if existsb (N.eqb c) chars then lstrip_chars chars s' else s
  | [] => []
  end.

Definition rstrip_chars (chars s : pystr) : pystr :=
  rev (lstrip_chars chars (rev s)).

(** The globals [BASE_URL], [ENTITY_ID] and [OK_YEAR] as the module
    computes them. *)
Definition config_of_environ (environ : pystr -> option pystr) (sep : pystr)
  : Config :=
  {| BASE_URL :=
       rstrip_chars (lit "/")
         (getenv environ (lit "BITRIX_BASE_URL") (lit "https://globaldrive.ru"));
     ENTITY_ID := getenv environ (lit "ENTITY_ID") (lit "4");
     OK_YEAR := 2025;
     os_sep := sep |}.

(** ** The identifiers to check *)

Definition EXTERNAL_IDS_PATH : pystr := lit "C:\work_data\bitrix_ids\ids.csv".
Definition EXAMPLE_IDS_FILE : pystr := lit "ids_example.csv".

(** The namespace [parse_args] returns: two flags and an integer. *)
Record Args : Set := mkArgs {
  args_prod : bool;           (* --prod *)
  args_example : bool;        (* --example *)
  args_start_from : Z         (* --start-from, 1 when not given *)
}.

(** Exceptions of this stage that no [except] clause of the script names. *)
Definition FileNotFoundError (msg : pystr) : fault := Exception msg.
Definition KeyError (key : pystr) : fault :=
  Exception (lit "'" ++ key ++ lit "'").
Definition IndexError (msg : pystr) : fault := Exception msg.

(** pandas: the cells of a frame and the text [astype(str)] gives each of
    them (a number's digits, [nan] for a missing value, a string
    itself). *)
Class Pandas := { cell : Type; astype_str : cell -> pystr }.

(** A frame: the length of its index and its columns, name and values, in
    the file's order ([read_csv] makes the names differ). *)
Record DataFrame {P : Pandas} : Type := mkDataFrame {
  df_index : nat;
  df_columns : list (pystr * list cell)
}.

(** [df.empty]: one of the two axes has length 0. *)
Definition df_empty {P : Pandas} (df : DataFrame) : bool :=
  ((df_index df =? 0) || (length (df_columns df) =? 0))%nat.

(** [name in df.columns] *)
Definition df_has_column {P : Pandas} (name : pystr) (df : DataFrame) : bool :=
  existsb (fun nc => pystr_eqb (fst nc) name) (df_columns df).

(** [df[name]] *)
Definition df_getitem {P : Pandas} (name : pystr) (df : DataFrame)
  : Res (list cell) :=
  match find (fun nc => pystr_eqb (fst nc) name) (df_columns df) with
  | Some nc => Ok (snd nc)
  | None => Raise (KeyError name)
  end.

(** [df.iloc[:, 0]] *)
Definition df_iloc_first {P : Pandas} (df : DataFrame) : Res (list cell) :=
  match df_columns df with
  | nc :: _ => Ok (snd nc)
  | [] => Raise (IndexError (lit "single positional indexer is out-of-bounds"))
  end.

(** [str.lower]: an ASCII string is lowered letter by letter; any other
    goes through the interpreter's Unicode database. *)
Class CaseDB := { lower_full : pystr -> pystr }.

Definition is_ascii (s : pystr) : bool := forallb (fun c => (c <? 128)%N) s.

Definition ascii_lower (c : char) : char :=
  if ((65 <=? c) && (c <=? 90))%N then (c + 32)%N else c.

Definition lower {C : CaseDB} (s : pystr) : pystr :=
  if is_ascii s then map ascii_lower s else lower_full s.

(** The file system and pandas's reader: any state, any answers. *)
Record Disk {P : Pandas} (W : Type) : Type := mkDisk {
  path_exists : pystr -> W -> bool * W;          (* os.path.exists(path) *)
  read_csv : pystr -> W -> Res DataFrame * W     (* pd.read_csv(path) *)
}.
Arguments path_exists {P W} _ _ _.
Arguments read_csv {P W} _ _ _.

(** [x and x.lower() != "nan"] *)
Definition keeps {C : CaseDB} (x : pystr) : bool :=
  match x with
  | [] => false
  | _ => negb (pystr_eqb (lower x) (lit "nan"))
  end.

Section Identifiers.

Context {P : Pandas} {C : CaseDB} {W : Type} (disk : Disk W).

Definition os_path_exists (path : pystr) : SE W bool :=
  fun w => let '(b, w') := path_exists disk path w in (Ok b, w').

Definition resolve_input_file (args : Args) : SE W pystr :=
  if args_example args && args_prod args then
    raise (ValueError (lit "Нельзя одновременно использовать --example и --prod"))
  else if args_example args then ret EXAMPLE_IDS_FILE
  else if args_prod args then ret EXTERNAL_IDS_PATH
  else
    e <- os_path_exists EXTERNAL_IDS_PATH ;;
    ret (if e : bool then EXTERNAL_IDS_PATH else EXAMPLE_IDS_FILE).

Definition load_ids_from_csv (path : pystr) : SE W (list pystr) :=
  e <- os_path_exists path ;;
  if negb e then raise (FileNotFoundError (lit "Файл не найден: " ++ path))
  else
    df <- read_csv disk path ;;
    if df_empty df then raise (ValueError (lit "Файл пустой: " ++ path))
    else
      raw <- lift_res (if df_has_column (lit "ID") df
                       then df_getitem (lit "ID") df
                       else df_iloc_first df) ;;
      let ids := map strip (map astype_str raw) in
      let ids := filter keeps ids in
      if (length ids =? 0)%nat
      then raise (ValueError (lit "В файле нет валидных ID: " ++ path))
      else ret ids.

End Identifiers.

(** The column the loader reads: [ID] when the frame has one, the first
    column otherwise. *)
Definition id_column {P : Pandas} (df : DataFrame) : option (list cell) :=
  match find (fun nc => pystr_eqb (fst nc) (lit "ID")) (df_columns df) with
  | Some nc => Some (snd nc)
  | None =>
    match df_columns df with
    | nc :: _ => Some (snd nc)
    | [] => None
    end
  end.

(** An ASCII spelling of [nan], in any letter case. *)
Definition nan_spelling (x : pystr) : Prop :=
  exists a b c,
    x = [a; b; c] /\ (a = 110 \/ a = 78)%N /\ (b = 97 \/ b = 65)%N
    /\ (c = 110 \/ c = 78)%N.

(** Frames to compute with: a cell is a text or a missing value, which
    [astype(str)] renders as [nan]; strings are ASCII. *)
Definition text_cells : Pandas :=
  {| cell := option pystr;
     astype_str := fun c => match c with Some s => s | None => lit "nan" end |}.

Definition ascii_case : CaseDB := {| lower_full := fun s => s |}.

(** A disk that does not change: the files it holds, each with the frame
    [read_csv] makes of it. *)
Definition csv_disk {P : Pandas} (files : list (pystr * DataFrame)) : Disk unit :=
  {| path_exists := fun path w =>
       (existsb (fun f => pystr_eqb (fst f) path) files, w);
     read_csv := fun path w =>
       (match find (fun f => pystr_eqb (fst f) path) files with
        | Some f => Ok (snd f)
        | None => Raise (FileNotFoundError path)
        end, w) |}.

(** The example file: a column of names and a column of identifiers with
    blanks, a missing value, the text [NaN], an empty text and a
    duplicate. *)
Definition example_frame : @DataFrame text_cells :=
  @mkDataFrame text_cells 6
    [(lit "Name", [Some (lit "a"); Some (lit "b"); Some (lit "c");
                   Some (lit "d"); Some (lit "e"); Some (lit "f")]);
     (lit "ID", [Some (lit " A1 "); None; Some (lit "NaN"); Some (lit "B2");
                 Some (lit "  "); Some (lit "A1")])].

Definition example_disk : Disk unit :=
  csv_disk (P := text_cells) [(EXAMPLE_IDS_FILE, example_frame)].

(** [l[k:]]: a negative [k] counts from the end. *)
Definition slice_from {A : Type} (l : list A) (k : Z) : list A :=
  if (k <? 0)%Z then skipn (length l - Z.to_nat (- k)) l
  else skipn (Z.to_nat k) l.

(** [start_from = max(args.start_from, 1)] and [ids = ids[start_from - 1:]],
    statements of the module's top level, with [args] and [ids] as their
    parameters. *)
Definition start_from (args : Args) : Z := Z.max (args_start_from args) 1.

Definition ids_from (args : Args) (ids : list pystr) : list pystr :=
  slice_from ids (start_from args - 1).

(** ** The report's colours *)

(** What a cell of the sheet holds: a string, an integer, or something
    else, of which only the text [str] gives matters here. *)
Inductive value : Set :=
  | VStr (s : pystr)
  | VInt (z : Z)
  | VOther (text : pystr).

(** [str(v)] *)
Definition py_str (v : value) : pystr :=
  match v with
  | VStr s => s
  | VInt z => str_of_Z z
  | VOther t => t
  end.

(** [v == s] for a string [s]; [None] and numbers are no strings. *)
Definition value_is (v : option value) (s : pystr) : bool :=
  match v with
  | Some (VStr t) => pystr_eqb t s
  | _ => false
  end.

(** A cell: its value, whether its font is bold, and the colour of its
    solid fill, if it has one. *)
Record Cell : Set := mkCell {
  c_value : option value;
  c_bold : bool;
  c_fill : option pystr
}.

(** A worksheet: its dimensions, its cells by row and column from 1 (a
    cell never written holds [None]), and the widths set for its columns,
    by letter. *)
Record Worksheet : Type := mkWorksheet {
  max_row : nat;
  max_column : nat;
  cell_at : nat -> nat -> Cell;
  column_width : pystr -> option nat
}.

Definition set_cell (ws : Worksheet) (r c : nat) (x : Cell) : Worksheet :=
  mkWorksheet (max_row ws) (max_column ws)
    (fun r' c' => if ((r' =? r) && (c' =? c))%nat then x else cell_at ws r' c')
    (column_width ws).

Definition set_width (ws : Worksheet) (letter : pystr) (w : nat) : Worksheet :=
  mkWorksheet (max_row ws) (max_column ws) (cell_at ws)
    (fun l => if pystr_eqb l letter then Some w else column_width ws l).

(** [cell.font = Font(bold=True)] and [cell.fill = fill] *)
Definition set_bold (x : Cell) : Cell := mkCell (c_value x) true (c_fill x).
Definition set_fill (fill : pystr) (x : Cell) : Cell :=
  mkCell (c_value x) (c_bold x) (Some fill).

Definition fill_ok : pystr := lit "C6EFCE".
Definition fill_fail : pystr := lit "FFC7CE".
Definition fill_nf : pystr := lit "FFEB9C".
Definition fill_err : pystr := lit "D9D9D9".

(** [list.index]: the position of the first element equal to [s]. *)
Fixpoint index_of (s : pystr) (l : list (option value)) : option nat :=
  match l with
  | [] => None
  | v :: l' =>
    if value_is v s then Some O
    else match index_of s l' with
         | Some i => Some (S i)
         | None => None
         end
  end.

(** openpyxl's [get_column_letter]: the letters of a column, [A] to [Z],
    then [AA] and so on, for the columns 1 to 18278. *)
Fixpoint column_letters (fuel col_idx : nat) (letters : pystr) : pystr :=
  match fuel with
  | O => letters
  | S fuel' =>
    if (col_idx =? 0)%nat then letters
    else
      let remainder := (col_idx mod 26)%nat in
      let col_idx := (col_idx / 26)%nat in
      if (remainder =? 0)%nat
      then column_letters fuel' (col_idx - 1) (N.of_nat (26 + 64) :: letters)
      else column_letters fuel' col_idx (N.of_nat (remainder + 64) :: letters)
  end.

Definition get_column_letter (col_idx : nat) : Res pystr :=
  if (1 <=? col_idx)%nat && (Z.of_nat col_idx <=? 18278)%Z
  then Ok (column_letters col_idx col_idx [])
  else Raise (ValueError (lit "Invalid column index "
                          ++ str_of_Z (Z.of_nat col_idx))).

(** The workbook on disk: any state, any answers.  The script works on
    the active sheet. *)
Record Book (W : Type) : Type := mkBook {
  load_workbook : pystr -> W -> Res Worksheet * W;
  wb_save : pystr -> Worksheet -> W -> Res unit * W
}.
Arguments load_workbook {W} _ _ _.
Arguments wb_save {W} _ _ _ _.

(** The fill of a data row, by its status. *)
Definition fill_of (status : option value) : pystr :=
  if value_is status (lit "OK") then fill_ok
  else if value_is status (lit "FAIL") then fill_fail
  else if value_is status (lit "NOT FOUND") then fill_nf
  else fill_err.

(** The longest text of a column, [None] cells apart. *)
Definition column_max_len (ws : Worksheet) (c : nat) : nat :=
  fold_left
    (fun max_len r =>
       match c_value (cell_at ws r c) with
       | None => max_len
       | Some v => Nat.max max_len (length (py_str v))
       end)
    (List.seq 1 (max_row ws)) O.

(** The last loop of [colorize_excel]: a width for every column. *)
Fixpoint set_widths (cols : list nat) (ws : Worksheet) : Res Worksheet :=
  match cols with
  | [] => Ok ws
  | c :: cols' =>
    match get_column_letter c with
    | Raise e => Raise e
    | Ok col_letter =>
      let max_len := column_max_len ws c in
      set_widths cols' (set_width ws col_letter (Nat.min (max_len + 2) 70))
    end
  end.

Section Report.

Context {W : Type} (book : Book W).

Definition colorize_excel (path : pystr) : SE W unit :=
  ws <- load_workbook book path ;;
  let ws :=
    fold_left (fun ws c => set_cell ws 1 c (set_bold (cell_at ws 1 c)))
              (List.seq 1 (max_column ws)) ws in
  let headers := map (fun c => c_value (cell_at ws 1 c)) (List.seq 1 (max_column ws)) in
  match index_of (lit "Статус") headers with
  | None => wb_save book path ws
  | Some i =>
    let status_col := (i + 1)%nat in
    let ws :=
      fold_left
        (fun ws r =>
           let status := c_value (cell_at ws r status_col) in
           let fill := fill_of status in
           fold_left (fun ws c => set_cell ws r c (set_fill fill (cell_at ws r c)))
                     (List.seq 1 (max_column ws)) ws)
        (List.seq 2 (max_row ws - 1)) ws in
    ws <- lift_res (set_widths (List.seq 1 (max_column ws)) ws) ;;
    wb_save book path ws
  end.

End Report.

(** ** The sheet, in words *)

(** The values of the first row, [[c.value for c in ws[1]]]. *)
Definition headers (ws : Worksheet) : list (option value) :=
  map (fun c => c_value (cell_at ws 1 c)) (List.seq 1 (max_column ws)).

(** The column a run of letters names: [A] is 1, [Z] is 26, [AA] is 27. *)
Definition column_index (letters : pystr) : nat :=
  fold_left (fun acc ch => (acc * 26 + (N.to_nat ch - 64))%nat) letters O.

(** The column is among the columns 1 to [n]. *)
Definition in_columns (n c : nat) : bool := ((1 <=? c) && (c <=? n))%nat.

(** A data row: any row but the first. *)
Definition in_rows (n r : nat) : bool := ((2 <=? r) && (r <=? n))%nat.

(** Sheets to compute with: the cells of the rows given, from the first
    row and column on, and nothing else. *)
Definition sheet_of (rows : list (list (option value))) : Worksheet :=
  {| max_row := Nat.max 1 (length rows);
     max_column := fold_left (fun n row => Nat.max n (length row)) rows 1%nat;
     cell_at := fun r c =>
       if ((r =? 0) || (c =? 0))%nat then mkCell None false None
       else mkCell (nth (c - 1) (nth (r - 1) rows []) None) false None;
     column_width := fun _ => None |}.

(** A report of two rows: one OK, one ERROR. *)
Definition sample_report : Worksheet :=
  sheet_of
    [[Some (VStr (lit "ID")); Some (VStr (lit "URL"));
      Some (VStr (lit "Дата добавления")); Some (VStr (lit "Год"));
      Some (VStr (lit "Ожидаемый год")); Some (VStr (lit "Статус"));
      Some (VStr (lit "Комментарий")); Some (VStr (lit "Screenshot"))];
     [Some (VStr (lit "A1")); Some (VStr (make_url default_config (lit "A1")));
      Some (VStr (lit "01.02.2025 10:00:00")); Some (VInt 2025);
      Some (VInt 2025); Some (VStr (lit "OK")); None; None];
     [Some (VStr (lit "B2")); Some (VStr (make_url default_config (lit "B2")));
      None; None; Some (VInt 2025); Some (VStr (lit "ERROR"));
      Some (VStr (lit "Timeout: Timeout 15000ms exceeded."));
      Some (VStr (lit "screenshots\ERROR_B2.png"))]].

(** A workbook in memory: loading gives the sheet, saving records what
    was saved. *)
Definition memory_book (ws : Worksheet) : Book (list Worksheet) :=
  {| load_workbook := fun _ w => (Ok ws, w);
     wb_save := fun _ ws' w => (Ok tt, ws' :: w) |}.

Definition OUTPUT_FILE : pystr := lit "bitrix_2025_report.xlsx".

(** * Properties *)

(** ** The model at work on small inputs *)

Example lit_ascii : lit "a:1" = [97; 58; 49]%N.
Proof. reflexivity. Qed.

Example lit_cyrillic : lit "не" = [0x43D; 0x435]%N.
Proof. reflexivity. Qed.

Example str_of_Z_2025 : str_of_Z 2025 = lit "2025".
Proof. reflexivity. Qed.

Example strip_example : strip (lit "  a b
 ") = lit "a b".
Proof. reflexivity. Qed.

Example extract_year_ok :
  extract_year (U := ascii_db) (lit "42 | 01.02.2025 10:00:00 | x")
  = Ok (lit "01.02.2025 10:00:00", Some 2025%Z).
Proof. vm_compute. reflexivity. Qed.

Example extract_year_impossible :
  extract_year (U := ascii_db) (lit "31.02.2025 10:00:00")
  = Ok (lit "31.02.2025 10:00:00", None).
Proof. vm_compute. reflexivity. Qed.

Example extract_year_mixed_digits :
  extract_year (U := arabic_db) (lit "1٣.02.٢٠٢٥   1٠:0٠:0٠ 01.01.2020 00:00:00")
  = Ok (lit "1٣.02.٢٠٢٥   1٠:0٠:0٠", Some 2025%Z).
Proof. vm_compute. reflexivity. Qed.

Example extract_year_arabic_day :
  extract_year (U := arabic_db) (lit "٠١.٠٢.٢٠٢٥ ١٠:٠٠:٠٠")
  = Ok (lit "٠١.٠٢.٢٠٢٥ ١٠:٠٠:٠٠", None).
Proof. vm_compute. reflexivity. Qed.

(** ** Strings *)

Section StringFacts.

Lemma lstrip_spaces_app ws t : all_space ws -> lstrip (ws ++ t) = lstrip t.
Proof.
  induction 1 as [|c ws Hc _ IH]; simpl; [reflexivity|].
  now rewrite Hc.
Qed.

Lemma all_space_rev ws : all_space ws -> all_space (rev ws).
Proof. unfold all_space. apply Forall_rev. Qed.

Lemma rstrip_app_spaces t ws : all_space ws -> rstrip (t ++ ws) = rstrip t.
Proof.
  intros Hws. unfold rstrip. rewrite rev_app_distr.
  now rewrite lstrip_spaces_app by now apply all_space_rev.
Qed.

End StringFacts.

(** ** The matcher is sound and complete for the patterns' meaning *)

Section RegexFacts.

Context {U : UnicodeDB}.

Lemma star_self k s : In ([], s) (star k s).
Proof.
  destruct s as [|c s]; simpl; [now left|].
  destruct (cls_match k c); [apply in_or_app; right|]; now left.
Qed.

Lemma star_sound k s m rest :
  In (m, rest) (star k s) ->
  s = m ++ rest /\ Forall (fun c => cls_match k c = true) m.
Proof.
  revert m. induction s as [|c s IH]; intros m; simpl.
  - intros [[= <- <-]|[]]. split; [reflexivity | constructor].
  - destruct (cls_match k c) eqn:Hc.
    + intros Hin. apply in_app_or in Hin. destruct Hin as [Hin|[[= <- <-]|[]]].
      * apply in_map_iff in Hin. destruct Hin as [[m0 rest0] [[= <- <-] Hin]].
        destruct (IH _ Hin) as [-> Hm]. split; [reflexivity | now constructor].
      * split; [reflexivity | constructor].
    + intros [[= <- <-]|[]]. split; [reflexivity | constructor].
Qed.

Lemma star_complete k m rest :
  Forall (fun c => cls_match k c = true) m -> In (m, rest) (star k (m ++ rest)).
Proof.
  induction 1 as [|c m Hc _ IH]; simpl; [apply star_self|].
  rewrite Hc. apply in_or_app. left.
  apply in_map_iff. now exists (m, rest).
Qed.

Lemma many1_chars k m :
  matches (Many1 k) m <->
  m <> [] /\ Forall (fun c => cls_match k c = true) m.
Proof.
  split.
  - intros Hm. remember (Many1 k) as r eqn:Hr.
    induction Hm; try discriminate; injection Hr as ->.
    + split; [discriminate | now repeat constructor].
    + split; [discriminate|]. constructor; [assumption|]. now apply IHHm.
  - intros [Hne Hall]. induction Hall as [|c m Hc Hall IH]; [now elim Hne|].
    destruct m as [|d m].
    + now apply m_many1_one.
    + apply m_many1_more; [assumption|]. apply IH. discriminate.
Qed.

Lemma run_sound r : forall s g m rest,
  In (g, m, rest) (run r s) -> s = m ++ rest /\ matches r m.
Proof.
  induction r as [|k|k|r1 IH1 r2 IH2|r1 IH1 r2 IH2|name r IH];
    intros s g m rest Hin; simpl in Hin.
  - destruct Hin as [[= <- <- <-]|[]]. split; [reflexivity | constructor].
  - destruct s as [|c s]; [contradiction|].
    destruct (cls_match k c) eqn:Hc; [|contradiction].
    destruct Hin as [[= <- <- <-]|[]]. split; [reflexivity | now constructor].
  - destruct s as [|c s]; [contradiction|].
    destruct (cls_match k c) eqn:Hc; [|contradiction].
    apply in_map_iff in Hin. destruct Hin as [[m0 rest0] [[= <- <- <-] Hin]].
    destruct (star_sound _ _ _ _ Hin) as [-> Hm].
    split; [reflexivity|].
    apply many1_chars. split; [discriminate | now constructor].
  - apply in_flat_map in Hin. destruct Hin as [[[g1 m1] s1] [H1 Hin]].
    apply in_map_iff in Hin. destruct Hin as [[[g2 m2] s2] [[= <- <- <-] H2]].
    destruct (IH1 _ _ _ _ H1) as [-> Hm1].
    destruct (IH2 _ _ _ _ H2) as [-> Hm2].
    split; [now rewrite app_assoc | now constructor].
  - apply in_app_or in Hin. destruct Hin as [Hin|Hin].
    + destruct (IH1 _ _ _ _ Hin) as [-> Hm]. split; [reflexivity | now apply m_alt_l].
    + destruct (IH2 _ _ _ _ Hin) as [-> Hm]. split; [reflexivity | now apply m_alt_r].
  - apply in_map_iff in Hin. destruct Hin as [[[g0 m0] rest0] [[= <- <- <-] Hin]].
    destruct (IH _ _ _ _ Hin) as [-> Hm]. split; [reflexivity | now constructor].
Qed.

Lemma run_complete r m :
  matches r m -> forall rest, exists g, In (g, m, rest) (run r (m ++ rest)).
Proof.
  induction 1 as [|k c Hc|k c Hc|k c m Hc Hm IH|r1 r2 m1 m2 H1 IH1 H2 IH2
                 |r1 r2 m Hm IH|r1 r2 m Hm IH|name r m Hm IH]; intros rest.
  - exists []. now left.
  - exists []. simpl. rewrite Hc. now left.
  - exists []. simpl. rewrite Hc. apply in_map_iff. exists ([], rest).
    split; [reflexivity | apply star_self].
  - exists []. simpl. rewrite Hc. apply in_map_iff. exists (m, rest).
    split; [reflexivity|]. apply star_complete. now apply many1_chars in Hm.
  - destruct (IH1 (m2 ++ rest)) as [g1 Hg1]. destruct (IH2 rest) as [g2 Hg2].
    exists (g1 ++ g2). simpl. rewrite <- app_assoc.
    apply in_flat_map. exists (g1, m1, m2 ++ rest). split; [assumption|].
    apply in_map_iff. now exists (g2, m2, rest).
  - destruct (IH rest) as [g Hg]. exists g. simpl. apply in_or_app. now left.
  - destruct (IH rest) as [g Hg]. exists g. simpl. apply in_or_app. now right.
  - destruct (IH rest) as [g Hg]. exists ((name, m) :: g). simpl.
    apply in_map_iff. now exists (g, m, rest).
Qed.

Lemma leftmost_ext (P Q : pystr -> Prop) s pre m post :
  (forall x, P x <-> Q x) -> leftmost P s pre m post -> leftmost Q s pre m post.
Proof.
  intros HPQ [Hs [Hm Hmin]]. split; [exact Hs|]. split; [now apply HPQ|].
  intros pre' m' post' Hs' Hm'. apply (Hmin pre' m' post' Hs'). now apply HPQ.
Qed.

Lemma absent_ext (P Q : pystr -> Prop) s :
  (forall x, P x <-> Q x) -> absent P s -> absent Q s.
Proof.
  intros HPQ Habs pre m post Hs Hm. apply (Habs pre m post Hs). now apply HPQ.
Qed.

Lemma leftmost_not_absent (P : pystr -> Prop) s pre m post :
  leftmost P s pre m post -> ~ absent P s.
Proof. intros [Hs [Hm _]] Habs. exact (Habs pre m post Hs Hm). Qed.

Lemma re_match_none r s :
  re_match r s = None -> forall m post, s = m ++ post -> ~ matches r m.
Proof.
  unfold re_match. intros Hrun m post -> Hm.
  destruct (run_complete _ _ Hm post) as [g Hg].
  destruct (run r (m ++ post)); [contradiction | discriminate].
Qed.

Lemma re_match_some r s g m rest :
  re_match r s = Some (g, m, rest) -> s = m ++ rest /\ matches r m.
Proof.
  unfold re_match. intros Hrun.
  destruct (run r s) as [|x l] eqn:Hr; [discriminate|]. injection Hrun as ->.
  apply (run_sound r s g m rest). rewrite Hr. now left.
Qed.

Lemma re_search_from_some r : forall s before pre m post,
  re_search_from r before s = Some (pre, m, post) ->
  exists p, pre = before ++ p /\ first_match r s p m post.
Proof.
  induction s as [|c s IH]; intros before pre m post; simpl.
  - destruct (re_match r []) as [[[g m0] rest]|] eqn:Hm; [|discriminate].
    intros Heq. injection Heq as <- <- <-.
    destruct (re_match_some _ _ _ _ _ Hm) as [Hs Hmat].
    exists []. split; [now rewrite app_nil_r|].
    split; [exact Hs|]. split; [exact Hmat|]. intros; simpl; lia.
  - destruct (re_match r (c :: s)) as [[[g m0] rest]|] eqn:Hm.
    + intros Heq. injection Heq as <- <- <-.
      destruct (re_match_some _ _ _ _ _ Hm) as [Hs Hmat].
      exists []. split; [now rewrite app_nil_r|].
      split; [exact Hs|]. split; [exact Hmat|]. intros; simpl; lia.
    + intros Hsearch. destruct (IH _ _ _ _ Hsearch) as [p [-> [Hs [Hmat Hmin]]]].
      exists (c :: p). split; [now rewrite <- app_assoc|].
      split; [simpl; now f_equal|]. split; [exact Hmat|].
      intros pre' m' post' Hs' Hm'. destruct pre' as [|c' pre'].
      * exfalso. exact (re_match_none _ _ Hm m' post' Hs' Hm').
      * simpl in Hs'. injection Hs' as _ Hs'. simpl.
        apply le_n_S. now apply (Hmin pre' m' post').
Qed.

Lemma re_search_from_none r : forall s before,
  re_search_from r before s = None -> no_match r s.
Proof.
  induction s as [|c s IH]; intros before; simpl.
  - destruct (re_match r []) as [[[g m0] rest]|] eqn:Hm; [discriminate|].
    intros _ pre m post Hs Hmat.
    destruct pre; [|discriminate]. exact (re_match_none _ _ Hm m post Hs Hmat).
  - destruct (re_match r (c :: s)) as [[[g m0] rest]|] eqn:Hm; [discriminate|].
    intros Hsearch pre m post Hs Hmat. destruct pre as [|c' pre].
    + exact (re_match_none _ _ Hm m post Hs Hmat).
    + simpl in Hs. injection Hs as _ Hs. exact (IH _ Hsearch _ _ _ Hs Hmat).
Qed.

End RegexFacts.

(** ** The date pattern, in words *)

Section DateToken.

Context {U : UnicodeDB}.

Lemma matches_one_cons k c r m :
  cls_match k c = true -> matches r m -> matches (Cat (One k) r) (c :: m).
Proof. intros Hc Hm. apply (@m_cat U (One k) r [c] m); [now constructor | exact Hm]. Qed.

Lemma matches_eps_cat r m : matches r m -> matches (Cat Eps r) m.
Proof. intros Hm. apply (@m_cat U Eps r [] m); [constructor | exact Hm]. Qed.

Lemma matches_cat_assoc r1 r2 r3 m :
  matches (Cat r1 (Cat r2 r3)) m -> matches (Cat (Cat r1 r2) r3) m.
Proof.
  intros H. inversion H as [| | | |? ? m1 m23 H1 H23| | |]; subst.
  inversion H23 as [| | | |? ? m2 m3 H2 H3| | |]; subst.
  rewrite app_assoc. constructor; [now constructor | exact H3].
Qed.

Lemma matches_many1_app k r m1 m2 :
  m1 <> [] -> Forall (fun c => cls_match k c = true) m1 -> matches r m2 ->
  matches (Cat (Many1 k) r) (m1 ++ m2).
Proof.
  intros Hne Hall Hm. constructor; [|exact Hm]. now apply many1_chars.
Qed.

Ltac inv_matches :=
  repeat match goal with
  | H : matches Eps _ |- _ => inversion H; clear H; subst
  | H : matches (One _) _ |- _ => inversion H; clear H; subst
  | H : matches (Cat _ _) _ |- _ => inversion H; clear H; subst
  | H : matches (Grp _ _) _ |- _ => inversion H; clear H; subst
  | H : cls_match (CChr _) _ = true |- _ =>
      simpl in H; apply N.eqb_eq in H; subst
  | H : cls_match CDigit _ = true |- _ => simpl in H
  end.

Lemma DATE_RE_matches m : matches DATE_RE m <-> date_token m.
Proof.
  let r := eval cbv in DATE_RE in change DATE_RE with r.
  split.
  - intros H. inv_matches.
    match goal with H : matches (Many1 CSpace) _ |- _ =>
      apply many1_chars in H; destruct H as [Hne Hws]; simpl in Hws
    end.
    match goal with
    | |- date_token
           (([?d1] ++ [?d2] ++ []) ++ _ ++ ([?m1] ++ [?m2] ++ []) ++ _ ++
            ([?y1] ++ [?y2] ++ [?y3] ++ [?y4] ++ []) ++ ?ws ++
            ([?h1] ++ [?h2] ++ []) ++ _ ++ ([?i1] ++ [?i2] ++ []) ++ _ ++
            ([?s1] ++ [?s2] ++ []) ++ []) =>
      exists d1, d2, m1, m2, y1, y2, y3, y4, ws, h1, h2, i1, i2, s1, s2
    end.
    split; [reflexivity|].
    split; [repeat constructor; assumption|]. now split.
  - intros (d1 & d2 & m1 & m2 & y1 & y2 & y3 & y4 & ws & h1 & h2 & i1 & i2
            & s1 & s2 & -> & Hd & Hne & Hws).
    repeat match goal with
    | H : all_decimal (_ :: _) |- _ => inversion H; clear H; subst
    | H : Forall _ (_ :: _) |- _ => inversion H; clear H; subst
    end.
    simpl.
    repeat first
      [ apply matches_cat_assoc
      | apply matches_eps_cat
      | apply matches_one_cons; [first [assumption | reflexivity]|]
      | apply matches_many1_app; [exact Hne | exact Hws |]
      | apply m_eps ].
Qed.

Lemma decimal_colon : isdecimal 58%N = false.
Proof. reflexivity. Qed.

Lemma isspace_colon : isspace 58%N = false.
Proof. reflexivity. Qed.

(** A run of blanks in front of [HH:] has one length only. *)
Lemma blanks_before_time ws h1 h2 rest h1' h2' rest' :
  all_space ws ->
  isdecimal h1' = true -> isdecimal h2' = true ->
  (h1 :: h2 :: 58 :: rest)%N = ws ++ (h1' :: h2' :: 58 :: rest')%N ->
  ws = [].
Proof.
  intros Hws H1 H2 Heq.
  destruct ws as [|a [|b [|c ws]]]; [reflexivity|exfalso..]; simpl in Heq.
  - injection Heq as _ _ E _. subst h2'. now rewrite decimal_colon in H2.
  - injection Heq as _ _ E _. subst h1'. now rewrite decimal_colon in H1.
  - injection Heq as _ _ E _. subst c.
    inversion Hws as [|? ? _ Hws1]; inversion Hws1 as [|? ? _ Hws2].
    inversion Hws2 as [|? ? Hc _]. now rewrite isspace_colon in Hc.
Qed.

Lemma blanks_unique : forall ws ws' h1 h2 rest h1' h2' rest',
  all_space ws -> all_space ws' ->
  isdecimal h1 = true -> isdecimal h2 = true ->
  isdecimal h1' = true -> isdecimal h2' = true ->
  ws ++ (h1 :: h2 :: 58 :: rest)%N = ws' ++ (h1' :: h2' :: 58 :: rest')%N ->
  ws = ws'.
Proof.
  induction ws as [|c ws IH]; intros ws' h1 h2 rest h1' h2' rest'
    Hws Hws' H1 H2 H1' H2' Heq.
  - simpl in Heq. symmetry.
    exact (blanks_before_time _ _ _ _ _ _ _ Hws' H1' H2' Heq).
  - destruct ws' as [|c' ws'].
    + simpl in Heq. symmetry in Heq.
      exact (blanks_before_time _ _ _ _ _ _ _ Hws H1 H2 Heq).
    + simpl in Heq. injection Heq as -> Heq. f_equal.
      inversion Hws; inversion Hws'; subst.
      now apply (IH ws' h1 h2 rest h1' h2' rest').
Qed.

(** At a given position the pattern matches at most one substring. *)
Lemma date_token_unique m post m' post' :
  date_token m -> date_token m' -> m ++ post = m' ++ post' ->
  m = m' /\ post = post'.
Proof.
  intros (d1 & d2 & m1 & m2 & y1 & y2 & y3 & y4 & ws & h1 & h2 & i1 & i2
          & s1 & s2 & -> & Hd & Hne & Hws)
         (d1' & d2' & m1' & m2' & y1' & y2' & y3' & y4' & ws' & h1' & h2'
          & i1' & i2' & s1' & s2' & -> & Hd' & Hne' & Hws') Heq.
  simpl in Heq. injection Heq as -> -> -> -> -> -> -> -> Heq.
  rewrite <- !app_assoc in Heq. simpl in Heq.
  assert (Hh : isdecimal h1 = true /\ isdecimal h2 = true
               /\ isdecimal h1' = true /\ isdecimal h2' = true).
  { unfold all_decimal in Hd, Hd'. rewrite Forall_forall in Hd, Hd'.
    repeat split; [apply Hd | apply Hd | apply Hd' | apply Hd'];
      simpl; tauto. }
  destruct Hh as (H1 & H2 & H1' & H2').
  assert (ws = ws')
    by exact (blanks_unique _ _ _ _ _ _ _ _ Hws Hws' H1 H2 H1' H2' Heq).
  subst ws'. apply app_inv_head in Heq.
  injection Heq as -> -> -> -> -> -> ->. now split.
Qed.

Lemma app_eq_length_inv (a b a' b' : pystr) :
  a ++ b = a' ++ b' -> length a = length a' -> a = a' /\ b = b'.
Proof.
  revert a'. induction a as [|x a IH]; intros [|x' a'] Heq Hlen;
    try discriminate; simpl in *.
  - now split.
  - injection Heq as -> Heq. injection Hlen as Hlen.
    destruct (IH _ Heq Hlen) as [-> ->]. now split.
Qed.

(** The first date token of a text is well defined. *)
Lemma leftmost_date_token_unique s pre m post pre' m' post' :
  leftmost date_token s pre m post -> leftmost date_token s pre' m' post' ->
  pre = pre' /\ m = m' /\ post = post'.
Proof.
  intros [Hs [Hm Hmin]] [Hs' [Hm' Hmin']].
  assert (Hlen : length pre = length pre').
  { apply Nat.le_antisymm.
    - exact (Hmin _ _ _ Hs' Hm').
    - exact (Hmin' _ _ _ Hs Hm). }
  rewrite Hs in Hs'.
  destruct (app_eq_length_inv _ _ _ _ Hs' Hlen) as [-> Hrest].
  destruct (date_token_unique _ _ _ _ Hm Hm' Hrest) as [-> ->]. now repeat split.
Qed.

End DateToken.

(** ** The date extractor *)

Section ExtractYear.

Context {U : UnicodeDB}.

Lemma extract_year_search text :
  extract_year text =
  match re_search DATE_RE (strip text) with
  | None => Ok ([], None)
  | Some (_, m, _) => Ok (m, parsed_year m)
  end.
Proof.
  unfold extract_year, parsed_year, try_except, bindR.
  replace (str_or text (lit "")) with text by now destruct text.
  destruct (re_search DATE_RE (strip text)) as [[[pre m] post]|]; [|reflexivity].
  now destruct (strptime m).
Qed.

Lemma search_date_some s pre m post :
  re_search DATE_RE s = Some (pre, m, post) -> leftmost date_token s pre m post.
Proof.
  intros H. destruct (re_search_from_some _ _ _ _ _ _ H) as [p [-> Hl]].
  simpl. exact (leftmost_ext _ _ _ _ _ _ DATE_RE_matches Hl).
Qed.

Lemma search_date_none s : re_search DATE_RE s = None -> absent date_token s.
Proof.
  intros H. apply (absent_ext _ _ _ DATE_RE_matches).
  exact (re_search_from_none _ _ _ H).
Qed.

Lemma extract_year_absent text :
  absent date_token (strip text) -> extract_year text = Ok ([], None).
Proof.
  intros Habs. rewrite extract_year_search.
  destruct (re_search DATE_RE (strip text)) as [[[pre m] post]|] eqn:Hs;
    [|reflexivity].
  elim (leftmost_not_absent _ _ _ _ _ (search_date_some _ _ _ _ Hs) Habs).
Qed.

Lemma extract_year_leftmost text pre m post :
  leftmost date_token (strip text) pre m post ->
  extract_year text = Ok (m, parsed_year m).
Proof.
  intros Hl. rewrite extract_year_search.
  destruct (re_search DATE_RE (strip text)) as [[[pre' m'] post']|] eqn:Hs.
  - apply search_date_some in Hs.
    destruct (leftmost_date_token_unique _ _ _ _ _ _ _ Hs Hl) as (_ & -> & _).
    reflexivity.
  - elim (leftmost_not_absent _ _ _ _ _ Hl (search_date_none _ Hs)).
Qed.

Lemma extract_year_total text : exists d y, extract_year text = Ok (d, y).
Proof.
  rewrite extract_year_search.
  destruct (re_search DATE_RE (strip text)) as [[[pre m] post]|]; eauto.
Qed.

(** Blanks around a text do not change what is left after stripping. *)
Lemma lstrip_all_space ws : all_space ws -> lstrip ws = [].
Proof. induction 1 as [|c ws Hc _ IH]; simpl; [reflexivity | now rewrite Hc]. Qed.

Lemma strip_app_spaces_r t ws :
  all_space ws -> rstrip (lstrip (t ++ ws)) = rstrip (lstrip t).
Proof.
  intros Hws. induction t as [|c t IH]; simpl.
  - now rewrite lstrip_all_space.
  - destruct (isspace c); [exact IH|].
    now rewrite app_comm_cons, rstrip_app_spaces.
Qed.

Lemma strip_spaces ws1 t ws2 :
  all_space ws1 -> all_space ws2 -> strip (ws1 ++ t ++ ws2) = strip t.
Proof.
  intros H1 H2. unfold strip.
  now rewrite lstrip_spaces_app, strip_app_spaces_r.
Qed.

Lemma extract_year_spaces ws1 text ws2 :
  all_space ws1 -> all_space ws2 ->
  extract_year (ws1 ++ text ++ ws2) = extract_year text.
Proof.
  intros H1 H2. now rewrite !extract_year_search, strip_spaces.
Qed.

(** A date that parses has a year between 1 and 9999. *)
Lemma strptime_year_range m dt :
  strptime m = Ok dt -> (1 <= year dt <= 9999)%Z.
Proof.
  unfold strptime, bindR.
  destruct (re_match format_regex m) as [[[found m0] [|c rest]]|];
    try discriminate.
  destruct (int_group found "d") as [d|]; [|discriminate].
  destruct (int_group found "m") as [mo|]; [|discriminate].
  destruct (int_group found "Y") as [y|]; [|discriminate].
  destruct (int_group found "H") as [h|]; [|discriminate].
  destruct (int_group found "M") as [mi|]; [|discriminate].
  destruct (int_group found "S") as [s|]; [|discriminate].
  destruct (check_date_fields y mo d) eqn:Hd; [|discriminate].
  destruct (check_time_fields h mi s); [|discriminate].
  intros Heq. injection Heq as <-. simpl.
  unfold check_date_fields in Hd.
  destruct ((1 <=? y) && (y <=? 9999))%Z eqn:Hy; [|discriminate].
  apply andb_true_iff in Hy. destruct Hy as [H1 H2].
  apply Z.leb_le in H1, H2. lia.
Qed.

Lemma extract_year_nonzero text d y :
  extract_year text = Ok (d, Some y) -> (1 <= y <= 9999)%Z.
Proof.
  rewrite extract_year_search.
  destruct (re_search DATE_RE (strip text)) as [[[pre m] post]|];
    [|discriminate].
  unfold parsed_year. destruct (strptime m) as [dt|] eqn:Hp; [|discriminate].
  intros Heq. injection Heq as _ <-. exact (strptime_year_range _ _ Hp).
Qed.

End ExtractYear.

(** ** [strptime] on tokens written with ASCII digits *)

(** Case analysis on a digit value. *)
Tactic Notation "digit_cases" ident(v) ident(H) :=
  destruct v as [|[|[|[|[|[|[|[|[|[|v]]]]]]]]]]; [clear H ..|exfalso; lia].

Tactic Notation "field_cases" ident(a) ident(b) ident(Ha) ident(Hb) :=
  digit_cases a Ha; digit_cases b Hb; cbn;
  rewrite ?app_nil_r, ?map_map; try reflexivity;
  apply map_ext; intros [[g m] s]; reflexivity.

Section Calendar.

Context {U : UnicodeDB}.

Lemma decimal_dchar v : (v < 10)%nat -> decimal (dchar v) = Some (N.of_nat v).
Proof. intros H. digit_cases v H; reflexivity. Qed.

Lemma isdecimal_dchar v : (v < 10)%nat -> isdecimal (dchar v) = true.
Proof. intros H. unfold isdecimal. now rewrite decimal_dchar. Qed.

Lemma isspace_dchar v : (v < 10)%nat -> isspace (dchar v) = false.
Proof. intros H. digit_cases v H; reflexivity. Qed.

Lemma flat_map_nil {A B} (f : A -> list B) l :
  (forall x, In x l -> f x = []) -> flat_map f l = [].
Proof.
  induction l as [|x l IH]; intros H; simpl; [reflexivity|].
  rewrite (H x) by now left. apply IH. intros y Hy. apply H. now right.
Qed.

Lemma run_d a b R rest :
  (a < 10)%nat -> (b < 10)%nat ->
  run (Cat re_d (Cat (One (CChr 46%N)) R)) (dchar a :: dchar b :: 46%N :: rest)
  = if day_pat a b then map (field2 "d" a b 46%N) (run R rest) else [].
Proof. intros Ha Hb. field_cases a b Ha Hb. Qed.

Lemma run_m a b R rest :
  (a < 10)%nat -> (b < 10)%nat ->
  run (Cat re_m (Cat (One (CChr 46%N)) R)) (dchar a :: dchar b :: 46%N :: rest)
  = if month_pat a b then map (field2 "m" a b 46%N) (run R rest) else [].
Proof. intros Ha Hb. field_cases a b Ha Hb. Qed.

Lemma run_H a b R rest :
  (a < 10)%nat -> (b < 10)%nat ->
  run (Cat re_H (Cat (One (CChr 58%N)) R)) (dchar a :: dchar b :: 58%N :: rest)
  = if hour_pat a b then map (field2 "H" a b 58%N) (run R rest) else [].
Proof. intros Ha Hb. field_cases a b Ha Hb. Qed.

Lemma run_M a b R rest :
  (a < 10)%nat -> (b < 10)%nat ->
  run (Cat re_M (Cat (One (CChr 58%N)) R)) (dchar a :: dchar b :: 58%N :: rest)
  = if minute_pat a then map (field2 "M" a b 58%N) (run R rest) else [].
Proof. intros Ha Hb. field_cases a b Ha Hb. Qed.

(** The seconds close the pattern: both digits when they fit, and in any
    case the first digit alone, which leaves the second unread. *)
Lemma run_S a b :
  (a < 10)%nat -> (b < 10)%nat ->
  run (Cat re_S Eps) [dchar a; dchar b]
  = (if second_pat a b
     then [([("S"%string, [dchar a; dchar b])], [dchar a; dchar b], [])]
     else [])
    ++ [([("S"%string, [dchar a])], [dchar a], [dchar b])].
Proof. intros Ha Hb. digit_cases a Ha; digit_cases b Hb; reflexivity. Qed.

(** The year takes its four digits. *)
Lemma run_Y y1 y2 y3 y4 R rest :
  (y1 < 10)%nat -> (y2 < 10)%nat -> (y3 < 10)%nat -> (y4 < 10)%nat ->
  run (Cat re_Y R) (dchar y1 :: dchar y2 :: dchar y3 :: dchar y4 :: rest)
  = map (fun '(g, m, s) =>
           (("Y"%string, [dchar y1; dchar y2; dchar y3; dchar y4]) :: g,
            [dchar y1; dchar y2; dchar y3; dchar y4] ++ m, s))
        (run R rest).
Proof.
  intros H1 H2 H3 H4. unfold re_Y, digit.
  cbn [run cls_match flat_map map app].
  repeat (rewrite isdecimal_dchar by assumption;
          cbn [run cls_match flat_map map app]).
  rewrite ?app_nil_r, ?map_map. apply map_ext. intros [[g m] s]. reflexivity.
Qed.

(** No hour starts with a character that is not a decimal digit. *)
Lemma run_H_not_digit c s R :
  isdecimal c = false -> run (Cat re_H R) (c :: s) = [].
Proof.
  intros Hc. unfold isdecimal, decimal in Hc.
  assert (H50 : (c =? 50)%N = false).
  { destruct (N.eqb_spec c 50); [subst; discriminate | reflexivity]. }
  assert (H01 : ((48 <=? c) && (c <=? 49))%N = false).
  { destruct ((48 <=? c) && (c <=? 49))%N eqn:E; [|reflexivity].
    apply andb_true_iff in E. destruct E as [E1 E2].
    apply N.leb_le in E1, E2.
    replace (c <? 128)%N with true in Hc by (symmetry; apply N.ltb_lt; lia).
    replace ((48 <=? c) && (c <=? 57))%N with true in Hc; [discriminate|].
    symmetry. apply andb_true_iff. split; apply N.leb_le; lia. }
  assert (Hd : cls_match CDigit c = false).
  { simpl. unfold isdecimal, decimal. now destruct (c <? 128)%N, ((48 <=? c) && (c <=? 57))%N, (nd_value c). }
  unfold re_H, alts, chr, rng, digit.
  change (lit "2") with [50%N]. change (lit "0") with [48%N].
  change (lit "1") with [49%N]. change (lit "3") with [51%N].
  cbn [run flat_map map app]. rewrite Hd.
  cbn [cls_match]. rewrite H50, H01. reflexivity.
Qed.

(** Greedy blanks before a character that is not one: the whole run comes
    first, and every shorter run leaves a blank at the head. *)
Lemma star_blanks ws h rest :
  all_space ws -> isspace h = false ->
  exists tail,
    star CSpace (ws ++ h :: rest) = (ws, h :: rest) :: tail
    /\ Forall (fun x => exists c r, snd x = c :: r /\ In c ws) tail.
Proof.
  intros Hws Hh. induction Hws as [|c ws Hc Hws IH].
  - exists []. simpl. rewrite Hh. split; [reflexivity | constructor].
  - destruct IH as (tail & Heq & Htail). simpl. rewrite Hc, Heq. simpl.
    exists (map (fun '(m, r) => (c :: m, r)) tail ++ [([], c :: ws ++ h :: rest)]).
    split; [reflexivity|]. apply Forall_app. split.
    + apply Forall_map. apply (Forall_impl _ (P := fun x => exists c0 r, snd x = c0 :: r /\ In c0 ws)); [|exact Htail].
      intros [m r] (c0 & r0 & Hr & Hin). exists c0, r0. split; [exact Hr | now right].
    + constructor; [|constructor]. exists c, (ws ++ h :: rest).
      split; [reflexivity | now left].
Qed.

Lemma run_blanks R ws h rest :
  ws <> [] -> all_space ws -> isspace h = false ->
  (forall c s, In c ws -> run R (c :: s) = []) ->
  run (Cat (Many1 CSpace) R) (ws ++ h :: rest)
  = map (fun '(g, m, s) => (g, ws ++ m, s)) (run R (h :: rest)).
Proof.
  intros Hne Hws Hh Hdead. destruct ws as [|c ws]; [now elim Hne|].
  inversion Hws as [|? ? Hc Hws']; subst.
  destruct (star_blanks ws h rest Hws' Hh) as (tail & Heq & Htail).
  cbn [run app cls_match]. rewrite Hc, Heq. cbn [map flat_map].
  rewrite flat_map_nil.
  - rewrite app_nil_r. apply map_ext. intros [[g m] s]. reflexivity.
  - intros [[g m] s] Hin. apply in_map_iff in Hin.
    destruct Hin as [[m0 r0] [[= <- <- <-] Hin]].
    rewrite Forall_forall in Htail.
    destruct (Htail _ Hin) as (c0 & r & Hr & Hc0). simpl in Hr. subst r0.
    rewrite Hdead by now right. reflexivity.
Qed.

End Calendar.

Section AsciiToken.

Context {U : UnicodeDB}.

Variables (d1 d2 m1 m2 y1 y2 y3 y4 h1 h2 i1 i2 s1 s2 : nat) (ws : pystr).

Local Abbreviation token :=
  (ascii_token d1 d2 m1 m2 y1 y2 y3 y4 h1 h2 i1 i2 s1 s2 ws).
Local Abbreviation stamp := (spelled d1 d2 m1 m2 y1 y2 y3 y4 h1 h2 i1 i2 s1 s2).

Hypotheses (Hd1 : (d1 < 10)%nat) (Hd2 : (d2 < 10)%nat)
           (Hm1 : (m1 < 10)%nat) (Hm2 : (m2 < 10)%nat)
           (Hy1 : (y1 < 10)%nat) (Hy2 : (y2 < 10)%nat)
           (Hy3 : (y3 < 10)%nat) (Hy4 : (y4 < 10)%nat)
           (Hh1 : (h1 < 10)%nat) (Hh2 : (h2 < 10)%nat)
           (Hi1 : (i1 < 10)%nat) (Hi2 : (i2 < 10)%nat)
           (Hs1 : (s1 < 10)%nat) (Hs2 : (s2 < 10)%nat)
           (Hne : ws <> []) (Hws : all_space ws)
           (Hnd : Forall (fun c => isdecimal c = false) ws).

Lemma py_int_two a b :
  (a < 10)%nat -> (b < 10)%nat -> py_int [dchar a; dchar b] = Ok (two a b).
Proof. intros Ha Hb. digit_cases a Ha; digit_cases b Hb; reflexivity. Qed.

Lemma py_int_four :
  py_int [dchar y1; dchar y2; dchar y3; dchar y4] = Ok (four y1 y2 y3 y4).
Proof.
  unfold py_int, strip, rstrip. cbn [lstrip rev app].
  rewrite (isspace_dchar y1) by assumption. cbn [rev app lstrip].
  rewrite (isspace_dchar y4) by assumption. cbn [rev app].
  cbn [digits_value]. rewrite !decimal_dchar by assumption.
  unfold four. f_equal. lia.
Qed.

Lemma run_format_regex :
  run format_regex token =
  if day_pat d1 d2 && month_pat m1 m2 && hour_pat h1 h2 && minute_pat i1
  then
    (if second_pat s1 s2
     then [([("d", [dchar d1; dchar d2]); ("m", [dchar m1; dchar m2]);
             ("Y", [dchar y1; dchar y2; dchar y3; dchar y4]);
             ("H", [dchar h1; dchar h2]); ("M", [dchar i1; dchar i2]);
             ("S", [dchar s1; dchar s2])]%string,
            token, [])]
     else [])
    ++ [([("d", [dchar d1; dchar d2]); ("m", [dchar m1; dchar m2]);
          ("Y", [dchar y1; dchar y2; dchar y3; dchar y4]);
          ("H", [dchar h1; dchar h2]); ("M", [dchar i1; dchar i2]);
          ("S", [dchar s1])]%string,
         [dchar d1; dchar d2; 46; dchar m1; dchar m2; 46;
          dchar y1; dchar y2; dchar y3; dchar y4]%N
         ++ ws ++ [dchar h1; dchar h2; 58; dchar i1; dchar i2; 58; dchar s1]%N,
         [dchar s2])]
  else [].
Proof.
  unfold format_regex, seq. cbn [fold_right].
  change (chr ".") with (One (CChr 46%N)). change (chr ":") with (One (CChr 58%N)).
  unfold ascii_token. cbn [app].
  rewrite run_d, run_m, run_Y by assumption.
  rewrite run_blanks; try assumption;
    [|now apply isspace_dchar
     |intros c s Hc; apply run_H_not_digit;
      rewrite Forall_forall in Hnd; now apply Hnd].
  rewrite run_H, run_M, run_S by assumption.
  destruct (day_pat d1 d2); [|reflexivity].
  destruct (month_pat m1 m2); [|reflexivity].
  destruct (hour_pat h1 h2); [|reflexivity].
  destruct (minute_pat i1); [|reflexivity].
  cbn [andb].
  destruct (second_pat s1 s2); cbn; rewrite <- ?app_assoc; reflexivity.
Qed.

Lemma strptime_ascii_token :
  strptime token =
  if day_pat d1 d2 && month_pat m1 m2 && hour_pat h1 h2 && minute_pat i1
  then
    if second_pat s1 s2
    then
      bindR (check_date_fields (year stamp) (month stamp) (day stamp))
        (fun _ =>
      bindR (check_time_fields (hour stamp) (minute stamp) (second stamp))
        (fun _ => Ok stamp))
    else Raise (ValueError (lit "unconverted data remains"))
  else Raise (ValueError (lit "time data does not match format")).
Proof.
  unfold strptime, re_match. rewrite run_format_regex.
  destruct (day_pat d1 d2 && month_pat m1 m2 && hour_pat h1 h2 && minute_pat i1);
    [|reflexivity].
  destruct (second_pat s1 s2); [|reflexivity].
  cbn [app int_group group String.eqb Ascii.eqb Bool.eqb].
  rewrite !py_int_two, py_int_four by assumption.
  reflexivity.
Qed.

Lemma day_pat_range a b :
  (a < 10)%nat -> (b < 10)%nat ->
  day_pat a b = ((1 <=? two a b) && (two a b <=? 31))%Z.
Proof. intros Ha Hb. digit_cases a Ha; digit_cases b Hb; reflexivity. Qed.

Lemma month_pat_range a b :
  (a < 10)%nat -> (b < 10)%nat ->
  month_pat a b = ((1 <=? two a b) && (two a b <=? 12))%Z.
Proof. intros Ha Hb. digit_cases a Ha; digit_cases b Hb; reflexivity. Qed.

Lemma hour_pat_range a b :
  (a < 10)%nat -> (b < 10)%nat -> hour_pat a b = (two a b <=? 23)%Z.
Proof. intros Ha Hb. digit_cases a Ha; digit_cases b Hb; reflexivity. Qed.

Lemma minute_pat_range a b :
  (a < 10)%nat -> (b < 10)%nat -> minute_pat a = (two a b <=? 59)%Z.
Proof. intros Ha Hb. digit_cases a Ha; digit_cases b Hb; reflexivity. Qed.

Lemma second_pat_range a b :
  (a < 10)%nat -> (b < 10)%nat -> second_pat a b = (two a b <=? 61)%Z.
Proof. intros Ha Hb. digit_cases a Ha; digit_cases b Hb; reflexivity. Qed.

Lemma days_in_month_le y m : (28 <= days_in_month y m <= 31)%Z.
Proof.
  unfold days_in_month.
  destruct (m =? 2)%Z; [destruct (is_leap y); lia|].
  destruct ((m =? 4) || (m =? 6) || (m =? 9) || (m =? 11))%Z; lia.
Qed.

Ltac leb_facts :=
  repeat match goal with
  | H : (_ && _)%bool = true |- _ => apply andb_true_iff in H; destruct H
  | H : (_ <=? _)%Z = true |- _ => apply Z.leb_le in H
  | H : (_ <=? _)%Z = false |- _ => apply Z.leb_gt in H
  end.

Ltac leb_true :=
  repeat (apply andb_true_iff; split); apply Z.leb_le; lia.

(** On such a token [strptime] succeeds exactly when the digits spell a
    date of the calendar and a time of day, and then returns them. *)
Lemma strptime_ascii_valid :
  valid_datetime stamp = true -> strptime token = Ok stamp.
Proof.
  intros Hv. rewrite strptime_ascii_token.
  rewrite (day_pat_range d1 d2), (month_pat_range m1 m2), (hour_pat_range h1 h2),
    (minute_pat_range i1 i2), (second_pat_range s1 s2) by assumption.
  unfold valid_datetime in Hv. cbn [year month day hour minute second spelled] in *.
  leb_facts.
  pose proof (days_in_month_le (four y1 y2 y3 y4) (two m1 m2)) as Hdim.
  replace ((1 <=? two d1 d2) && (two d1 d2 <=? 31) &&
           ((1 <=? two m1 m2) && (two m1 m2 <=? 12)) && (two h1 h2 <=? 23) &&
           (two i1 i2 <=? 59))%Z with true by (symmetry; leb_true).
  replace (two s1 s2 <=? 61)%Z with true by (symmetry; leb_true).
  unfold check_date_fields, check_time_fields, bindR.
  replace ((1 <=? four y1 y2 y3 y4) && (four y1 y2 y3 y4 <=? 9999))%Z
    with true by (symmetry; leb_true).
  replace ((1 <=? two m1 m2) && (two m1 m2 <=? 12))%Z
    with true by (symmetry; leb_true).
  replace ((1 <=? two d1 d2)
           && (two d1 d2 <=? days_in_month (four y1 y2 y3 y4) (two m1 m2)))%Z
    with true by (symmetry; leb_true).
  replace ((0 <=? two h1 h2) && (two h1 h2 <=? 23))%Z
    with true by (symmetry; leb_true).
  replace ((0 <=? two i1 i2) && (two i1 i2 <=? 59))%Z
    with true by (symmetry; leb_true).
  replace ((0 <=? two s1 s2) && (two s1 s2 <=? 59))%Z
    with true by (symmetry; leb_true).
  reflexivity.
Qed.

Lemma strptime_ascii_parsed dt :
  strptime token = Ok dt -> dt = stamp /\ valid_datetime stamp = true.
Proof.
  rewrite strptime_ascii_token.
  destruct (day_pat d1 d2 && month_pat m1 m2 && hour_pat h1 h2 && minute_pat i1);
    [|discriminate].
  destruct (second_pat s1 s2); [|discriminate].
  unfold bindR, check_date_fields, check_time_fields, valid_datetime.
  destruct ((1 <=? year stamp) && (year stamp <=? 9999))%Z eqn:Hy;
    [|discriminate].
  destruct ((1 <=? month stamp) && (month stamp <=? 12))%Z eqn:Hmo;
    [|discriminate].
  destruct ((1 <=? day stamp)
            && (day stamp <=? days_in_month (year stamp) (month stamp)))%Z
    eqn:Hd; [|discriminate].
  destruct ((0 <=? hour stamp) && (hour stamp <=? 23))%Z eqn:Hh; [|discriminate].
  destruct ((0 <=? minute stamp) && (minute stamp <=? 59))%Z eqn:Hi;
    [|discriminate].
  destruct ((0 <=? second stamp) && (second stamp <=? 59))%Z eqn:Hs;
    [|discriminate].
  cbn [negb]. intros [= <-]. split; [reflexivity|].
  apply andb_true_iff in Hy, Hmo, Hd, Hh, Hi, Hs.
  destruct Hy, Hmo, Hd, Hh, Hi, Hs.
  repeat (apply andb_true_iff; split); first [reflexivity | assumption].
Qed.

Lemma extract_year_ascii text pre post :
  leftmost date_token (strip text) pre token post ->
  extract_year text
  = Ok (token,
        if valid_datetime stamp then Some (year stamp) else None).
Proof.
  intros Hl. rewrite (extract_year_leftmost _ _ _ _ Hl). unfold parsed_year.
  destruct (valid_datetime stamp) eqn:Hv.
  - now rewrite (strptime_ascii_valid Hv).
  - destruct (strptime token) as [dt|e] eqn:Hp; [|reflexivity].
    destruct (strptime_ascii_parsed _ Hp) as [_ Hv']. congruence.
Qed.

End AsciiToken.

(** C3. For every text: when no substring of the stripped text has the
    shape DD.MM.YYYY HH:MM:SS the extractor returns the empty string and no
    year; when there is one, the leftmost such substring [m] is returned,
    with the year of the date when [m] parses as a date and time, and with
    no year when parsing [m] fails.  What follows [m] plays no part.  For a
    token written in ASCII digits parsing succeeds exactly when the digits
    spell a date of the calendar and a time of day, and the year returned is
    the one they spell. *)
Theorem extract_year_first_token {U : UnicodeDB} (text : pystr) :
  (absent date_token (strip text) -> extract_year text = Ok (lit "", None)) /\
  (forall pre m post,
     leftmost date_token (strip text) pre m post ->
     (forall dt, strptime m = Ok dt ->
                 extract_year text = Ok (m, Some (year dt))) /\
     (forall e, strptime m = Raise e -> extract_year text = Ok (m, None))) /\
  (forall pre post d1 d2 m1 m2 y1 y2 y3 y4 ws h1 h2 i1 i2 s1 s2,
     let m := ascii_token d1 d2 m1 m2 y1 y2 y3 y4 h1 h2 i1 i2 s1 s2 ws in
     let dt := spelled d1 d2 m1 m2 y1 y2 y3 y4 h1 h2 i1 i2 s1 s2 in
     Forall (fun v => (v < 10)%nat)
            [d1; d2; m1; m2; y1; y2; y3; y4; h1; h2; i1; i2; s1; s2] ->
     ws <> [] -> all_space ws -> Forall (fun c => isdecimal c = false) ws ->
     leftmost date_token (strip text) pre m post ->
     extract_year text
     = Ok (m, if valid_datetime dt then Some (year dt) else None)).
Proof.
  split; [apply extract_year_absent|]. split.
  - intros pre m post Hl.
    rewrite (extract_year_leftmost _ _ _ _ Hl). unfold parsed_year.
    split; [intros dt -> | intros e ->]; reflexivity.
  - intros pre post d1 d2 m1 m2 y1 y2 y3 y4 ws h1 h2 i1 i2 s1 s2 m dt
           Hdig Hne Hws Hnd Hl.
    rewrite Forall_forall in Hdig.
    apply (extract_year_ascii d1 d2 m1 m2 y1 y2 y3 y4 h1 h2 i1 i2 s1 s2 ws)
      with (pre := pre) (post := post);
      try assumption; apply Hdig; simpl; tauto.
Qed.

(** C10. The extractor returns a pair for every text and never raises;
    blanks around the text are stripped before the search; and a failure
    to parse the token found is turned into an absent year. *)
Theorem extract_year_never_raises {U : UnicodeDB} (text : pystr) :
  (exists d y, extract_year text = Ok (d, y)) /\
  extract_year [] = Ok (lit "", None) /\
  (forall ws1 ws2,
     all_space ws1 -> all_space ws2 ->
     extract_year (ws1 ++ text ++ ws2) = extract_year text) /\
  (forall pre m post e,
     leftmost date_token (strip text) pre m post -> strptime m = Raise e ->
     extract_year text = Ok (m, None)).
Proof.
  split; [apply extract_year_total|].
  split; [reflexivity|].
  split; [intros ws1 ws2; apply extract_year_spaces|].
  intros pre m post e Hl He.
  rewrite (extract_year_leftmost _ _ _ _ Hl). unfold parsed_year.
  now rewrite He.
Qed.

(** ** The verification loop *)

Section EngineFacts.

Context {U : UnicodeDB} {W : Type} (page : Handler W).

Lemma save_screenshot_eq cfg status item_id st :
  save_screenshot page cfg status item_id st =
  (Ok (fst (shot page cfg status item_id st)), snd (shot page cfg status item_id st)).
Proof.
  unfold save_screenshot, shot, try_catch, bind, perform, ret, screenshot_file.
  cbv zeta.
  destruct (page _ (Screenshot _) (world st)) as [[[]|e] w]; reflexivity.
Qed.

(** The [try] block, step by step. *)
Lemma main_try_eq cfg item_id st :
  main_try page cfg item_id (make_url cfg item_id) (initial_locals, st) =
  match locate page cfg item_id st with
  | (Raise e, st1) => (Raise e, (initial_locals, st1))
  | (Ok O, st1) =>
    let '(p, st2) := shot page cfg (lit "NOT FOUND") item_id st1 in
    (Ok tt, (mkLocals (lit "NOT FOUND") (lit "") None p
               (lit "ID не найден в таблице (фильтр/результат пустой)"), st2))
  | (Ok (S _), st1) =>
    match read_row page item_id st1 with
    | (Raise e, st2) => (Raise e, (initial_locals, st2))
    | (Ok (d, y), st2) =>
      if year_eqb y (OK_YEAR cfg)
      then (Ok tt, (mkLocals (lit "OK") d y (lit "") (lit ""), st2))
      else
        let '(p, st3) := shot page cfg (lit "FAIL") item_id st2 in
        (Ok tt, (mkLocals (lit "FAIL") d y p (fail_comment cfg y), st3))
    end
  end.
Proof.
  unfold main_try, locate, read_row.
  cbv beta iota zeta delta [bind zoom modify get lift_res].
  destruct (perform page (Goto _) st) as [[[]|e] st1]; [|reflexivity].
  destruct (wait_for_table page st1) as [[[]|e] st2]; [|reflexivity].
  destruct (ensure_admin_session page st2) as [[[]|e] st3]; [|reflexivity].
  destruct (perform page (FirstCount _) st3) as [[[|n]|e] st4]; [| |reflexivity].
  - cbn [Nat.eqb status set_status set_comment].
    rewrite save_screenshot_eq.
    destruct (shot page cfg (lit "NOT FOUND") item_id st4) as [p st5]. reflexivity.
  - cbn [Nat.eqb].
    destruct (perform page (RowInnerText _) st4) as [[txt|e] st5]; [|reflexivity].
    destruct (extract_year txt) as [[d y]|e]; [|reflexivity].
    cbn [fst snd year_ set_year set_date_text status date_text
         screenshot_path comment initial_locals].
    destruct (year_eqb y (OK_YEAR cfg)); [reflexivity|].
    cbn [status set_status set_comment].
    rewrite save_screenshot_eq.
    destruct (shot page cfg (lit "FAIL") item_id st5) as [p st6]. reflexivity.
Qed.

Lemma recovery_ok cfg st : fst (recovery page cfg st) = Ok tt.
Proof.
  unfold recovery, try_catch, bind, ret.
  destruct (perform page (Goto _) st) as [[[]|e] st1]; [|reflexivity].
  now destruct (ensure_admin_session page st1) as [[[]|e] st2].
Qed.

(** The [except] clauses never raise. *)
Lemma main_except_eq cfg item_id e l st :
  main_except page cfg item_id e (l, st) =
  let '(p, st1) := shot page cfg (lit "ERROR") item_id st in
  (Ok tt,
   (error_locals l e p,
    match e with PWError _ => snd (recovery page cfg st1) | _ => st1 end)).
Proof.
  unfold main_except, error_locals, except_prefix.
  destruct e as [m|m|m|m];
    cbv beta iota zeta delta [bind zoom modify get];
    cbn [status set_status set_comment]; rewrite save_screenshot_eq;
    destruct (shot page cfg (lit "ERROR") item_id st) as [p st1];
    cbn [fst snd]; try reflexivity.
  cbn [set_screenshot_path status date_text year_ comment].
  pose proof (recovery_ok cfg st1) as Hrec. revert Hrec.
  unfold recovery, try_catch, bind, zoom, ret.
  destruct (perform page (Goto (admin_root cfg)) st1) as [[[]|e] st2];
    [|reflexivity].
  now destruct (ensure_admin_session page st2) as [[[]|e] st3].
Qed.

(** One pass, whatever happens in its [try]. *)
Lemma main_iter_eq cfg item_id st :
  main_iter page cfg item_id st =
  let id := strip item_id in
  match main_try page cfg id (make_url cfg id) (initial_locals, st) with
  | (Ok _, (l, st1)) => (Ok (row_of cfg id l), st1)
  | (Raise e, (l, st1)) =>
    let '(p, st2) := shot page cfg (lit "ERROR") id st1 in
    (Ok (row_of cfg id (error_locals l e p)),
     match e with PWError _ => snd (recovery page cfg st2) | _ => st2 end)
  end.
Proof.
  unfold main_iter, try_catch. cbv zeta.
  destruct (main_try page cfg (strip item_id) _ (initial_locals, st))
    as [[[]|e] [l st1]]; [reflexivity|].
  rewrite main_except_eq.
  destruct (shot page cfg (lit "ERROR") (strip item_id) st1) as [p st2].
  reflexivity.
Qed.

(** One pass, by what the page showed. *)
Lemma main_iter_cases cfg item_id st :
  main_iter page cfg item_id st =
  let id := strip item_id in
  match locate page cfg id st with
  | (Raise e, st1) => error_pass page cfg id e st1
  | (Ok O, st1) =>
    let '(p, st2) := shot page cfg (lit "NOT FOUND") id st1 in
    (Ok (row_of cfg id
           (mkLocals (lit "NOT FOUND") (lit "") None p not_found_comment)),
     st2)
  | (Ok (S _), st1) =>
    match read_row page id st1 with
    | (Raise e, st2) => error_pass page cfg id e st2
    | (Ok (d, y), st2) =>
      if year_eqb y (OK_YEAR cfg)
      then (Ok (row_of cfg id (mkLocals (lit "OK") d y (lit "") (lit ""))), st2)
      else
        let '(p, st3) := shot page cfg (lit "FAIL") id st2 in
        (Ok (row_of cfg id (mkLocals (lit "FAIL") d y p (fail_comment cfg y))),
         st3)
    end
  end.
Proof.
  rewrite main_iter_eq. cbv zeta. rewrite main_try_eq.
  unfold error_pass, not_found_comment.
  destruct (locate page cfg (strip item_id) st) as [[[|n]|e] st1]; [| |reflexivity].
  - destruct (shot page cfg (lit "NOT FOUND") (strip item_id) st1) as [p st2].
    reflexivity.
  - destruct (read_row page (strip item_id) st1) as [[[d y]|e] st2]; [|reflexivity].
    destruct (year_eqb y (OK_YEAR cfg)); [reflexivity|].
    destruct (shot page cfg (lit "FAIL") (strip item_id) st2) as [p st3].
    reflexivity.
Qed.

Lemma main_iter_total cfg item_id st :
  exists row st',
    main_iter page cfg item_id st = (Ok row, st') /\ r_id row = strip item_id.
Proof.
  rewrite main_iter_eq. cbv zeta.
  destruct (main_try page cfg (strip item_id) _ (initial_locals, st))
    as [[[]|e] [l st1]].
  - eexists _, _. split; reflexivity.
  - destruct (shot page cfg (lit "ERROR") (strip item_id) st1) as [p st2].
    eexists _, _. split; reflexivity.
Qed.

Lemma main_loop_cons cfg item_id ids acc st row st1 :
  main_iter page cfg item_id st = (Ok row, st1) ->
  main_loop page cfg (item_id :: ids) acc st
  = main_loop page cfg ids (acc ++ [row]) st1.
Proof. intros H. simpl. unfold bind. now rewrite H. Qed.

Lemma main_loop_acc cfg : forall ids acc st,
  exists rows st',
    main_loop page cfg ids acc st = (Ok (acc ++ rows), st')
    /\ passes page cfg ids st rows st'
    /\ map r_id rows = map strip ids.
Proof.
  induction ids as [|item_id ids IH]; intros acc st.
  - exists [], st. split; [simpl; unfold ret; now rewrite app_nil_r|].
    split; [constructor | reflexivity].
  - destruct (main_iter_total cfg item_id st) as (row & st1 & Hrow & Hid).
    rewrite (main_loop_cons _ _ _ _ _ _ _ Hrow).
    destruct (IH (acc ++ [row]) st1) as (rows & st' & Hloop & Hpass & Hmap).
    exists (row :: rows), st'. split; [|split].
    + rewrite Hloop. now rewrite <- app_assoc.
    + now apply (passes_cons page cfg item_id ids st row st1).
    + simpl. now rewrite Hid, Hmap.
Qed.

End EngineFacts.

(** C2. The loop returns one row per identifier, in the order of the
    input list: the rows are those of the passes over the identifiers, one
    pass each and one after the other, and their identifiers are the
    (stripped) input identifiers, position by position, duplicates
    included. *)
Theorem main_loop_one_row_per_id {U : UnicodeDB} {W : Type} (page : Handler W)
    (cfg : Config) (ids : list pystr) (st : St W) :
  exists rows st',
    main_loop page cfg ids [] st = (Ok rows, st')
    /\ passes page cfg ids st rows st'
    /\ length rows = length ids
    /\ map r_id rows = map strip ids.
Proof.
  destruct (main_loop_acc page cfg ids [] st)
    as (rows & st' & Hloop & Hpass & Hmap).
  exists rows, st'. split; [exact Hloop|]. split; [exact Hpass|].
  split; [|exact Hmap].
  rewrite <- (length_map r_id rows), Hmap. apply length_map.
Qed.

(** ** Which status a pass records *)

Section Classification.

Context {U : UnicodeDB} {W : Type} (page : Handler W).

Lemma status_strings_distinct :
  lit "OK" <> lit "FAIL" /\ lit "OK" <> lit "NOT FOUND" /\ lit "OK" <> lit "ERROR"
  /\ lit "FAIL" <> lit "NOT FOUND" /\ lit "FAIL" <> lit "ERROR"
  /\ lit "NOT FOUND" <> lit "ERROR".
Proof. vm_compute. repeat split; discriminate. Qed.

Lemma error_pass_row cfg id e st1 :
  exists p st',
    error_pass page cfg id e st1
    = (Ok (row_of cfg id (error_locals initial_locals e p)), st').
Proof.
  unfold error_pass. destruct (shot page cfg (lit "ERROR") id st1) as [p st2].
  now eexists _, _.
Qed.

Lemma year_eqb_true y ok : year_eqb y ok = true <-> y = Some ok.
Proof.
  destruct y as [v|]; simpl; [|split; discriminate].
  rewrite Z.eqb_eq. split; [now intros -> | now intros [= ->]].
Qed.

Lemma year_eqb_false y ok : year_eqb y ok = false <-> y <> Some ok.
Proof.
  rewrite <- year_eqb_true. destruct (year_eqb y ok); split; congruence.
Qed.

End Classification.

Ltac ex_absurd :=
  repeat match goal with
  | H : exists _, _ |- _ => destruct H
  | H : _ /\ _ |- _ => destruct H
  | H : _ \/ _ |- _ => destruct H
  end; exfalso; congruence.

(** C1, as the code has it.  Every pass records a row, and its status is
    - OK exactly when a link was found, the row was read without a fault
      and the extracted year is the expected one;
    - NOT FOUND exactly when the lookup completed without a fault and
      found no link;
    - FAIL exactly when a link was found, the row was read without a fault
      and the extracted year is absent or differs from the expected one;
    - ERROR exactly when a fault was raised before or during the lookup,
      or while reading the row found.
    The status is OK exactly when the row's year is the expected one. *)
Theorem status_classification {U : UnicodeDB} {W : Type} (page : Handler W)
    (cfg : Config) (item_id : pystr) (st : St W) :
  let id := strip item_id in
  exists row st',
    main_iter page cfg item_id st = (Ok row, st') /\
    (r_status row = lit "OK" <->
       exists n st1 d st2,
         locate page cfg id st = (Ok (S n), st1) /\
         read_row page id st1 = (Ok (d, Some (OK_YEAR cfg)), st2)) /\
    (r_status row = lit "NOT FOUND" <->
       exists st1, locate page cfg id st = (Ok O, st1)) /\
    (r_status row = lit "FAIL" <->
       exists n st1 d y st2,
         locate page cfg id st = (Ok (S n), st1) /\
         read_row page id st1 = (Ok (d, y), st2) /\ y <> Some (OK_YEAR cfg)) /\
    (r_status row = lit "ERROR" <->
       exists e,
         (exists st1, locate page cfg id st = (Raise e, st1)) \/
         (exists n st1 st2,
            locate page cfg id st = (Ok (S n), st1) /\
            read_row page id st1 = (Raise e, st2))) /\
    (r_status row = lit "OK" <-> r_year row = Some (OK_YEAR cfg)).
Proof.
  intros id. rewrite main_iter_cases. cbv zeta. fold id.
  destruct status_strings_distinct as (D1 & D2 & D3 & D4 & D5 & D6).
  destruct (locate page cfg id st) as [[[|n]|e] st1] eqn:Hloc;
    [ destruct (shot page cfg (lit "NOT FOUND") id st1) as [p st2]
    | destruct (read_row page id st1) as [[[d y]|e] st2] eqn:Hread;
      [ destruct (year_eqb y (OK_YEAR cfg)) eqn:Hy;
        [ apply year_eqb_true in Hy
        | apply year_eqb_false in Hy;
          destruct (shot page cfg (lit "FAIL") id st2) as [p st3] ]
      | destruct (error_pass_row page cfg id e st2) as (p & st' & ->) ]
    | destruct (error_pass_row page cfg id e st1) as (p & st' & ->) ];
    (eexists _, _; split; [reflexivity|]);
    cbn [row_of r_status r_year status year_ error_locals initial_locals];
    (split; [|split; [|split; [|split]]]);
    (split;
     [ intros Hs; try (exfalso; congruence); try assumption
     | intros Hex; first [ex_absurd | reflexivity] ]).
  - now exists st1.
  - subst y. now exists n, st1, d, st2.
  - exists n, st1, d, y, st2. now repeat split.
  - exists e. right. now exists n, st1, st2.
  - exists e. left. now exists st1.
Qed.

(** ** Rows the loop records *)

Section Rows.

Context {U : UnicodeDB} {W : Type} (page : Handler W).

(** The year read off a row is never 0, so [year if year else ...] tests
    for [None] only. *)
Lemma read_row_year cfg id st1 d y st2 :
  read_row page id st1 = (Ok (d, y), st2) ->
  fail_comment cfg y =
  lit "Ожидали " ++ str_of_Z (OK_YEAR cfg) ++ lit ", фактически: "
  ++ match y with Some v => str_of_Z v | None => lit "не распознано" end.
Proof.
  unfold read_row, bind, lift_res, fail_comment, year_or_unknown.
  destruct (perform page (RowInnerText _) st1) as [[txt|e] st1']; [|discriminate].
  destruct (extract_year txt) as [[d' y']|e] eqn:Hx; [|discriminate].
  intros [= -> -> ->]. destruct y as [v|]; [|reflexivity].
  pose proof (extract_year_nonzero _ _ _ Hx) as Hv.
  destruct (Z.eqb_spec v 0); [lia | reflexivity].
Qed.

Lemma main_iter_fail cfg item_id st n st1 d y st2 :
  locate page cfg (strip item_id) st = (Ok (S n), st1) ->
  read_row page (strip item_id) st1 = (Ok (d, y), st2) ->
  y <> Some (OK_YEAR cfg) ->
  main_iter page cfg item_id st =
  (Ok (row_of cfg (strip item_id)
         (mkLocals (lit "FAIL") d y
            (fst (shot page cfg (lit "FAIL") (strip item_id) st2))
            (fail_comment cfg y))),
   snd (shot page cfg (lit "FAIL") (strip item_id) st2)).
Proof.
  intros Hloc Hread Hy. rewrite main_iter_cases. cbv zeta.
  rewrite Hloc, Hread. apply year_eqb_false in Hy. rewrite Hy.
  destruct (shot page cfg (lit "FAIL") (strip item_id) st2) as [p st3].
  reflexivity.
Qed.

Lemma main_iter_not_found cfg item_id st st1 :
  locate page cfg (strip item_id) st = (Ok O, st1) ->
  main_iter page cfg item_id st =
  (Ok (row_of cfg (strip item_id)
         (mkLocals (lit "NOT FOUND") (lit "") None
            (fst (shot page cfg (lit "NOT FOUND") (strip item_id) st1))
            not_found_comment)),
   snd (shot page cfg (lit "NOT FOUND") (strip item_id) st1)).
Proof.
  intros Hloc. rewrite main_iter_cases. cbv zeta. rewrite Hloc.
  destruct (shot page cfg (lit "NOT FOUND") (strip item_id) st1) as [p st2].
  reflexivity.
Qed.

(** A fault in the [try] comes from the lookup or from reading the row. *)
Lemma main_try_raise cfg id st e l st1 :
  main_try page cfg id (make_url cfg id) (initial_locals, st)
  = (Raise e, (l, st1)) ->
  l = initial_locals /\
  (locate page cfg id st = (Raise e, st1) \/
   exists n st0, locate page cfg id st = (Ok (S n), st0)
                 /\ read_row page id st0 = (Raise e, st1)).
Proof.
  rewrite main_try_eq.
  destruct (locate page cfg id st) as [[[|n]|e0] st0].
  - destruct (shot page cfg (lit "NOT FOUND") id st0); discriminate.
  - destruct (read_row page id st0) as [[[d y]|e1] st2] eqn:Hread.
    + destruct (year_eqb y (OK_YEAR cfg)); [discriminate|].
      destruct (shot page cfg (lit "FAIL") id st2); discriminate.
    + intros [= -> <- <-]. split; [reflexivity|]. right. now exists n, st0.
  - intros [= -> <- <-]. split; [reflexivity|]. now left.
Qed.

Lemma main_iter_raise cfg item_id st e l st1 :
  main_try page cfg (strip item_id) (make_url cfg (strip item_id))
           (initial_locals, st) = (Raise e, (l, st1)) ->
  main_iter page cfg item_id st = error_pass page cfg (strip item_id) e st1.
Proof.
  intros Htry. destruct (main_try_raise _ _ _ _ _ _ Htry) as [-> _].
  rewrite main_iter_eq. cbv zeta. now rewrite Htry.
Qed.

End Rows.

(** C6, as the code has it.  When a link is found, the row is read and
    the extracted year is not the expected one, the row's status is FAIL
    and its comment is the Russian sentence naming the expected year and
    the year found, or [не распознано] when no year was found; for a row
    text whose first date is 01.02.2025 10:00:00 and an expected year of
    2024 the comment is exactly [Ожидали 2024, фактически: 2025]. *)
Theorem fail_comment_names_years {U : UnicodeDB} {W : Type} (page : Handler W)
    (cfg : Config) (item_id : pystr) (st : St W) (n : nat) (st1 : St W)
    (Hloc : locate page cfg (strip item_id) st = (Ok (S n), st1)) :
  (forall d y st2,
     read_row page (strip item_id) st1 = (Ok (d, y), st2) ->
     y <> Some (OK_YEAR cfg) ->
     exists row st',
       main_iter page cfg item_id st = (Ok row, st') /\
       r_status row = lit "FAIL" /\
       r_comment row =
         lit "Ожидали " ++ str_of_Z (OK_YEAR cfg) ++ lit ", фактически: "
         ++ match y with
            | Some v => str_of_Z v
            | None => lit "не распознано"
            end) /\
  (forall txt w2 pre post,
     page _ (RowInnerText (link_selector (strip item_id))) (world st1)
       = (Ok txt, w2) ->
     leftmost date_token (strip txt) pre (lit "01.02.2025 10:00:00") post ->
     OK_YEAR cfg = 2024%Z ->
     exists row st',
       main_iter page cfg item_id st = (Ok row, st') /\
       r_status row = lit "FAIL" /\
       r_comment row = lit "Ожидали 2024, фактически: 2025").
Proof.
  split.
  - intros d y st2 Hread Hy.
    rewrite (main_iter_fail page _ _ _ _ _ _ _ _ Hloc Hread Hy).
    eexists _, _. split; [reflexivity|]. split; [reflexivity|].
    cbn [row_of r_comment comment].
    exact (read_row_year page cfg _ _ _ _ _ Hread).
  - intros txt w2 pre post Htxt Hl Hok.
    assert (Hread : read_row page (strip item_id) st1
                    = (Ok (lit "01.02.2025 10:00:00", Some 2025%Z),
                       mkSt w2 (trace st1 ++
                          [Ev (RowInnerText (link_selector (strip item_id)))
                              (Ok txt)]))).
    { unfold read_row, bind, perform, lift_res. rewrite Htxt.
      rewrite (extract_year_leftmost _ _ _ _ Hl). reflexivity. }
    assert (Hy : Some 2025%Z <> Some (OK_YEAR cfg)) by (rewrite Hok; discriminate).
    rewrite (main_iter_fail page _ _ _ _ _ _ _ _ Hloc Hread Hy).
    eexists _, _. split; [reflexivity|]. split; [reflexivity|].
    cbn [row_of r_comment comment]. unfold fail_comment. rewrite Hok.
    vm_compute. reflexivity.
Qed.

(** C7. Whatever is raised in the [try] of a pass, the pass still returns
    a row: its status is ERROR, its comment ends with the exception's
    message, and the loop goes on with the next identifier.  No pass
    raises. *)
Theorem faults_become_error_rows {U : UnicodeDB} {W : Type} (page : Handler W)
    (cfg : Config) (item_id : pystr) (st : St W) :
  (exists row st', main_iter page cfg item_id st = (Ok row, st')) /\
  (forall e l st1,
     main_try page cfg (strip item_id) (make_url cfg (strip item_id))
              (initial_locals, st) = (Raise e, (l, st1)) ->
     exists row st',
       main_iter page cfg item_id st = (Ok row, st') /\
       r_status row = lit "ERROR" /\
       r_comment row = except_prefix e ++ str_of_fault e /\
       forall ids acc,
         main_loop page cfg (item_id :: ids) acc st
         = main_loop page cfg ids (acc ++ [row]) st') /\
  (forall ids,
     exists rows st', main_loop page cfg (item_id :: ids) [] st = (Ok rows, st')).
Proof.
  split; [|split].
  - destruct (main_iter_total page cfg item_id st) as (row & st' & H & _).
    now exists row, st'.
  - intros e l st1 Htry. rewrite (main_iter_raise page _ _ _ _ _ _ Htry).
    destruct (error_pass_row page cfg (strip item_id) e st1) as (p & st' & Hp).
    rewrite Hp. eexists _, _. split; [reflexivity|].
    split; [reflexivity|]. split; [reflexivity|].
    intros ids acc. apply main_loop_cons.
    now rewrite (main_iter_raise page _ _ _ _ _ _ Htry).
  - intros ids.
    destruct (main_loop_acc page cfg (item_id :: ids) [] st)
      as (rows & st' & Hloop & _ & _).
    now exists rows, st'.
Qed.

Lemma SCREEN_DIR_cons : exists c s, SCREEN_DIR = c :: s.
Proof. vm_compute. eauto. Qed.

(** C9. When the lookup finds no link the row's status is NOT FOUND and
    its year is absent; the screenshot column holds the path of the file,
    which is not empty, when the screenshot was taken, and the empty
    string when taking it raised, in which case the row is recorded all
    the same. *)
Theorem not_found_row {U : UnicodeDB} {W : Type} (page : Handler W)
    (cfg : Config) (item_id : pystr) (st st1 : St W)
    (Hloc : locate page cfg (strip item_id) st = (Ok O, st1)) :
  let path := screenshot_file cfg (lit "NOT_FOUND") (strip item_id) in
  exists row st',
    main_iter page cfg item_id st = (Ok row, st') /\
    r_status row = lit "NOT FOUND" /\
    r_year row = None /\
    path <> [] /\
    (forall w, page _ (Screenshot path) (world st1) = (Ok tt, w) ->
               r_screenshot row = path) /\
    (forall e w, page _ (Screenshot path) (world st1) = (Raise e, w) ->
                 r_screenshot row = lit "").
Proof.
  intros path. rewrite (main_iter_not_found page _ _ _ _ Hloc).
  eexists _, _. split; [reflexivity|].
  split; [reflexivity|]. split; [reflexivity|].
  cbn [row_of r_screenshot screenshot_path]. unfold shot.
  replace (replace1 32%N 95%N (lit "NOT FOUND")) with (lit "NOT_FOUND")
    by (vm_compute; reflexivity).
  fold path. split; [|split].
  - unfold path, screenshot_file, path_join.
    destruct SCREEN_DIR_cons as (c & s & ->). discriminate.
  - intros w Hw. now rewrite Hw.
  - intros e w Hw. now rewrite Hw.
Qed.

(** ** The calls a pass makes *)

Section Traces.

Context {U : UnicodeDB} {W : Type} (page : Handler W).

Lemma grows_perform (P : event -> Prop) (X : Set) (c : call X) :
  (forall r, P (Ev c r)) -> grows P (perform page c).
Proof.
  intros HP st. unfold perform.
  destruct (page _ c (world st)) as [r w]. exists [Ev c r].
  split; [reflexivity | now constructor].
Qed.

Lemma grows_ret P A (a : A) : grows P (ret a : SE (St W) A).
Proof. intros st. exists []. split; [now rewrite app_nil_r | constructor]. Qed.

Lemma grows_bind P A B (m : SE (St W) A) (k : A -> SE (St W) B) :
  grows P m -> (forall a, grows P (k a)) -> grows P (bind m k).
Proof.
  intros Hm Hk st. unfold bind. destruct (Hm st) as (evs & Ht & Hp).
  destruct (m st) as [[a|e] st1]; simpl in Ht.
  - destruct (Hk a st1) as (evs' & Ht' & Hp'). exists (evs ++ evs').
    split; [now rewrite Ht', Ht, app_assoc | now apply Forall_app].
  - now exists evs.
Qed.

Lemma grows_weaken (P Q : event -> Prop) A (m : SE (St W) A) :
  (forall ev, P ev -> Q ev) -> grows P m -> grows Q m.
Proof.
  intros HPQ Hm st. destruct (Hm st) as (evs & Ht & Hp). exists evs.
  split; [exact Ht | exact (Forall_impl _ HPQ Hp)].
Qed.

Lemma ensure_admin_session_probes : grows is_probe (ensure_admin_session page).
Proof.
  unfold ensure_admin_session, is_logged_in_admin, is_login_page.
  repeat first
    [ apply grows_bind; [|intros ?]
    | apply grows_perform; intros ?; exact I
    | apply grows_ret
    | match goal with |- grows _ (if ?b then _ else _) => destruct b end ].
Qed.

Lemma count_events_app p a b :
  count_events p (a ++ b) = (count_events p a + count_events p b)%nat.
Proof. unfold count_events. now rewrite filter_app, length_app. Qed.

Lemma count_events_none p evs :
  Forall (fun ev => p ev = false) evs -> count_events p evs = O.
Proof.
  unfold count_events. induction 1 as [|ev evs Hev _ IH]; simpl; [reflexivity|].
  now rewrite Hev.
Qed.

Lemma probe_not_wait ev : is_probe ev -> is_wait_for_selector ev = false.
Proof. destruct ev as [X c r]. now destruct c. Qed.

Lemma probe_not_table_wait ev : is_probe ev -> is_table_wait ev = false.
Proof. destruct ev as [X c r]. now destruct c. Qed.

Lemma probe_not_goto url ev : is_probe ev -> is_goto url ev = false.
Proof. destruct ev as [X c r]. now destruct c. Qed.

Lemma probe_not_goto_any ev : is_probe ev -> is_goto_any ev = false.
Proof. destruct ev as [X c r]. now destruct c. Qed.

Lemma not_goto_any url ev : is_goto_any ev = false -> is_goto url ev = false.
Proof. destruct ev as [X c r]. now destruct c. Qed.

Lemma table_wait_is_wait r :
  is_wait_for_selector (Ev table_wait r) = true
  /\ is_table_wait (Ev table_wait r) = true.
Proof.
  split; [reflexivity|]. unfold is_table_wait, table_wait.
  destruct (list_eq_dec N.eq_dec table_selector table_selector); [|contradiction].
  reflexivity.
Qed.

(** The waiter, step by step. *)
Lemma wait_for_table_eq st :
  wait_for_table page st =
  match perform page table_wait st with
  | (Ok a, st1) => (Ok a, st1)
  | (Raise (PWTimeoutError m), st1) =>
    match ensure_admin_session page st1 with
    | (Ok _, st2) => perform page table_wait st2
    | (Raise e, st2) => (Raise e, st2)
    end
  | (Raise e, st1) => (Raise e, st1)
  end.
Proof.
  unfold wait_for_table, try_catch, bind, raise. fold table_wait.
  destruct (perform page table_wait st) as [[a|[m|m|m|m]] st1]; reflexivity.
Qed.

Lemma perform_trace (X : Set) (c : call X) st :
  trace (snd (perform page c st))
  = trace st ++ [Ev c (fst (perform page c st))].
Proof. unfold perform. now destruct (page _ c (world st)). Qed.

End Traces.

Section Waiter.

Context {U : UnicodeDB} {W : Type} (page : Handler W).

Lemma count_events_one p ev : p ev = true -> count_events p [ev] = 1%nat.
Proof. intros H. unfold count_events. simpl. now rewrite H. Qed.

Lemma count_probes_wait evs :
  Forall is_probe evs ->
  count_events is_wait_for_selector evs = O /\ count_events is_table_wait evs = O.
Proof.
  intros H. split; apply count_events_none; apply (Forall_impl _ (P := is_probe));
    auto using probe_not_wait, probe_not_table_wait.
Qed.

Lemma wait_for_table_trace st :
  exists evs,
    trace (snd (wait_for_table page st)) = trace st ++ evs
    /\ (count_events is_wait_for_selector evs <= 2)%nat
    /\ count_events is_table_wait evs = count_events is_wait_for_selector evs
    /\ Forall (fun ev => is_goto_any ev = false) evs.
Proof.
  rewrite wait_for_table_eq.
  pose proof (perform_trace page _ table_wait st) as Ht.
  destruct (perform page table_wait st) as [r st1]. cbn [fst snd] in Ht.
  destruct (table_wait_is_wait r) as [Hw Htw].
  assert (H1 : exists evs,
             trace st1 = trace st ++ evs
             /\ (count_events is_wait_for_selector evs <= 2)%nat
             /\ count_events is_table_wait evs
                = count_events is_wait_for_selector evs
             /\ Forall (fun ev => is_goto_any ev = false) evs).
  { exists [Ev table_wait r]. split; [exact Ht|].
    rewrite !count_events_one by assumption.
    repeat split; [lia | now repeat constructor]. }
  destruct r as [a|[m|m|m|m]]; try exact H1. clear H1.
  destruct (ensure_admin_session_probes page st1) as (evs1 & Ht1 & Hp1).
  destruct (count_probes_wait _ Hp1) as [Hc1 Hc2].
  assert (Hg1 : Forall (fun ev => is_goto_any ev = false) evs1)
    by (apply (Forall_impl _ (P := is_probe)); auto using probe_not_goto_any).
  destruct (ensure_admin_session page st1) as [[[]|e] st2]; cbn [snd] in Ht1.
  - pose proof (perform_trace page _ table_wait st2) as Ht2.
    destruct (perform page table_wait st2) as [r2 st3]. cbn [fst snd] in Ht2.
    destruct (table_wait_is_wait r2) as [Hw2 Htw2].
    exists ([Ev table_wait (Raise (PWTimeoutError m))] ++ evs1 ++ [Ev table_wait r2]).
    split; [cbn [snd]; now rewrite Ht2, Ht1, Ht, <- !app_assoc|].
    rewrite !count_events_app, Hc1, Hc2, !count_events_one by assumption.
    repeat split; [lia|].
    apply Forall_app. split; [now repeat constructor|].
    apply Forall_app. split; [assumption | now repeat constructor].
  - exists ([Ev table_wait (Raise (PWTimeoutError m))] ++ evs1).
    split; [cbn [snd]; now rewrite Ht1, Ht, <- !app_assoc|].
    rewrite !count_events_app, Hc1, Hc2, !count_events_one by assumption.
    repeat split; [lia|].
    apply Forall_app. split; [now repeat constructor | assumption].
Qed.

End Waiter.

(** C4. The waiter waits for [table.adm-list-table] with a timeout of
    15000 ms.  It makes at most two such waits and no other; when the
    first one times out and session assurance returns, it waits exactly
    once more, with the same selector and timeout, and whatever the second
    wait does is the waiter's outcome, so a second timeout is raised to
    the caller.  There the pass records a row with status ERROR and the
    comment [Timeout: ] followed by the message, and the loop goes on. *)
Theorem wait_for_table_retries_once {U : UnicodeDB} {W : Type}
    (page : Handler W) (st : St W) :
  (exists evs,
     trace (snd (wait_for_table page st)) = trace st ++ evs
     /\ (count_events is_wait_for_selector evs <= 2)%nat
     /\ count_events is_table_wait evs = count_events is_wait_for_selector evs) /\
  (forall m1 st1 st2 r2 st3,
     perform page (WaitForSelector (lit "table.adm-list-table") 15000) st
       = (Raise (PWTimeoutError m1), st1) ->
     ensure_admin_session page st1 = (Ok tt, st2) ->
     perform page (WaitForSelector (lit "table.adm-list-table") 15000) st2
       = (r2, st3) ->
     wait_for_table page st = (r2, st3)
     /\ exists evs,
          trace st3 = trace st ++ evs
          /\ count_events is_wait_for_selector evs = 2%nat
          /\ count_events is_table_wait evs = 2%nat) /\
  (forall cfg item_id st0 m st1,
     perform page (Goto (make_url cfg (strip item_id))) st0 = (Ok tt, st) ->
     wait_for_table page st = (Raise (PWTimeoutError m), st1) ->
     exists row st',
       main_iter page cfg item_id st0 = (Ok row, st') /\
       r_status row = lit "ERROR" /\
       r_comment row = lit "Timeout: " ++ m /\
       forall ids acc,
         main_loop page cfg (item_id :: ids) acc st0
         = main_loop page cfg ids (acc ++ [row]) st').
Proof.
  split; [|split].
  - destruct (wait_for_table_trace page st) as (evs & Ht & Hle & Heq & _).
    now exists evs.
  - intros m1 st1 st2 r2 st3 H1 H2 H3. change (lit "table.adm-list-table")
      with table_selector in H1, H3. fold table_wait in H1, H3.
    rewrite wait_for_table_eq.
    pose proof (perform_trace page _ table_wait st) as Ht1.
    pose proof (perform_trace page _ table_wait st2) as Ht3.
    destruct (ensure_admin_session_probes page st1) as (evs1 & Ht2 & Hp1).
    rewrite H1 in Ht1 |- *. rewrite H2 in Ht2 |- *.
    rewrite H3 in Ht3 |- *. cbn [fst snd] in *.
    split; [reflexivity|].
    destruct (count_probes_wait _ Hp1) as [Hc1 Hc2].
    destruct (table_wait_is_wait (Raise (PWTimeoutError m1))) as [Hw1 Htw1].
    destruct (table_wait_is_wait r2) as [Hw2 Htw2].
    exists ([Ev table_wait (Raise (PWTimeoutError m1))] ++ evs1
            ++ [Ev table_wait r2]).
    split; [now rewrite Ht3, Ht2, Ht1, <- !app_assoc|].
    rewrite !count_events_app, Hc1, Hc2, !count_events_one by assumption.
    now split.
  - intros cfg item_id st0 m st1 Hgo Hwait.
    assert (Hloc : locate page cfg (strip item_id) st0
                   = (Raise (PWTimeoutError m), st1)).
    { unfold locate, bind. now rewrite Hgo, Hwait. }
    assert (Hiter : main_iter page cfg item_id st0
                    = error_pass page cfg (strip item_id) (PWTimeoutError m) st1).
    { rewrite main_iter_cases. cbv zeta. now rewrite Hloc. }
    destruct (error_pass_row page cfg (strip item_id) (PWTimeoutError m) st1)
      as (p & st' & Hp).
    rewrite Hiter, Hp. eexists _, _. split; [reflexivity|].
    split; [reflexivity|]. split; [reflexivity|].
    intros ids acc. apply main_loop_cons. now rewrite Hiter.
Qed.

Section Recovery.

Context {U : UnicodeDB} {W : Type} (page : Handler W).

Lemma make_url_not_root cfg id : make_url cfg id <> admin_root cfg.
Proof.
  unfold make_url, admin_root. intros H. apply app_inv_head in H.
  vm_compute in H. discriminate H.
Qed.

Lemma is_goto_same url r : is_goto url (Ev (Goto url) r) = true.
Proof.
  unfold is_goto. now destruct (list_eq_dec N.eq_dec url url).
Qed.

Lemma is_goto_other url url' r : url' <> url -> is_goto url (Ev (Goto url') r) = false.
Proof.
  intros H. unfold is_goto. now destruct (list_eq_dec N.eq_dec url' url).
Qed.

Lemma wait_for_table_no_goto cfg : grows (not_root cfg) (wait_for_table page).
Proof.
  intros st. destruct (wait_for_table_trace page st) as (evs & Ht & _ & _ & Hg).
  exists evs. split; [exact Ht|].
  apply (Forall_impl _ (P := fun ev => is_goto_any ev = false)); [|exact Hg].
  intros ev. apply not_goto_any.
Qed.

Lemma ensure_no_goto cfg : grows (not_root cfg) (ensure_admin_session page).
Proof.
  eapply grows_weaken; [|apply ensure_admin_session_probes].
  intros ev. apply probe_not_goto.
Qed.

Lemma locate_no_root cfg id : grows (not_root cfg) (locate page cfg id).
Proof.
  unfold locate.
  apply grows_bind; [|intros _; apply grows_bind;
                      [|intros _; apply grows_bind; [|intros _]]].
  - apply grows_perform. intros r. apply is_goto_other, make_url_not_root.
  - apply wait_for_table_no_goto.
  - apply ensure_no_goto.
  - apply grows_perform. now intros r.
Qed.

Lemma read_row_no_root cfg id : grows (not_root cfg) (read_row page id).
Proof.
  unfold read_row. apply grows_bind; [apply grows_perform; now intros r|].
  intros txt st. exists []. split; [now rewrite app_nil_r | constructor].
Qed.

Lemma shot_trace cfg status id st :
  exists ev,
    trace (snd (shot page cfg status id st)) = trace st ++ [ev]
    /\ is_goto_any ev = false.
Proof.
  unfold shot. cbv zeta.
  destruct (page _ (Screenshot _) (world st)) as [r w].
  eexists. split; reflexivity.
Qed.

Lemma recovery_trace cfg st :
  exists r evs,
    trace (snd (recovery page cfg st))
    = trace st ++ Ev (Goto (admin_root cfg)) r :: evs
    /\ Forall is_probe evs.
Proof.
  unfold recovery, try_catch, bind, ret.
  pose proof (perform_trace page _ (Goto (admin_root cfg)) st) as Ht.
  destruct (perform page (Goto (admin_root cfg)) st) as [[[]|e] st1];
    cbn [fst snd] in Ht.
  - destruct (ensure_admin_session_probes page st1) as (evs & Ht1 & Hp).
    exists (Ok tt), evs. split; [|exact Hp].
    destruct (ensure_admin_session page st1) as [[[]|e] st2]; cbn [snd] in *;
      now rewrite Ht1, Ht, <- app_assoc.
  - exists (Raise e), []. split; [exact Ht | constructor].
Qed.

(** After a Playwright error: the screenshot, the navigation to the admin
    root, and then nothing but the calls of session assurance. *)
Lemma error_pass_recovery cfg id m st1 :
  exists ev r after,
    trace (snd (error_pass page cfg id (PWError m) st1))
    = trace st1 ++ [ev] ++ Ev (Goto (admin_root cfg)) r :: after
    /\ is_goto_any ev = false /\ Forall is_probe after.
Proof.
  unfold error_pass.
  destruct (shot_trace cfg (lit "ERROR") id st1) as (ev & Ht & Hev).
  destruct (shot page cfg (lit "ERROR") id st1) as [p st2]. cbn [snd] in *.
  destruct (recovery_trace cfg st2) as (r & after & Htr & Hp).
  exists ev, r, after. split; [now rewrite Htr, Ht, <- app_assoc|]. now split.
Qed.

(** Session assurance begins by counting the logout links. *)
Lemma ensure_admin_session_first st :
  exists r rest,
    trace (snd (ensure_admin_session page st))
    = trace st ++ Ev (Count (lit "a[href*='logout=Y']")) r :: rest.
Proof.
  unfold ensure_admin_session, is_logged_in_admin.
  set (K := fun a : bool => if a then _ else _).
  assert (HK : forall a, grows (fun _ => True) (K a)).
  { intros a. unfold K, is_login_page.
    repeat first
      [ apply grows_bind; [|intros ?]
      | apply grows_perform; intros ?; exact I
      | apply grows_ret
      | match goal with |- grows _ (if ?b then _ else _) => destruct b end ]. }
  unfold bind, ret.
  pose proof (perform_trace page _ (Count (lit "a[href*='logout=Y']")) st) as Ht.
  destruct (perform page (Count _) st) as [[n|e] st1]; cbn [fst snd] in Ht.
  - destruct (HK (0 <? n)%nat st1) as (rest & Ht1 & _).
    exists (Ok n), rest. rewrite Ht1, Ht. now rewrite <- app_assoc.
  - exists (Raise e), []. exact Ht.
Qed.

(** Where the recovery leaves the page. *)
Lemma recovery_snd cfg st :
  snd (recovery page cfg st)
  = match perform page (Goto (admin_root cfg)) st with
    | (Ok _, st3) => snd (ensure_admin_session page st3)
    | (Raise _, st3) => st3
    end.
Proof.
  unfold recovery, try_catch, bind, ret.
  destruct (perform page (Goto (admin_root cfg)) st) as [[[]|e] st3];
    [|reflexivity].
  now destruct (ensure_admin_session page st3) as [[[]|e] st4].
Qed.

(** The recovery, step by step: the navigation to the admin root, then,
    when the navigation returned, session assurance and nothing else. *)
Lemma recovery_steps cfg st :
  exists r st3 after,
    perform page (Goto (admin_root cfg)) st = (r, st3)
    /\ trace (snd (recovery page cfg st))
       = trace st ++ Ev (Goto (admin_root cfg)) r :: after
    /\ Forall is_probe after
    /\ match r with
       | Ok _ =>
         snd (recovery page cfg st) = snd (ensure_admin_session page st3)
         /\ trace (snd (ensure_admin_session page st3)) = trace st3 ++ after
         /\ exists r1 rest,
              after = Ev (Count (lit "a[href*='logout=Y']")) r1 :: rest
       | Raise _ => snd (recovery page cfg st) = st3 /\ after = []
       end.
Proof.
  rewrite recovery_snd.
  pose proof (perform_trace page _ (Goto (admin_root cfg)) st) as Ht.
  destruct (perform page (Goto (admin_root cfg)) st) as [[[]|e] st3];
    cbn [fst snd] in Ht.
  - destruct (ensure_admin_session_probes page st3) as (after & Ht1 & Hp).
    destruct (ensure_admin_session_first st3) as (r1 & rest & Hfirst).
    exists (Ok tt), st3, after. split; [reflexivity|].
    split; [now rewrite Ht1, Ht, <- app_assoc|].
    split; [exact Hp|]. split; [reflexivity|]. split; [exact Ht1|].
    exists r1, rest. rewrite Ht1 in Hfirst. now apply app_inv_head in Hfirst.
  - exists (Raise e), st3, []. repeat split; [exact Ht | constructor].
Qed.

(** After a Playwright error: the screenshot, the navigation to the admin
    root and, when that returned, session assurance. *)
Lemma error_pass_steps cfg id m st1 :
  exists ev st2 r st3 after,
    trace st2 = trace st1 ++ [ev] /\ is_goto_any ev = false
    /\ perform page (Goto (admin_root cfg)) st2 = (r, st3)
    /\ trace (snd (error_pass page cfg id (PWError m) st1))
       = trace st1 ++ [ev] ++ Ev (Goto (admin_root cfg)) r :: after
    /\ Forall is_probe after
    /\ match r with
       | Ok _ =>
         snd (error_pass page cfg id (PWError m) st1)
         = snd (ensure_admin_session page st3)
         /\ trace (snd (ensure_admin_session page st3)) = trace st3 ++ after
         /\ exists r1 rest,
              after = Ev (Count (lit "a[href*='logout=Y']")) r1 :: rest
       | Raise _ =>
         snd (error_pass page cfg id (PWError m) st1) = st3 /\ after = []
       end.
Proof.
  unfold error_pass.
  destruct (shot_trace cfg (lit "ERROR") id st1) as (ev & Ht & Hev).
  destruct (shot page cfg (lit "ERROR") id st1) as [p st2]. cbn [snd] in *.
  destruct (recovery_steps cfg st2) as (r & st3 & after & Hgo & Htr & Hp & Hr).
  exists ev, st2, r, st3, after. split; [exact Ht|]. split; [exact Hev|].
  split; [exact Hgo|]. split; [now rewrite Htr, Ht, <- app_assoc|].
  split; [exact Hp | exact Hr].
Qed.

Lemma main_try_raise_trace cfg id st e l st1 :
  main_try page cfg id (make_url cfg id) (initial_locals, st)
  = (Raise e, (l, st1)) ->
  exists evs,
    trace st1 = trace st ++ evs
    /\ count_events (is_goto (admin_root cfg)) evs = O.
Proof.
  intros Htry.
  destruct (main_try_raise page _ _ _ _ _ _ Htry)
    as [_ [Hloc | (n & st0 & Hloc & Hread)]].
  - destruct (locate_no_root cfg id st) as (evs & Ht & Hp).
    rewrite Hloc in Ht. exists evs. split; [exact Ht|].
    now apply count_events_none.
  - destruct (locate_no_root cfg id st) as (evs & Ht & Hp).
    destruct (read_row_no_root cfg id st0) as (evs' & Ht' & Hp').
    rewrite Hloc in Ht. rewrite Hread in Ht'. cbn [snd] in *.
    exists (evs ++ evs'). split; [now rewrite Ht', Ht, app_assoc|].
    rewrite count_events_app. now rewrite !count_events_none.
Qed.

End Recovery.

(** C8. When the [try] of a pass raises a Playwright error that is not a
    timeout (a closed tab, a lost session), the pass attempts one recovery:
    it navigates to the admin root exactly once, after everything else it
    does, and, when that navigation returns, it runs session assurance
    from the state the navigation left, so that the events after the
    navigation are those of session assurance, the count of the logout
    links first; when the navigation raises nothing follows it.  Whatever
    the navigation and session assurance answer, failure included, the
    pass returns its row, with status ERROR, and the loop goes on with the
    next identifier. *)
Theorem session_fault_recovers_once {U : UnicodeDB} {W : Type}
    (page : Handler W) (cfg : Config) (item_id : pystr) (st : St W)
    (m : pystr) (l : Locals) (st1 : St W)
    (Htry : main_try page cfg (strip item_id) (make_url cfg (strip item_id))
                     (initial_locals, st) = (Raise (PWError m), (l, st1))) :
  exists row st' before r after,
    main_iter page cfg item_id st = (Ok row, st') /\
    r_status row = lit "ERROR" /\
    r_comment row
      = lit "Playwright error (возможен вылет вкладки/сессии): " ++ m /\
    trace st' = trace st ++ before ++ Ev (Goto (admin_root cfg)) r :: after /\
    count_events (is_goto (admin_root cfg)) before = O /\
    Forall is_probe after /\
    count_events (is_goto (admin_root cfg))
                 (before ++ Ev (Goto (admin_root cfg)) r :: after) = 1%nat /\
    (exists st2 st3,
       trace st2 = trace st ++ before /\
       perform page (Goto (admin_root cfg)) st2 = (r, st3) /\
       match r with
       | Ok _ =>
         st' = snd (ensure_admin_session page st3) /\
         trace (snd (ensure_admin_session page st3)) = trace st3 ++ after /\
         exists r1 rest,
           after = Ev (Count (lit "a[href*='logout=Y']")) r1 :: rest
       | Raise _ => st' = st3 /\ after = []
       end) /\
    forall ids acc,
      main_loop page cfg (item_id :: ids) acc st
      = main_loop page cfg ids (acc ++ [row]) st'.
Proof.
  pose proof (main_iter_raise page _ _ _ _ _ _ Htry) as Hiter.
  destruct (main_try_raise_trace page _ _ _ _ _ _ Htry) as (evs0 & Ht0 & Hc0).
  destruct (error_pass_steps page cfg (strip item_id) m st1)
    as (ev & st2 & r & st3 & after & Ht2 & Hev & Hgo & Ht1 & Hp & Hr).
  destruct (error_pass_row page cfg (strip item_id) (PWError m) st1)
    as (p & st' & Hp').
  rewrite Hp' in Ht1, Hr. cbn [snd] in Ht1, Hr. rewrite Hp' in Hiter.
  assert (Hbefore : count_events (is_goto (admin_root cfg)) (evs0 ++ [ev]) = O).
  { rewrite count_events_app, Hc0. apply count_events_none.
    constructor; [|constructor]. now apply not_goto_any. }
  assert (Hafter : count_events (is_goto (admin_root cfg)) after = O).
  { apply count_events_none.
    apply (Forall_impl _ (P := is_probe)); [|exact Hp].
    intros ev'. apply probe_not_goto. }
  exists (row_of cfg (strip item_id) (error_locals initial_locals (PWError m) p)),
         st', (evs0 ++ [ev]), r, after.
  split; [exact Hiter|]. split; [reflexivity|]. split; [reflexivity|].
  split; [now rewrite Ht1, Ht0, <- !app_assoc|].
  split; [exact Hbefore|]. split; [exact Hp|]. split; [|split].
  - rewrite count_events_app, Hbefore.
    change (Ev (Goto (admin_root cfg)) r :: after)
      with ([Ev (Goto (admin_root cfg)) r] ++ after).
    rewrite count_events_app, Hafter.
    now rewrite (count_events_one _ _ (is_goto_same _ r)).
  - exists st2, st3. split; [now rewrite Ht2, Ht0, app_assoc|].
    split; [exact Hgo | exact Hr].
  - intros ids acc. now apply main_loop_cons.
Qed.

(** ** The request URL *)

Lemma spec_url_encode_unreserved s :
  Forall (fun c => is_unreserved c = true) s -> spec_url_encode s = s.
Proof.
  induction 1 as [|c s Hc _ IH]; [reflexivity|].
  unfold spec_url_encode in *. simpl. rewrite Hc. simpl. now f_equal.
Qed.

Lemma make_url_prefix cfg id : make_url cfg id = query_prefix cfg ++ id.
Proof.
  unfold make_url, query_prefix. rewrite <- !app_assoc.
  apply (f_equal (app (BASE_URL cfg))). vm_compute. reflexivity.
Qed.

(** C5, as the code has it.  The URL is a function of the configuration
    and the identifier: the fixed path and query, the entity identifier,
    and the identifier itself, unchanged, as the value of [find_id].  It
    is the URL with the identifier query-encoded exactly when encoding
    leaves the identifier as it is, which is so for identifiers made of
    letters, digits, [-], [.], [_] and [~]. *)
Theorem make_url_inserts_id_verbatim (cfg : Config) (id : pystr) :
  make_url cfg id = query_prefix cfg ++ id /\
  (forall id', make_url cfg id = make_url cfg id' -> id = id') /\
  (make_url cfg id = query_prefix cfg ++ spec_url_encode id
   <-> spec_url_encode id = id) /\
  (Forall (fun c => is_unreserved c = true) id ->
   make_url cfg id = query_prefix cfg ++ spec_url_encode id).
Proof.
  split; [apply make_url_prefix|]. split; [|split].
  - intros id' H. rewrite !make_url_prefix in H. now apply app_inv_head in H.
  - rewrite make_url_prefix. split.
    + intros H. now apply app_inv_head in H.
    + now intros ->.
  - intros H. now rewrite make_url_prefix, spec_url_encode_unreserved.
Qed.

(** * The rest of a pass, the settings and the identifiers *)

(** ** The model at work on small inputs *)

Example config_of_empty_environ :
  config_of_environ (fun _ => None) (lit "\") = default_config.
Proof. vm_compute. reflexivity. Qed.

Example config_of_slashed_url :
  BASE_URL (config_of_environ
              (fun key => if pystr_eqb key (lit "BITRIX_BASE_URL")
                          then Some (lit "https://example.org//") else None)
              (lit "/"))
  = lit "https://example.org".
Proof. vm_compute. reflexivity. Qed.

Example lower_mixed_case : lower (C := ascii_case) (lit "NaN-7") = lit "nan-7".
Proof. vm_compute. reflexivity. Qed.

Example load_example_file :
  load_ids_from_csv (C := ascii_case) example_disk EXAMPLE_IDS_FILE tt
  = (Ok [lit "A1"; lit "B2"; lit "A1"], tt).
Proof. vm_compute. reflexivity. Qed.

Example load_missing_file :
  load_ids_from_csv (C := ascii_case) example_disk EXTERNAL_IDS_PATH tt
  = (Raise (FileNotFoundError
              (lit "Файл не найден: C:\work_data\bitrix_ids\ids.csv")), tt).
Proof. vm_compute. reflexivity. Qed.

Example resolve_without_flags :
  resolve_input_file example_disk (mkArgs false false 1) tt
  = (Ok (lit "ids_example.csv"), tt).
Proof. vm_compute. reflexivity. Qed.

Example slice_from_negative :
  slice_from [1; 2; 3; 4]%Z (-1) = [4]%Z /\ slice_from [1; 2; 3; 4]%Z 1 = [2; 3; 4]%Z.
Proof. split; reflexivity. Qed.

Example ids_from_zero :
  ids_from (mkArgs false false 0) [lit "A1"; lit "B2"] = [lit "A1"; lit "B2"].
Proof. reflexivity. Qed.

Example column_letters_of_sheet :
  map get_column_letter [1; 26; 27; 52; 53; 702; 703]%nat
  = map (fun s => Ok (lit s)) ["A"; "Z"; "AA"; "AZ"; "BA"; "ZZ"; "AAA"]%string.
Proof. vm_compute. reflexivity. Qed.

Example column_letter_out_of_range :
  get_column_letter 0 = Raise (ValueError (lit "Invalid column index 0")).
Proof. vm_compute. reflexivity. Qed.

Example headers_of_sample :
  index_of (lit "Статус") (headers sample_report) = Some 5%nat.
Proof. vm_compute. reflexivity. Qed.

Section PassAnatomy.

Context {U : UnicodeDB} {W : Type} (page : Handler W).

Lemma grows_raise P A e : grows P (raise e : SE (St W) A).
Proof. intros st. exists []. split; [now rewrite app_nil_r | constructor]. Qed.

Lemma grows_try_catch P A (m : SE (St W) A) (h : fault -> SE (St W) A) :
  grows P m -> (forall e, grows P (h e)) -> grows P (try_catch m h).
Proof.
  intros Hm Hh st. unfold try_catch. destruct (Hm st) as (evs & Ht & Hp).
  destruct (m st) as [[a|e] st1]; simpl in Ht.
  - now exists evs.
  - destruct (Hh e st1) as (evs' & Ht' & Hp'). exists (evs ++ evs').
    split; [now rewrite Ht', Ht, app_assoc | now apply Forall_app].
Qed.

Lemma probe_quiet ev : is_probe ev -> quiet ev.
Proof. destruct ev as [X c r]. now destruct c. Qed.

Lemma ensure_admin_session_quiet : grows quiet (ensure_admin_session page).
Proof.
  eapply grows_weaken; [|apply ensure_admin_session_probes].
  exact probe_quiet.
Qed.

Lemma wait_for_table_quiet : grows quiet (wait_for_table page).
Proof.
  unfold wait_for_table. apply grows_try_catch.
  - apply grows_perform. now intros r.
  - intros [m|m|m|m]; try apply grows_raise.
    apply grows_bind; [apply ensure_admin_session_quiet|].
    intros _. apply grows_perform. now intros r.
Qed.

Lemma locate_anatomy cfg id st :
  exists r evs,
    trace (snd (locate page cfg id st))
    = trace st ++ Ev (Goto (make_url cfg id)) r :: evs
    /\ Forall quiet evs.
Proof.
  unfold locate.
  set (rest := fun _ : unit => bind (wait_for_table page) _).
  assert (Hrest : grows quiet (rest tt)).
  { unfold rest. apply grows_bind; [apply wait_for_table_quiet|].
    intros _. apply grows_bind; [apply ensure_admin_session_quiet|].
    intros _. apply grows_perform. now intros r. }
  unfold bind at 1.
  pose proof (perform_trace page _ (Goto (make_url cfg id)) st) as Ht.
  destruct (perform page (Goto (make_url cfg id)) st) as [[[]|e] st1];
    cbn [fst snd] in Ht.
  - destruct (Hrest st1) as (evs & Ht1 & Hq). exists (Ok tt), evs.
    split; [|exact Hq]. rewrite Ht1, Ht. now rewrite <- app_assoc.
  - exists (Raise e), []. split; [exact Ht | constructor].
Qed.

Lemma read_row_quiet id : grows quiet (read_row page id).
Proof.
  unfold read_row. apply grows_bind; [apply grows_perform; now intros r|].
  intros txt st. exists []. split; [now rewrite app_nil_r | constructor].
Qed.

Lemma shot_event cfg s id st :
  exists r,
    trace (snd (shot page cfg s id st))
    = trace st ++ [Ev (Screenshot (screenshot_file cfg (replace1 32%N 95%N s) id)) r]
    /\ fst (shot page cfg s id st)
       = match r with
         | Ok _ => screenshot_file cfg (replace1 32%N 95%N s) id
         | Raise _ => []
         end.
Proof.
  unfold shot. cbv zeta.
  destruct (page _ (Screenshot _) (world st)) as [r w].
  exists r. split; reflexivity.
Qed.

End PassAnatomy.

Section PassAnatomy2.

Context {U : UnicodeDB} {W : Type} (page : Handler W).

Lemma error_pass_anatomy cfg id e st1 :
  exists p r st' after,
    error_pass page cfg id e st1
    = (Ok (row_of cfg id (error_locals initial_locals e p)), st')
    /\ trace st'
       = trace st1
         ++ Ev (Screenshot (screenshot_file cfg (replace1 32%N 95%N (lit "ERROR")) id)) r
         :: after
    /\ p = match r with
           | Ok _ => screenshot_file cfg (replace1 32%N 95%N (lit "ERROR")) id
           | Raise _ => []
           end
    /\ (after = [] \/
        exists r1 probes,
          after = Ev (Goto (admin_root cfg)) r1 :: probes /\ Forall is_probe probes).
Proof.
  unfold error_pass.
  destruct (shot_event page cfg (lit "ERROR") id st1) as (r & Ht & Hp).
  destruct (shot page cfg (lit "ERROR") id st1) as [p st2]. cbn [fst snd] in *.
  destruct (recovery_trace page cfg st2) as (r1 & probes & Htr & Hpr).
  destruct e as [m|m|m|m];
    try (exists p, r, st2, []; repeat split; [exact Ht | exact Hp | now left]).
  exists p, r, (snd (recovery page cfg st2)), (Ev (Goto (admin_root cfg)) r1 :: probes).
  repeat split; [|exact Hp|right; now exists r1, probes].
  rewrite Htr, Ht. now rewrite <- app_assoc.
Qed.

Lemma main_iter_anatomy cfg item_id st :
  let id := strip item_id in
  exists row st' r0 evs,
    main_iter page cfg item_id st = (Ok row, st') /\
    r_id row = id /\ r_url row = make_url cfg id /\
    trace st' = trace st ++ Ev (Goto (make_url cfg id)) r0 :: evs /\
    ((r_status row = lit "OK" /\ r_comment row = [] /\ r_screenshot row = []
      /\ Forall quiet evs) \/
     (r_status row <> lit "OK" /\
      exists before r after,
        evs = before
              ++ Ev (Screenshot
                       (screenshot_file cfg (replace1 32%N 95%N (r_status row)) id)) r
              :: after /\
        Forall quiet before /\
        r_screenshot row
        = match r with
          | Ok _ => screenshot_file cfg (replace1 32%N 95%N (r_status row)) id
          | Raise _ => []
          end /\
        (after = [] \/
         (r_status row = lit "ERROR" /\
          exists r1 probes,
            after = Ev (Goto (admin_root cfg)) r1 :: probes
            /\ Forall is_probe probes)))).
Proof.
  intros id. rewrite main_iter_cases. cbv zeta. fold id.
  destruct (@status_strings_distinct) as (D1 & D2 & D3 & D4 & D5 & D6).
  destruct (locate_anatomy page cfg id st) as (r0 & evs0 & Ht0 & Hq0).
  destruct (locate page cfg id st) as [[[|n]|e] st1]; cbn [snd] in Ht0.
  - destruct (shot_event page cfg (lit "NOT FOUND") id st1) as (r & Ht & Hp).
    destruct (shot page cfg (lit "NOT FOUND") id st1) as [p st2].
    cbn [fst snd] in *.
    eexists _, st2, r0, (evs0 ++ [_]). split; [reflexivity|]. split; [reflexivity|]. split; [reflexivity|].
    split; [rewrite Ht, Ht0; now rewrite <- app_assoc|].
    right. cbn [row_of r_status r_screenshot status screenshot_path].
    split; [congruence|]. exists evs0, r, []. repeat split; auto.
  - destruct (read_row_quiet page id st1) as (evs1 & Ht1 & Hq1).
    destruct (read_row page id st1) as [[[d y]|e] st2]; cbn [snd] in Ht1.
    + destruct (year_eqb y (OK_YEAR cfg)).
      * eexists _, st2, r0, (evs0 ++ evs1). split; [reflexivity|]. split; [reflexivity|]. split; [reflexivity|].
        split; [rewrite Ht1, Ht0; now rewrite <- app_assoc|].
        left. repeat split. now apply Forall_app.
      * destruct (shot_event page cfg (lit "FAIL") id st2) as (r & Ht & Hp).
        destruct (shot page cfg (lit "FAIL") id st2) as [p st3].
        cbn [fst snd] in *.
        eexists _, st3, r0, ((evs0 ++ evs1) ++ [_]). split; [reflexivity|]. split; [reflexivity|]. split; [reflexivity|].
        split; [rewrite Ht, Ht1, Ht0; now rewrite <- !app_assoc|].
        right. cbn [row_of r_status r_screenshot status screenshot_path].
        split; [congruence|]. exists (evs0 ++ evs1), r, [].
        repeat split; auto. now apply Forall_app.
    + destruct (error_pass_anatomy cfg id e st2)
        as (p & r & st' & after & -> & Ht & Hp & Hafter).
      eexists _, st', r0, ((evs0 ++ evs1) ++ _ :: after). split; [reflexivity|]. split; [reflexivity|]. split; [reflexivity|].
      split; [rewrite Ht, Ht1, Ht0; now rewrite <- !app_assoc|].
      right. cbn [row_of r_status r_screenshot status screenshot_path error_locals].
      split; [congruence|]. exists (evs0 ++ evs1), r, after.
      split; [reflexivity|]. split; [now apply Forall_app|]. split; [exact Hp|].
      destruct Hafter as [->|H]; [now left | right; now split].
  - destruct (error_pass_anatomy cfg id e st1)
      as (p & r & st' & after & -> & Ht & Hp & Hafter).
    eexists _, st', r0, (evs0 ++ _ :: after). split; [reflexivity|]. split; [reflexivity|]. split; [reflexivity|].
    split; [rewrite Ht, Ht0; now rewrite <- !app_assoc|].
    right. cbn [row_of r_status r_screenshot status screenshot_path error_locals].
    split; [congruence|]. exists evs0, r, after.
    split; [reflexivity|]. split; [assumption|]. split; [exact Hp|].
    destruct Hafter as [->|H]; [now left | right; now split].
Qed.

End PassAnatomy2.

Lemma quiet_no_screenshot evs :
  Forall quiet evs -> count_events is_screenshot evs = O.
Proof.
  intros H. apply count_events_none.
  apply (Forall_impl _ (P := quiet)); [|exact H]. now intros ev [_ H2].
Qed.

Lemma quiet_no_goto evs :
  Forall quiet evs -> count_events is_goto_any evs = O.
Proof.
  intros H. apply count_events_none.
  apply (Forall_impl _ (P := quiet)); [|exact H]. now intros ev [H1 _].
Qed.

Lemma probes_quiet evs : Forall is_probe evs -> Forall quiet evs.
Proof. apply Forall_impl. exact probe_quiet. Qed.

Lemma count_events_cons p ev evs :
  count_events p (ev :: evs)
  = ((if p ev then 1 else 0) + count_events p evs)%nat.
Proof. unfold count_events. simpl. now destruct (p ev). Qed.

(** X1. A pass takes a screenshot exactly when it does not end OK: an
    OK pass makes no call of [page.screenshot] and records no path; any
    other pass makes exactly one, to the file named after its status and
    identifier, and records that path when the call returned and the
    empty string when it raised. *)
Theorem one_screenshot_unless_ok {U : UnicodeDB} {W : Type} (page : Handler W)
    (cfg : Config) (item_id : pystr) (st : St W) :
  exists row st' evs,
    main_iter page cfg item_id st = (Ok row, st') /\
    trace st' = trace st ++ evs /\
    (r_status row = lit "OK" ->
     count_events is_screenshot evs = O /\ r_screenshot row = []) /\
    (r_status row <> lit "OK" ->
     count_events is_screenshot evs = 1%nat /\
     exists before r after,
       let path :=
         screenshot_file cfg (replace1 32%N 95%N (r_status row)) (r_id row) in
       evs = before ++ Ev (Screenshot path) r :: after /\
       count_events is_screenshot before = O /\
       count_events is_screenshot after = O /\
       r_screenshot row = match r with Ok _ => path | Raise _ => [] end).
Proof.
  destruct (main_iter_anatomy page cfg item_id st)
    as (row & st' & r0 & evs & Hiter & Hid & _ & Ht & Hshape).
  exists row, st', (Ev (Goto (make_url cfg (strip item_id))) r0 :: evs).
  split; [exact Hiter|]. split; [exact Ht|].
  destruct Hshape as [(Hok & _ & Hs & Hq)
                     |(Hno & before & r & after & -> & Hq & Hs & Hafter)].
  - split; [|intros H; now elim H]. intros _. split; [|exact Hs].
    rewrite count_events_cons. now rewrite quiet_no_screenshot.
  - split; [intros H; now elim Hno|]. intros _.
    assert (Ha : count_events is_screenshot after = O).
    { destruct Hafter as [->|(_ & r1 & probes & -> & Hp)]; [reflexivity|].
      rewrite count_events_cons. now rewrite (quiet_no_screenshot _ (probes_quiet _ Hp)). }
    rewrite Hid. split.
    + rewrite count_events_cons, count_events_app, count_events_cons.
      rewrite Ha, (quiet_no_screenshot _ Hq). reflexivity.
    + exists (Ev (Goto (make_url cfg (strip item_id))) r0 :: before), r, after.
      cbv zeta. split; [reflexivity|]. split; [|split; [exact Ha | exact Hs]].
      rewrite count_events_cons. now rewrite (quiet_no_screenshot _ Hq).
Qed.

(** X2. Every pass starts by navigating to the URL of its identifier,
    the URL its row records; the only other navigation a pass can make is
    the one to the admin root, at most once, and only in a pass that ends
    in ERROR. *)
Theorem pass_navigates_first {U : UnicodeDB} {W : Type} (page : Handler W)
    (cfg : Config) (item_id : pystr) (st : St W) :
  exists row st' r rest,
    main_iter page cfg item_id st = (Ok row, st') /\
    r_url row = make_url cfg (strip item_id) /\
    trace st' = trace st ++ Ev (Goto (r_url row)) r :: rest /\
    (count_events is_goto_any rest <= 1)%nat /\
    (r_status row <> lit "ERROR" -> count_events is_goto_any rest = O) /\
    count_events is_goto_any rest
    = count_events (is_goto (admin_root cfg)) rest.
Proof.
  destruct (main_iter_anatomy page cfg item_id st)
    as (row & st' & r0 & evs & Hiter & _ & Hurl & Ht & Hshape).
  exists row, st', r0, evs. split; [exact Hiter|]. split; [exact Hurl|].
  split; [now rewrite Hurl|].
  assert (Hroot : forall l, Forall quiet l ->
                    count_events (is_goto (admin_root cfg)) l = O).
  { intros l Hl. apply count_events_none.
    apply (Forall_impl _ (P := quiet)); [|exact Hl].
    intros ev [H1 _]. now apply not_goto_any. }
  destruct Hshape as [(Hok & _ & _ & Hq)
                     |(Hno & before & r & after & -> & Hq & _ & Hafter)].
  - rewrite (quiet_no_goto _ Hq), (Hroot _ Hq). repeat split; lia.
  - rewrite !count_events_app, !count_events_cons.
    rewrite (quiet_no_goto _ Hq), (Hroot _ Hq). cbn [is_goto_any is_goto].
    destruct Hafter as [->|(Herr & r1 & probes & -> & Hp)].
    + cbn. repeat split; lia.
    + rewrite !count_events_cons. cbn [is_goto_any].
      rewrite (is_goto_same (admin_root cfg) r1).
      rewrite (quiet_no_goto _ (probes_quiet _ Hp)), (Hroot _ (probes_quiet _ Hp)).
      split; [cbn; lia|]. split; [intros H; now elim H | reflexivity].
Qed.

Section RowFacts.

Context {U : UnicodeDB} {W : Type} (page : Handler W).

Lemma date_token_nonempty m : date_token m -> m <> [].
Proof.
  intros (d1 & d2 & m1 & m2 & y1 & y2 & y3 & y4 & ws & h1 & h2 & i1 & i2
          & s1 & s2 & -> & _). discriminate.
Qed.

Lemma extract_year_shape text d y :
  extract_year text = Ok (d, y) ->
  (d = [] /\ y = None /\ absent date_token (strip text)) \/
  (exists pre post,
     leftmost date_token (strip text) pre d post /\ y = parsed_year d).
Proof.
  rewrite extract_year_search.
  destruct (re_search DATE_RE (strip text)) as [[[pre m] post]|] eqn:Hs.
  - intros [= <- <-]. right. exists pre, post.
    split; [now apply search_date_some | reflexivity].
  - intros [= <- <-]. left. repeat split. now apply search_date_none.
Qed.

Lemma read_row_shape id st1 d y st2 :
  read_row page id st1 = (Ok (d, y), st2) ->
  ((d = [] /\ y = None) \/ (date_token d /\ y = parsed_year d))
  /\ forall v, y = Some v -> (1 <= v <= 9999)%Z.
Proof.
  unfold read_row, bind, lift_res.
  destruct (perform page (RowInnerText _) st1) as [[txt|e] st1']; [|discriminate].
  destruct (extract_year txt) as [[d' y']|e] eqn:Hx; [|discriminate].
  intros [= -> -> ->]. split.
  - destruct (extract_year_shape _ _ _ Hx)
      as [(-> & -> & _)|(pre & post & (_ & Htok & _) & ->)]; [now left|now right].
  - intros v ->. exact (extract_year_nonzero _ _ _ Hx).
Qed.

Lemma fail_comment_nonempty cfg y : fail_comment cfg y <> [].
Proof.
  unfold fail_comment. intros H. apply app_eq_nil in H. destruct H as [H _].
  vm_compute in H. discriminate H.
Qed.

Lemma not_found_comment_nonempty : not_found_comment <> [].
Proof. vm_compute. discriminate. Qed.

Lemma error_comment_nonempty e : except_prefix e ++ str_of_fault e <> [].
Proof.
  intros H. apply app_eq_nil in H. destruct H as [H _].
  destruct e; vm_compute in H; discriminate H.
Qed.

End RowFacts.

(** X3. What a row holds, whatever the page did: one of the four
    statuses and the expected year of the configuration; a comment
    exactly when the status is not OK; no date and no year under ERROR
    and NOT FOUND; no year without a date text; a date text that is a
    token, with the year [strptime] reads off it; a year between 1 and
    9999. *)
Theorem row_invariants {U : UnicodeDB} {W : Type} (page : Handler W)
    (cfg : Config) (item_id : pystr) (st : St W) :
  exists row st',
    main_iter page cfg item_id st = (Ok row, st') /\
    r_expected_year row = OK_YEAR cfg /\
    (r_status row = lit "OK" \/ r_status row = lit "FAIL"
     \/ r_status row = lit "NOT FOUND" \/ r_status row = lit "ERROR") /\
    (r_comment row = [] <-> r_status row = lit "OK") /\
    (r_status row = lit "ERROR" \/ r_status row = lit "NOT FOUND" ->
     r_date_text row = [] /\ r_year row = None) /\
    (r_date_text row = [] -> r_year row = None) /\
    (r_date_text row <> [] ->
     date_token (r_date_text row)
     /\ r_year row = parsed_year (r_date_text row)) /\
    (forall y, r_year row = Some y -> (1 <= y <= 9999)%Z).
Proof.
  rewrite main_iter_cases. cbv zeta.
  destruct (@status_strings_distinct) as (D1 & D2 & D3 & D4 & D5 & D6).
  pose proof (fail_comment_nonempty cfg) as Hfc.
  pose proof not_found_comment_nonempty as Hnf.
  pose proof error_comment_nonempty as Herr.
  destruct (locate page cfg (strip item_id) st) as [[[|n]|e] st1];
    [ destruct (shot page cfg (lit "NOT FOUND") (strip item_id) st1) as [p st2]
    | destruct (read_row page (strip item_id) st1) as [[[d y]|e] st2] eqn:Hread;
      [ destruct (read_row_shape page _ _ _ _ _ Hread) as [Hshape Hrange];
        destruct (year_eqb y (OK_YEAR cfg)) eqn:Hy;
        [ | destruct (shot page cfg (lit "FAIL") (strip item_id) st2) as [p st3] ]
      | destruct (error_pass_row page cfg (strip item_id) e st2) as (p & st' & ->) ]
    | destruct (error_pass_row page cfg (strip item_id) e st1) as (p & st' & ->) ];
    (eexists _, _; split; [reflexivity|]);
    cbn [row_of r_status r_year r_date_text r_comment r_expected_year
         status year_ date_text comment error_locals initial_locals];
    (split; [reflexivity|]); (split; [tauto|]).
  - split; [split; intros H; [now elim Hnf | congruence]|].
    split; [now intros _|]. split; [reflexivity|]. split; [intros H; now elim H|].
    discriminate.
  - split; [now split|]. split; [intros [H|H]; congruence|].
    split; [intros ->; destruct Hshape as [[_ ->]|[Ht _]];
            [reflexivity | now elim (date_token_nonempty _ Ht)]|].
    split; [|exact Hrange].
    intros Hd. destruct Hshape as [[-> _]|H]; [now elim Hd | exact H].
  - split; [split; intros H; [now elim (Hfc y) | congruence]|].
    split; [intros [H|H]; congruence|].
    split; [intros ->; destruct Hshape as [[_ ->]|[Ht _]];
            [reflexivity | now elim (date_token_nonempty _ Ht)]|].
    split; [|exact Hrange].
    intros Hd. destruct Hshape as [[-> _]|H]; [now elim Hd | exact H].
  - split; [split; intros H; [now elim (Herr e) | congruence]|].
    split; [now intros _|]. split; [reflexivity|]. split; [intros H; now elim H|].
    discriminate.
  - split; [split; intros H; [now elim (Herr e) | congruence]|].
    split; [now intros _|]. split; [reflexivity|]. split; [intros H; now elim H|].
    discriminate.
Qed.

Ltac trace_events :=
  eexists; split;
  [ cbn [snd];
    repeat match goal with T : trace _ = _ |- _ => rewrite T; clear T end;
    rewrite <- ?app_assoc; reflexivity
  | ].

Ltac no_prompt :=
  split; [vm_compute; lia|];
  split; [split; [intros H; vm_compute in H; discriminate H
                 |intros (? & ? & ? & ? & ? & ? & ? & ? & ? & ?); congruence]|].

(** X4. Session assurance asks the operator to log in, with [input], at
    most once, and exactly when the logout link is missing, both fields
    of the login form are there and the notice was printed.  With the
    logout link on the page it returns after that one count; without the
    login field it does not look for the password field and ends with the
    short wait, as it does when only the password field is missing. *)
Theorem session_prompt_on_login_page {W : Type} (page : Handler W) (st : St W) :
  exists evs,
    trace (snd (ensure_admin_session page st)) = trace st ++ evs /\
    (count_events is_input evs <= 1)%nat /\
    (count_events is_input evs = 1%nat <->
     exists st1 n st2 m st3 st4,
       perform page (Count logout_link) st = (Ok O, st1) /\
       perform page (Count login_field) st1 = (Ok (S n), st2) /\
       perform page (Count password_field) st2 = (Ok (S m), st3) /\
       perform page (Print login_notice) st3 = (Ok tt, st4)) /\
    (forall n st1,
       perform page (Count logout_link) st = (Ok (S n), st1) ->
       ensure_admin_session page st = (Ok tt, st1)) /\
    (forall st1 st2,
       perform page (Count logout_link) st = (Ok O, st1) ->
       perform page (Count login_field) st1 = (Ok O, st2) ->
       ensure_admin_session page st = perform page (WaitForTimeout 500) st2) /\
    (forall st1 n st2 st3,
       perform page (Count logout_link) st = (Ok O, st1) ->
       perform page (Count login_field) st1 = (Ok (S n), st2) ->
       perform page (Count password_field) st2 = (Ok O, st3) ->
       ensure_admin_session page st = perform page (WaitForTimeout 500) st3).
Proof.
  unfold ensure_admin_session, is_logged_in_admin, is_login_page, bind, ret.
  unfold logout_link, login_field, password_field, login_notice, login_prompt.
  pose proof (perform_trace page _ (Count (lit "a[href*='logout=Y']")) st) as T1.
  destruct (perform page (Count (lit "a[href*='logout=Y']")) st)
    as [[[|n]|e] st1] eqn:H1;
    cbn [fst snd] in T1; cbn [Nat.ltb Nat.leb].
  2:{ trace_events. no_prompt.
      split; [|split; intros; discriminate].
      now intros n' st1' [= <- <-]. }
  2:{ trace_events. no_prompt. repeat split; intros; discriminate. }
  pose proof (perform_trace page _ (Count (lit "input[name='USER_LOGIN']")) st1) as T2.
  destruct (perform page (Count (lit "input[name='USER_LOGIN']")) st1)
    as [[[|n]|e] st2] eqn:H2;
    cbn [fst snd] in T2; cbn [Nat.ltb Nat.leb].
  - pose proof (perform_trace page _ (WaitForTimeout 500) st2) as T3.
    trace_events. no_prompt.
    split; [intros; discriminate|]. split; [|intros; congruence].
    intros ? ? [= <-] E2. rewrite H2 in E2. now injection E2 as <-.
  - pose proof (perform_trace page _ (Count (lit "input[name='USER_PASSWORD']")) st2) as T3.
    destruct (perform page (Count (lit "input[name='USER_PASSWORD']")) st2)
      as [[[|m]|e] st3] eqn:H3;
      cbn [fst snd] in T3; cbn [Nat.ltb Nat.leb].
    + pose proof (perform_trace page _ (WaitForTimeout 500) st3) as T4.
      trace_events. no_prompt.
      split; [intros; discriminate|]. split; [intros; congruence|].
      intros ? ? ? ? [= <-] E2 E3. rewrite H2 in E2. injection E2 as _ <-.
      rewrite H3 in E3. now injection E3 as <-.
    + pose proof (perform_trace page _ (Print (lit "⚠️ Открылась страница логина. Похоже, сессия закончилась.")) st3) as T4.
      destruct (perform page (Print _) st3) as [[[]|e] st4] eqn:H4;
        cbn [fst snd] in T4.
      * pose proof (perform_trace page _ (Input (lit "👉 Войди в админку в этом окне и нажми ENTER, чтобы продолжить...")) st4) as T5.
        destruct (perform page (Input _) st4) as [[r5|e5] st5] eqn:H5;
          cbn [fst snd] in T5.
        -- trace_events. split; [vm_compute; lia|].
           split; [split; [intros _|intros _; vm_compute; reflexivity]|].
           ++ now exists st1, n, st2, m, st3, st4.
           ++ repeat split; intros; congruence.
        -- trace_events. split; [vm_compute; lia|].
           split; [split; [intros _|intros _; vm_compute; reflexivity]|].
           ++ now exists st1, n, st2, m, st3, st4.
           ++ repeat split; intros; congruence.
      * trace_events. no_prompt. repeat split; intros; congruence.
    + trace_events. no_prompt. repeat split; intros; congruence.
  - trace_events. no_prompt. repeat split; intros; congruence.
Qed.

(** X5. The waiter retries after a timeout only.  When the first wait
    returns, the waiter returns after that one call; when it raises
    something that is no timeout, the waiter raises it after that one
    call; and when the first wait times out and session assurance raises,
    the waiter raises that and does not wait again. *)
Theorem wait_for_table_without_retry {W : Type} (page : Handler W) (st : St W) :
  (forall st1,
     perform page table_wait st = (Ok tt, st1) ->
     wait_for_table page st = (Ok tt, st1)
     /\ trace st1 = trace st ++ [Ev table_wait (Ok tt)]) /\
  (forall e st1,
     perform page table_wait st = (Raise e, st1) ->
     (forall m, e <> PWTimeoutError m) ->
     wait_for_table page st = (Raise e, st1)
     /\ trace st1 = trace st ++ [Ev table_wait (Raise e)]) /\
  (forall m st1 e st2,
     perform page table_wait st = (Raise (PWTimeoutError m), st1) ->
     ensure_admin_session page st1 = (Raise e, st2) ->
     wait_for_table page st = (Raise e, st2)
     /\ exists evs,
          trace st2 = trace st ++ Ev table_wait (Raise (PWTimeoutError m)) :: evs
          /\ Forall is_probe evs).
Proof.
  rewrite wait_for_table_eq.
  pose proof (perform_trace page _ table_wait st) as Ht.
  destruct (perform page table_wait st) as [[[]|e] st1] eqn:H1;
    cbn [fst snd] in Ht.
  - split; [|split]; [|intros; discriminate|intros; discriminate].
    intros st1' [= <-]. now split.
  - split; [intros; discriminate|]. split.
    + intros e' st1' [= <- <-] Hno. split; [|exact Ht].
      destruct e as [m|m|m|m]; try reflexivity. now elim (Hno m).
    + intros m st1' e' st2 [= -> <-] He.
      destruct (ensure_admin_session_probes page st1) as (evs & Ht1 & Hp).
      rewrite He in Ht1 |- *. cbn [snd] in Ht1. split; [reflexivity|].
      exists evs. split; [|exact Hp]. rewrite Ht1, Ht. now rewrite <- app_assoc.
Qed.

Lemma date_token_length {U : UnicodeDB} m : date_token m -> (19 <= length m)%nat.
Proof.
  intros (d1 & d2 & m1 & m2 & y1 & y2 & y3 & y4 & ws & h1 & h2 & i1 & i2
          & s1 & s2 & -> & _ & Hws & _).
  rewrite !length_app. destruct ws; [now elim Hws|]. simpl. lia.
Qed.

(** X6. The date text the extractor returns is empty exactly when the
    stripped text holds no token, and then there is no year; a date text
    that is not empty is a piece of the stripped text, a token, and at
    least 19 characters long; a year that is returned is the one
    [strptime] parsed from the date text, between 1 and 9999. *)
Theorem extract_year_date_text {U : UnicodeDB} (text : pystr) :
  exists d y,
    extract_year text = Ok (d, y) /\
    (d = [] <-> absent date_token (strip text)) /\
    (d = [] -> y = None) /\
    (d <> [] ->
     (exists pre post, strip text = pre ++ d ++ post)
     /\ date_token d /\ (19 <= length d)%nat) /\
    (forall v, y = Some v ->
     (1 <= v <= 9999)%Z /\ exists dt, strptime d = Ok dt /\ year dt = v).
Proof.
  destruct (extract_year_total text) as (d & y & Hx). exists d, y.
  split; [exact Hx|].
  pose proof (extract_year_nonzero text d) as Hrange.
  destruct (extract_year_shape _ _ _ Hx)
    as [(-> & -> & Habs)|(pre & post & Hl & ->)].
  - split; [now split|]. split; [reflexivity|]. split; [intros H; now elim H|].
    discriminate.
  - pose proof Hl as (Heq & Htok & _).
    pose proof (date_token_nonempty _ Htok) as Hne.
    split; [split; [intros H; now elim Hne|]|].
    { intros Habs. elim (leftmost_not_absent _ _ _ _ _ Hl Habs). }
    split; [intros H; now elim Hne|].
    split; [intros _; split; [now exists pre, post|];
            split; [exact Htok | now apply date_token_length]|].
    intros v Hv. split; [apply Hrange; now rewrite Hx, Hv|].
    unfold parsed_year in Hv. destruct (strptime d) as [dt|e]; [|discriminate].
    exists dt. split; [reflexivity | congruence].
Qed.

Section Screenshots.

Context {W : Type} (page : Handler W).

Lemma save_screenshot_path cfg s id st p st1 :
  save_screenshot page cfg s id st = (Ok p, st1) ->
  p <> [] ->
  p = SCREEN_DIR ++ os_sep cfg ++ replace1 32%N 95%N s ++ lit "_" ++ id ++ lit ".png".
Proof.
  rewrite save_screenshot_eq.
  destruct (shot_event page cfg s id st) as (r & _ & Hp).
  intros [= <- _] Hne. rewrite Hp in Hne |- *.
  destruct r; [reflexivity | now elim Hne].
Qed.

Lemma shot_status_cases s :
  shot_status s ->
  replace1 32%N 95%N s = lit "NOT_FOUND" \/ replace1 32%N 95%N s = lit "FAIL"
  \/ replace1 32%N 95%N s = lit "ERROR".
Proof.
  intros [-> | [-> | ->]]; [left|right; left|right; right]; vm_compute; reflexivity.
Qed.

Lemma shot_status_replace_inj s s' :
  shot_status s -> shot_status s' ->
  replace1 32%N 95%N s = replace1 32%N 95%N s' -> s = s'.
Proof.
  intros [-> | [-> | ->]] [-> | [-> | ->]] H; try reflexivity;
    vm_compute in H; discriminate H.
Qed.

End Screenshots.

(** X7. Two screenshots that were taken, for statuses under which the
    loop takes one, go to the same file exactly when they are for the
    same status and the same identifier. *)
Theorem screenshots_share_a_file {W : Type} (page : Handler W) (cfg : Config)
    (s s' id id' : pystr) (st st' : St W) (p p' : pystr) (st1 st1' : St W)
    (Hs : shot_status s) (Hs' : shot_status s')
    (Hp : save_screenshot page cfg s id st = (Ok p, st1))
    (Hp' : save_screenshot page cfg s' id' st' = (Ok p', st1'))
    (Hne : p <> []) (Hne' : p' <> []) :
  p = p' <-> s = s' /\ id = id'.
Proof.
  rewrite (save_screenshot_path page _ _ _ _ _ _ Hp Hne).
  rewrite (save_screenshot_path page _ _ _ _ _ _ Hp' Hne').
  split; [|now intros [-> ->]].
  intros H. apply app_inv_head in H. apply app_inv_head in H.
  assert (Hrep : replace1 32%N 95%N s = replace1 32%N 95%N s').
  { destruct (shot_status_cases s Hs) as [E|[E|E]];
      destruct (shot_status_cases s' Hs') as [E'|[E'|E']];
      rewrite E, E' in H |- *; try reflexivity;
      vm_compute in H; discriminate H. }
  rewrite Hrep in H. apply app_inv_head in H. apply app_inv_head in H.
  apply app_inv_tail in H. split; [|exact H].
  now apply shot_status_replace_inj.
Qed.

Section Settings.

Lemma lstrip_chars_split chars s :
  exists dropped,
    s = dropped ++ lstrip_chars chars s
    /\ Forall (fun c => existsb (N.eqb c) chars = true) dropped
    /\ match lstrip_chars chars s with
       | c :: _ => existsb (N.eqb c) chars = false
       | [] => True
       end.
Proof.
  induction s as [|c s IH]; simpl.
  - exists []. repeat split. constructor.
  - destruct (existsb (N.eqb c) chars) eqn:Hc.
    + destruct IH as (dropped & Heq & Hall & Hhd). exists (c :: dropped).
      split; [simpl; now rewrite <- Heq|]. split; [now constructor | exact Hhd].
    + exists []. repeat split; [constructor | exact Hc].
Qed.

Lemma rstrip_chars_split chars s :
  exists dropped,
    s = rstrip_chars chars s ++ dropped
    /\ Forall (fun c => existsb (N.eqb c) chars = true) dropped
    /\ forall b c, rstrip_chars chars s = b ++ [c] ->
                   existsb (N.eqb c) chars = false.
Proof.
  unfold rstrip_chars.
  destruct (lstrip_chars_split chars (rev s)) as (dropped & Heq & Hall & Hhd).
  exists (rev dropped). split; [|split].
  - rewrite <- rev_app_distr, <- Heq. now rewrite rev_involutive.
  - now apply Forall_rev.
  - intros b c Hb. apply (f_equal (@rev _)) in Hb.
    rewrite rev_involutive, rev_app_distr in Hb. simpl in Hb.
    now rewrite Hb in Hhd.
Qed.

Lemma all_slashes l :
  Forall (fun c => existsb (N.eqb c) [47%N] = true) l ->
  l = repeat 47%N (length l).
Proof.
  induction 1 as [|c l Hc _ IH]; [reflexivity|]. simpl.
  simpl in Hc. rewrite orb_false_r in Hc. apply N.eqb_eq in Hc.
  now rewrite Hc, <- IH.
Qed.

End Settings.

(** X8. [BASE_URL] is what the environment gives for [BITRIX_BASE_URL],
    or the default, without its trailing slashes: the value read is
    [BASE_URL] followed by slashes only, and [BASE_URL] does not end in a
    slash; [OK_YEAR] is 2025 and the defaults are those of the file. *)
Theorem base_url_without_trailing_slash (environ : pystr -> option pystr)
    (sep : pystr) :
  let raw :=
    getenv environ (lit "BITRIX_BASE_URL") (lit "https://globaldrive.ru") in
  let cfg := config_of_environ environ sep in
  (exists k, raw = BASE_URL cfg ++ repeat 47%N k) /\
  (forall b, BASE_URL cfg <> b ++ [47%N]) /\
  OK_YEAR cfg = 2025%Z /\
  (environ (lit "BITRIX_BASE_URL") = None ->
   BASE_URL cfg = lit "https://globaldrive.ru") /\
  (environ (lit "ENTITY_ID") = None -> ENTITY_ID cfg = lit "4").
Proof.
  intros raw cfg. unfold cfg, config_of_environ. cbn [BASE_URL OK_YEAR ENTITY_ID].
  fold raw. replace (lit "/") with [47%N] by (vm_compute; reflexivity).
  destruct (rstrip_chars_split [47%N] raw) as (dropped & Heq & Hall & Hlast).
  split; [|split; [|split; [reflexivity|split]]].
  - exists (length dropped).
    transitivity (rstrip_chars [47%N] raw ++ dropped); [exact Heq|].
    apply f_equal. exact (all_slashes _ Hall).
  - intros b Hb. specialize (Hlast b 47%N Hb). discriminate Hlast.
  - intros Hnone. unfold raw, getenv. rewrite Hnone. vm_compute. reflexivity.
  - intros Hnone. unfold getenv. now rewrite Hnone.
Qed.

Section StripFacts.

Lemma lstrip_split s :
  exists ws,
    s = ws ++ lstrip s /\ all_space ws
    /\ match lstrip s with
       | c :: _ => isspace c = false
       | [] => True
       end.
Proof.
  induction s as [|c s IH]; simpl.
  - exists []. repeat split. constructor.
  - destruct (isspace c) eqn:Hc.
    + destruct IH as (ws & Heq & Hall & Hhd). exists (c :: ws).
      split; [simpl; now rewrite <- Heq|]. split; [now constructor | exact Hhd].
    + exists []. repeat split; [constructor | exact Hc].
Qed.

Lemma lstrip_fixed s :
  match s with c :: _ => isspace c = false | [] => True end -> lstrip s = s.
Proof. destruct s as [|c s]; [reflexivity|]. simpl. now intros ->. Qed.

Lemma lstrip_idem s : lstrip (lstrip s) = lstrip s.
Proof. destruct (lstrip_split s) as (_ & _ & _ & H). now apply lstrip_fixed. Qed.

Lemma rstrip_idem s : rstrip (rstrip s) = rstrip s.
Proof. unfold rstrip. now rewrite rev_involutive, lstrip_idem. Qed.

Lemma rstrip_split s : exists ws, s = rstrip s ++ ws /\ all_space ws.
Proof.
  unfold rstrip. destruct (lstrip_split (rev s)) as (ws & Heq & Hall & _).
  exists (rev ws). split; [|now apply all_space_rev].
  rewrite <- rev_app_distr, <- Heq. now rewrite rev_involutive.
Qed.

Lemma strip_idem s : strip (strip s) = strip s.
Proof.
  unfold strip.
  assert (H : lstrip (rstrip (lstrip s)) = rstrip (lstrip s)).
  { apply lstrip_fixed.
    destruct (lstrip_split s) as (_ & _ & _ & Hhd).
    destruct (rstrip_split (lstrip s)) as (ws & Heq & _).
    destruct (rstrip (lstrip s)) as [|c t]; [exact I|].
    rewrite Heq in Hhd. exact Hhd. }
  now rewrite H, rstrip_idem.
Qed.

End StripFacts.

Section KeepsFacts.

Context {C : CaseDB}.

Lemma pystr_eqb_spec a b : pystr_eqb a b = true <-> a = b.
Proof. unfold pystr_eqb. destruct (list_eq_dec N.eq_dec a b); split; congruence. Qed.

Lemma keeps_spec x : keeps x = true <-> x <> [] /\ lower x <> lit "nan".
Proof.
  unfold keeps. destruct x as [|c x]; [split; [discriminate | now intros [H _]]|].
  rewrite negb_true_iff. split.
  - intros H. split; [discriminate|]. intros E. apply pystr_eqb_spec in E. congruence.
  - intros [_ H]. destruct (pystr_eqb (lower (c :: x)) (lit "nan")) eqn:E; [|reflexivity].
    apply pystr_eqb_spec in E. now elim H.
Qed.

Lemma ascii_lower_n c : ascii_lower c = 110%N <-> (c = 110 \/ c = 78)%N.
Proof.
  unfold ascii_lower.
  destruct ((65 <=? c) && (c <=? 90))%N eqn:H.
  - apply andb_true_iff in H. destruct H as [H1 H2].
    apply N.leb_le in H1, H2. lia.
  - apply andb_false_iff in H.
    destruct H as [H|H]; apply N.leb_gt in H; lia.
Qed.

Lemma ascii_lower_a c : ascii_lower c = 97%N <-> (c = 97 \/ c = 65)%N.
Proof.
  unfold ascii_lower.
  destruct ((65 <=? c) && (c <=? 90))%N eqn:H.
  - apply andb_true_iff in H. destruct H as [H1 H2].
    apply N.leb_le in H1, H2. lia.
  - apply andb_false_iff in H.
    destruct H as [H|H]; apply N.leb_gt in H; lia.
Qed.

Lemma lower_ascii_nan x :
  is_ascii x = true -> (lower x = lit "nan" <-> nan_spelling x).
Proof.
  intros Ha. unfold lower. rewrite Ha.
  replace (lit "nan") with [110; 97; 110]%N by (vm_compute; reflexivity).
  unfold nan_spelling. split.
  - destruct x as [|a [|b [|c [|d x]]]]; try discriminate.
    cbn [map]. intros [= H1 H2 H3]. exists a, b, c.
    split; [reflexivity|]. split; [now apply ascii_lower_n|].
    split; [now apply ascii_lower_a | now apply ascii_lower_n].
  - intros (a & b & c & -> & H1 & H2 & H3). cbn [map].
    apply ascii_lower_n in H1, H3. apply ascii_lower_a in H2.
    now rewrite H1, H2, H3.
Qed.

End KeepsFacts.

(** X9. Among ASCII texts, the filter of the loader drops the empty text
    and the spellings of [nan] in any letter case, and nothing else. *)
Theorem keeps_all_but_blank_and_nan {C : CaseDB} (x : pystr)
    (Hascii : is_ascii x = true) :
  keeps x = false <-> x = [] \/ nan_spelling x.
Proof.
  rewrite <- not_true_iff_false, keeps_spec, (lower_ascii_nan x Hascii).
  split.
  - intros H. destruct x as [|c x]; [now left|]. right.
    destruct (list_eq_dec N.eq_dec (lower (c :: x)) (lit "nan")) as [E|E].
    + now apply (lower_ascii_nan _ Hascii).
    + elim H. split; [discriminate|]. intros Hn. apply E.
      now apply (lower_ascii_nan _ Hascii).
  - intros [->|Hn] [H1 H2]; [now elim H1 | now elim H2].
Qed.

Section Loader.

Context {P : Pandas} {C : CaseDB} {W : Type} (disk : Disk W).

Lemma find_existsb {A} (f : A -> bool) l :
  existsb f l = match find f l with Some _ => true | None => false end.
Proof. induction l as [|a l IH]; simpl; [reflexivity|]. now destruct (f a). Qed.

Lemma id_column_read df :
  df_empty df = false ->
  exists raw,
    id_column df = Some raw
    /\ (if df_has_column (lit "ID") df then df_getitem (lit "ID") df
        else df_iloc_first df) = Ok raw.
Proof.
  unfold df_empty, id_column, df_has_column, df_getitem, df_iloc_first.
  intros He. apply orb_false_iff in He. destruct He as [_ He].
  rewrite find_existsb.
  destruct (find _ (df_columns df)) as [nc|]; [now exists (snd nc)|].
  destruct (df_columns df) as [|nc l]; [discriminate He|]. now exists (snd nc).
Qed.

(** The loader, by what the disk answered. *)
Lemma load_ids_from_csv_eq path w :
  load_ids_from_csv disk path w =
  let '(e, w1) := path_exists disk path w in
  if e : bool then
    match read_csv disk path w1 with
    | (Raise err, w2) => (Raise err, w2)
    | (Ok df, w2) =>
      if df_empty df then (Raise (ValueError (lit "Файл пустой: " ++ path)), w2)
      else
        match id_column df with
        | None => (Raise (IndexError (lit "single positional indexer is out-of-bounds")), w2)
        | Some raw =>
          match filter keeps (map strip (map astype_str raw)) with
          | [] => (Raise (ValueError (lit "В файле нет валидных ID: " ++ path)), w2)
          | ids => (Ok ids, w2)
          end
        end
    end
  else (Raise (FileNotFoundError (lit "Файл не найден: " ++ path)), w1).
Proof.
  unfold load_ids_from_csv, bind, os_path_exists, raise, ret, lift_res.
  destruct (path_exists disk path w) as [[|] w1]; [|reflexivity].
  cbn [negb]. destruct (read_csv disk path w1) as [[df|err] w2]; [|reflexivity].
  destruct (df_empty df) eqn:He; [reflexivity|].
  destruct (id_column_read df He) as (raw & -> & ->).
  now destruct (filter keeps (map strip (map astype_str raw))).
Qed.

Lemma keeps_stripped raw :
  Forall (fun x => x <> [] /\ strip x = x /\ lower x <> lit "nan")
         (filter keeps (map strip (map astype_str raw))).
Proof.
  apply Forall_forall. intros x Hx. apply filter_In in Hx.
  destruct Hx as [Hin Hk]. apply keeps_spec in Hk. destruct Hk as [H1 H2].
  split; [exact H1|]. split; [|exact H2].
  apply in_map_iff in Hin. destruct Hin as (y & <- & _). apply strip_idem.
Qed.

End Loader.

(** X10. When the loader returns, the file was there and [read_csv] gave
    a frame that is not empty; the list is not empty; it is the column
    [ID], or the first column when there is none of that name, as
    stripped texts in the file's order, duplicates included, without
    those the filter drops; and every identifier in it is non-empty,
    stripped, and does not lower to [nan]. *)
Theorem load_ids_from_csv_returns {P : Pandas} {C : CaseDB} {W : Type}
    (disk : Disk W) (path : pystr) (w : W) (ids : list pystr) (w' : W)
    (Hload : load_ids_from_csv disk path w = (Ok ids, w')) :
  ids <> [] /\
  Forall (fun x => x <> [] /\ strip x = x /\ lower x <> lit "nan") ids /\
  exists w1 df raw,
    path_exists disk path w = (true, w1) /\
    read_csv disk path w1 = (Ok df, w') /\
    df_empty df = false /\
    id_column df = Some raw /\
    ids = filter keeps (map strip (map astype_str raw)).
Proof.
  rewrite load_ids_from_csv_eq in Hload.
  destruct (path_exists disk path w) as [[|] w1]; [|discriminate].
  destruct (read_csv disk path w1) as [[df|err] w2] eqn:Hr; [|discriminate].
  destruct (df_empty df) eqn:He; [discriminate|].
  destruct (id_column df) as [raw|] eqn:Hid; [|discriminate].
  pose proof (keeps_stripped raw) as Hall.
  destruct (filter keeps (map strip (map astype_str raw))) as [|x l] eqn:Hf;
    [discriminate|].
  injection Hload as <- <-. split; [discriminate|]. split; [exact Hall|].
  exists w1, df, raw. rewrite Hf. now repeat split.
Qed.

(** X11. The loader fails in four ways: the file is not there, and then
    the reader is not called; the reader raised; the frame is empty;
    every cell of the column read is dropped by the filter. *)
Theorem load_ids_from_csv_raises {P : Pandas} {C : CaseDB} {W : Type}
    (disk : Disk W) (path : pystr) (w : W) (e : fault) (w' : W)
    (Hload : load_ids_from_csv disk path w = (Raise e, w')) :
  (path_exists disk path w = (false, w')
   /\ e = FileNotFoundError (lit "Файл не найден: " ++ path)) \/
  (exists w1,
     path_exists disk path w = (true, w1) /\
     (read_csv disk path w1 = (Raise e, w') \/
      exists df,
        read_csv disk path w1 = (Ok df, w') /\
        ((df_empty df = true
          /\ e = ValueError (lit "Файл пустой: " ++ path)) \/
         (df_empty df = false
          /\ e = ValueError (lit "В файле нет валидных ID: " ++ path)
          /\ exists raw,
               id_column df = Some raw
               /\ Forall (fun c => keeps (strip (astype_str c)) = false) raw)))).
Proof.
  rewrite load_ids_from_csv_eq in Hload.
  destruct (path_exists disk path w) as [[|] w1];
    [|injection Hload as <- <-; now left].
  right. exists w1. split; [reflexivity|].
  destruct (read_csv disk path w1) as [[df|err] w2] eqn:Hr;
    [|injection Hload as <- <-; now left].
  right. exists df.
  destruct (df_empty df) eqn:He.
  - injection Hload as <- <-. split; [reflexivity|]. now left.
  - destruct (id_column_read df He) as (raw & Hraw & _). rewrite Hraw in Hload.
    destruct (filter keeps (map strip (map astype_str raw))) as [|x l] eqn:Hf;
      [|discriminate].
    injection Hload as <- <-. split; [reflexivity|]. right.
    split; [reflexivity|]. split; [reflexivity|]. exists raw.
    split; [exact Hraw|]. apply Forall_forall. intros c Hc.
    destruct (keeps (strip (astype_str c))) eqn:Hk; [|reflexivity].
    assert (Hin : In (strip (astype_str c))
                     (filter keeps (map strip (map astype_str raw)))).
    { apply filter_In. split; [|exact Hk]. rewrite map_map.
      apply in_map_iff. now exists c. }
    rewrite Hf in Hin. now elim Hin.
Qed.

(** X12. Which file is loaded, by the flags: none with both flags, a
    [ValueError] being raised before the disk is touched; the example
    file with [--example], unconditionally; the external file with
    [--prod], unconditionally, so that a missing external file is a
    [FileNotFoundError]; and with neither flag the external file when it
    exists and the example file otherwise. *)
Theorem input_file_by_flags {P : Pandas} {C : CaseDB} {W : Type}
    (disk : Disk W) (args : Args) (w : W) :
  let run := bind (resolve_input_file disk args) (load_ids_from_csv disk) in
  (args_example args = true -> args_prod args = true ->
   run w
   = (Raise (ValueError
               (lit "Нельзя одновременно использовать --example и --prod")), w)) /\
  (args_example args = true -> args_prod args = false ->
   run w = load_ids_from_csv disk EXAMPLE_IDS_FILE w) /\
  (args_example args = false -> args_prod args = true ->
   run w = load_ids_from_csv disk EXTERNAL_IDS_PATH w) /\
  (args_example args = false -> args_prod args = true ->
   forall w1, path_exists disk EXTERNAL_IDS_PATH w = (false, w1) ->
   run w
   = (Raise (FileNotFoundError (lit "Файл не найден: " ++ EXTERNAL_IDS_PATH)),
      w1)) /\
  (args_example args = false -> args_prod args = false ->
   forall b w1, path_exists disk EXTERNAL_IDS_PATH w = (b, w1) ->
   run w
   = load_ids_from_csv disk
       (if b then EXTERNAL_IDS_PATH else EXAMPLE_IDS_FILE) w1).
Proof.
  intros run. unfold run, resolve_input_file.
  repeat split.
  - now intros -> ->.
  - now intros -> ->.
  - now intros -> ->.
  - intros -> -> w1 H. cbn [andb]. unfold bind, ret.
    rewrite load_ids_from_csv_eq. now rewrite H.
  - intros -> -> b w1 H. cbn [andb]. unfold bind, ret, os_path_exists.
    now rewrite H.
Qed.

Lemma ids_from_skipn (args : Args) (ids : list pystr) :
  ids_from args ids = skipn (Z.to_nat (args_start_from args - 1)) ids.
Proof.
  unfold ids_from, slice_from, start_from.
  destruct (Z.ltb_spec (Z.max (args_start_from args) 1 - 1) 0) as [Hlt|Hge];
    [lia|].
  f_equal. lia.
Qed.

Lemma load_ids_stripped {P : Pandas} {C : CaseDB} {D : Type}
    (disk : Disk D) path d ids d' :
  load_ids_from_csv disk path d = (Ok ids, d') ->
  Forall (fun x => strip x = x) ids.
Proof.
  rewrite load_ids_from_csv_eq.
  destruct (path_exists disk path d) as [[|] w1]; [|discriminate].
  destruct (read_csv disk path w1) as [[df|err] w2]; [|discriminate].
  destruct (df_empty df); [discriminate|].
  destruct (id_column df) as [raw|]; [|discriminate].
  pose proof (keeps_stripped raw) as Hall.
  destruct (filter keeps (map strip (map astype_str raw))) as [|x l];
    [discriminate|].
  intros [= <- _]. apply (Forall_impl _ (P := fun x => x <> [] /\ strip x = x
                                                  /\ lower x <> lit "nan"));
    [|exact Hall].
  now intros y (_ & H & _).
Qed.

(** X13. The identifiers checked are those from the [start_from]-th on:
    all of them when [start_from] is 1 or less, none when it exceeds
    their number, and always an end piece of the list, the index of the
    slice never being negative. *)
Theorem ids_from_start (args : Args) (ids : list pystr) :
  ids_from args ids = skipn (Z.to_nat (args_start_from args - 1)) ids /\
  ((args_start_from args <= 1)%Z -> ids_from args ids = ids) /\
  ((Z.of_nat (length ids) < args_start_from args)%Z -> ids_from args ids = []) /\
  length (ids_from args ids)
  = (length ids - Z.to_nat (args_start_from args - 1))%nat /\
  (forall k,
     nth_error (ids_from args ids) k
     = nth_error ids (Z.to_nat (args_start_from args - 1) + k)) /\
  exists skipped, ids = skipped ++ ids_from args ids.
Proof.
  rewrite ids_from_skipn. split; [reflexivity|].
  split; [|split; [|split; [|split]]].
  - intros Hle. replace (Z.to_nat (args_start_from args - 1)) with O by lia.
    reflexivity.
  - intros Hlt. apply skipn_all2. lia.
  - apply length_skipn.
  - intros k. apply nth_error_skipn.
  - exists (firstn (Z.to_nat (args_start_from args - 1)) ids).
    now rewrite firstn_skipn.
Qed.

(** X14. On identifiers the loader returned, the loop records them as
    they were loaded, stripping being the identity on them: one row for
    each identifier from the [start_from]-th on, in order. *)
Theorem loaded_ids_fill_the_report {P : Pandas} {C : CaseDB} {D : Type}
    (disk : Disk D) (path : pystr) (d : D) (ids : list pystr) (d' : D)
    (Hload : load_ids_from_csv disk path d = (Ok ids, d'))
    {U : UnicodeDB} {W : Type} (page : Handler W) (cfg : Config)
    (args : Args) (st : St W) :
  exists rows st',
    main_loop page cfg (ids_from args ids) [] st = (Ok rows, st') /\
    map r_id rows = ids_from args ids /\
    length rows = (length ids - Z.to_nat (args_start_from args - 1))%nat /\
    ((args_start_from args <= 1)%Z -> map r_id rows = ids) /\
    ((Z.of_nat (length ids) < args_start_from args)%Z ->
     rows = [] /\ st' = st).
Proof.
  pose proof (load_ids_stripped disk path d ids d' Hload) as Hall.
  pose proof (ids_from_skipn args ids) as Hskip.
  destruct (main_loop_acc page cfg (ids_from args ids) [] st)
    as (rows & st' & Hloop & _ & Hmap).
  assert (Hstrip : map strip (ids_from args ids) = ids_from args ids).
  { rewrite <- (map_id (ids_from args ids)) at 2. apply map_ext_in.
    intros x Hx. rewrite Forall_forall in Hall. apply Hall.
    rewrite Hskip in Hx. rewrite <- (firstn_skipn (Z.to_nat (args_start_from args - 1)) ids).
    apply in_or_app. now right. }
  exists rows, st'. split; [exact Hloop|]. rewrite Hmap, Hstrip.
  split; [reflexivity|]. split; [|split].
  - rewrite <- (length_map r_id), Hmap, Hstrip, Hskip. apply length_skipn.
  - intros Hle. rewrite Hskip.
    replace (Z.to_nat (args_start_from args - 1)) with O by lia. reflexivity.
  - intros Hlt. rewrite Hskip, skipn_all2 in Hloop by lia.
    now injection Hloop as <- <-.
Qed.

(** * The report's colours *)

Section SheetFacts.

Lemma existsb_seq c start len :
  existsb (Nat.eqb c) (List.seq start len)
  = ((start <=? c) && (c <? start + len))%nat.
Proof.
  revert start. induction len as [|len IH]; intros start; simpl.
  - destruct (Nat.leb_spec start c), (Nat.ltb_spec c (start + 0)); simpl; lia.
  - rewrite IH.
    destruct (Nat.eqb_spec c start), (Nat.leb_spec start c),
      (Nat.leb_spec (S start) c), (Nat.ltb_spec c (S start + len)),
      (Nat.ltb_spec c (start + S len)); simpl; lia.
Qed.

Lemma existsb_columns c n :
  existsb (Nat.eqb c) (List.seq 1 n) = in_columns n c.
Proof.
  rewrite existsb_seq. unfold in_columns.
  destruct (Nat.leb_spec 1 c), (Nat.ltb_spec c (1 + n)), (Nat.leb_spec c n);
    simpl; lia.
Qed.

(** One row, painted cell by cell. *)
Lemma paint_row_spec (f : Cell -> Cell) row cols :
  (forall x, f (f x) = f x) ->
  forall ws,
    let ws' :=
      fold_left (fun ws c => set_cell ws row c (f (cell_at ws row c))) cols ws in
    max_row ws' = max_row ws /\ max_column ws' = max_column ws
    /\ column_width ws' = column_width ws
    /\ forall r c,
         cell_at ws' r c
         = if ((r =? row)%nat && existsb (Nat.eqb c) cols)%bool
           then f (cell_at ws r c) else cell_at ws r c.
Proof.
  intros Hf. induction cols as [|c0 cols IH]; intros ws; cbv zeta.
  - simpl. repeat split. intros r c. now rewrite andb_false_r.
  - cbn [fold_left].
    destruct (IH (set_cell ws row c0 (f (cell_at ws row c0))))
      as (H1 & H2 & H3 & H4).
    split; [exact H1|]. split; [exact H2|]. split; [exact H3|].
    intros r c. rewrite H4. cbn [set_cell cell_at existsb].
    destruct (Nat.eqb_spec r row) as [->|Hr]; cbn [andb]; [|reflexivity].
    destruct (Nat.eqb_spec c c0) as [->|Hc]; cbn [orb].
    + destruct (existsb (Nat.eqb c0) cols); [apply Hf | reflexivity].
    + reflexivity.
Qed.

Lemma set_bold_idem x : set_bold (set_bold x) = set_bold x.
Proof. reflexivity. Qed.

Lemma set_fill_idem fill x : set_fill fill (set_fill fill x) = set_fill fill x.
Proof. reflexivity. Qed.

(** The rows, one after the other. *)
Lemma paint_rows_spec k rows :
  forall ws,
    let ws' :=
      fold_left
        (fun ws r =>
           let status := c_value (cell_at ws r k) in
           let fill := fill_of status in
           fold_left (fun ws c => set_cell ws r c (set_fill fill (cell_at ws r c)))
                     (List.seq 1 (max_column ws)) ws)
        rows ws in
    max_row ws' = max_row ws /\ max_column ws' = max_column ws
    /\ column_width ws' = column_width ws
    /\ forall r c,
         c_value (cell_at ws' r c) = c_value (cell_at ws r c)
         /\ c_bold (cell_at ws' r c) = c_bold (cell_at ws r c)
         /\ c_fill (cell_at ws' r c)
            = if (existsb (Nat.eqb r) rows && in_columns (max_column ws) c)%bool
              then Some (fill_of (c_value (cell_at ws r k)))
              else c_fill (cell_at ws r c).
Proof.
  induction rows as [|r0 rows IH]; intros ws; cbv zeta.
  - simpl. repeat split.
  - cbn [fold_left].
    destruct (paint_row_spec (set_fill (fill_of (c_value (cell_at ws r0 k)))) r0
                (List.seq 1 (max_column ws)) (set_fill_idem _) ws)
      as (P1 & P2 & P3 & P4).
    cbv zeta in P1, P2, P3, P4.
    set (ws1 := fold_left _ (List.seq 1 (max_column ws)) ws) in *.
    assert (V1 : forall r c, c_value (cell_at ws1 r c) = c_value (cell_at ws r c)).
    { intros r c. rewrite P4. now destruct (_ && _)%bool. }
    assert (B1 : forall r c, c_bold (cell_at ws1 r c) = c_bold (cell_at ws r c)).
    { intros r c. rewrite P4. now destruct (_ && _)%bool. }
    assert (F1 : forall r c,
               c_fill (cell_at ws1 r c)
               = if ((r =? r0)%nat && in_columns (max_column ws) c)%bool
                 then Some (fill_of (c_value (cell_at ws r0 k)))
                 else c_fill (cell_at ws r c)).
    { intros r c. rewrite P4, existsb_columns. now destruct (_ && _)%bool. }
    destruct (IH ws1) as (H1 & H2 & H3 & H4). cbv zeta in H1, H2, H3, H4.
    split; [now rewrite H1|]. split; [now rewrite H2|].
    split; [now rewrite H3|].
    intros r c. destruct (H4 r c) as (V & B & F).
    rewrite V, B, F, P2, !V1, B1, F1. cbn [existsb].
    split; [reflexivity|]. split; [reflexivity|].
    destruct (Nat.eqb_spec r r0) as [->|Hr]; cbn [andb orb].
    + now destruct (existsb (Nat.eqb r0) rows), (in_columns (max_column ws) c).
    + reflexivity.
Qed.

End SheetFacts.

Section Letters.

Lemma column_letters_decode fuel : forall n acc,
  (n <= fuel)%nat ->
  fold_left (fun a ch => (a * 26 + (N.to_nat ch - 64))%nat)
            (column_letters fuel n acc) O
  = fold_left (fun a ch => (a * 26 + (N.to_nat ch - 64))%nat) acc n.
Proof.
  induction fuel as [|fuel IH]; intros n acc Hn.
  - replace n with O by lia. reflexivity.
  - cbn [column_letters]. destruct (Nat.eqb_spec n 0) as [->|Hn0]; [reflexivity|].
    cbv zeta.
    pose proof (Nat.div_mod_eq n 26) as Hdm.
    pose proof (Nat.mod_upper_bound n 26) as Hlt.
    destruct (Nat.eqb_spec (n mod 26) 0) as [Hr|Hr].
    + rewrite IH by lia. cbn [fold_left]. f_equal.
      rewrite Nat2N.id. lia.
    + rewrite IH by lia. cbn [fold_left]. f_equal.
      rewrite Nat2N.id. lia.
Qed.

Lemma get_column_letter_index c l :
  get_column_letter c = Ok l -> column_index l = c.
Proof.
  unfold get_column_letter, column_index.
  destruct ((1 <=? c)%nat && (Z.of_nat c <=? 18278)%Z); [|discriminate].
  intros [= <-]. now rewrite column_letters_decode.
Qed.

Lemma get_column_letter_valid c :
  (1 <= c)%nat -> (Z.of_nat c <= 18278)%Z -> exists l, get_column_letter c = Ok l.
Proof.
  intros H1 H2. unfold get_column_letter.
  destruct (Nat.leb_spec 1 c); [|lia].
  destruct (Z.leb_spec (Z.of_nat c) 18278); [|lia]. now eexists.
Qed.

End Letters.

Section Widths.

Lemma column_max_len_ext ws ws' c :
  max_row ws' = max_row ws ->
  (forall r c, c_value (cell_at ws' r c) = c_value (cell_at ws r c)) ->
  column_max_len ws' c = column_max_len ws c.
Proof.
  intros Hm Hv. unfold column_max_len. rewrite Hm.
  generalize (List.seq 1 (max_row ws)). intros l. generalize O.
  induction l as [|r l IH]; intros a; [reflexivity|].
  cbn [fold_left]. rewrite Hv. apply IH.
Qed.

(** The widths, column by column. *)
Lemma set_widths_spec cols : forall ws ws',
  set_widths cols ws = Ok ws' ->
  NoDup cols ->
  max_row ws' = max_row ws /\ max_column ws' = max_column ws
  /\ (forall r c, cell_at ws' r c = cell_at ws r c)
  /\ (forall c, In c cols ->
        exists l, get_column_letter c = Ok l
                  /\ column_width ws' l
                     = Some (Nat.min (column_max_len ws c + 2) 70))
  /\ (forall l, ~ In (column_index l) cols ->
        column_width ws' l = column_width ws l).
Proof.
  induction cols as [|c0 cols IH]; intros ws ws' Hset Hnd.
  - injection Hset as <-. repeat split. intros c [].
  - cbn [set_widths] in Hset. cbv zeta in Hset.
    destruct (get_column_letter c0) as [l0|e] eqn:Hl0; [|discriminate].
    inversion Hnd as [|? ? Hnotin Hnd']; subst.
    set (ws1 := set_width ws l0 (Nat.min (column_max_len ws c0 + 2) 70)) in *.
    destruct (IH ws1 ws' Hset Hnd') as (H1 & H2 & H3 & H4 & H5).
    pose proof (get_column_letter_index _ _ Hl0) as Hidx.
    split; [exact H1|]. split; [exact H2|]. split; [exact H3|]. split.
    + intros c [<-|Hc].
      * exists l0. split; [exact Hl0|].
        rewrite H5 by now rewrite Hidx.
        unfold ws1. cbn [set_width column_width].
        unfold pystr_eqb. now destruct (list_eq_dec N.eq_dec l0 l0).
      * destruct (H4 c Hc) as (l & Hl & Hw). exists l. split; [exact Hl|].
        rewrite Hw. now rewrite (column_max_len_ext ws ws1 c).
    + intros l Hl. rewrite H5 by (intros Hin; apply Hl; now right).
      unfold ws1. cbn [set_width column_width].
      unfold pystr_eqb. destruct (list_eq_dec N.eq_dec l l0) as [->|]; [|reflexivity].
      elim Hl. left. now rewrite Hidx.
Qed.

Lemma set_widths_ok cols : forall ws,
  Forall (fun c => (1 <= c)%nat /\ (Z.of_nat c <= 18278)%Z) cols ->
  exists ws', set_widths cols ws = Ok ws'.
Proof.
  induction cols as [|c0 cols IH]; intros ws Hall; [now eexists|].
  inversion Hall as [|? ? [H1 H2] Hall']; subst. cbn [set_widths]. cbv zeta.
  destruct (get_column_letter_valid c0 H1 H2) as (l & ->). apply IH, Hall'.
Qed.

End Widths.

Section ReportFacts.

Context {W : Type} (book : Book W).

Lemma existsb_rows r n :
  existsb (Nat.eqb r) (List.seq 2 (n - 1)) = in_rows n r.
Proof.
  rewrite existsb_seq. unfold in_rows.
  destruct (Nat.leb_spec 2 r), (Nat.ltb_spec r (2 + (n - 1))), (Nat.leb_spec r n);
    simpl; lia.
Qed.

Lemma index_of_none s l :
  index_of s l = None -> Forall (fun v => value_is v s = false) l.
Proof.
  induction l as [|v l IH]; simpl; [constructor|].
  destruct (value_is v s) eqn:Hv; [discriminate|].
  destruct (index_of s l); [discriminate|]. intros _. constructor; auto.
Qed.

Lemma index_of_some s l : forall i,
  index_of s l = Some i ->
  (i < length l)%nat /\ value_is (nth i l None) s = true
  /\ forall j, (j < i)%nat -> value_is (nth j l None) s = false.
Proof.
  induction l as [|v l IH]; simpl; [discriminate|]. intros i.
  destruct (value_is v s) eqn:Hv.
  - intros [= <-]. split; [lia|]. split; [exact Hv|]. intros j Hj. lia.
  - destruct (index_of s l) as [i'|]; [|discriminate]. intros [= <-].
    destruct (IH i' eq_refl) as (H1 & H2 & H3).
    split; [lia|]. split; [exact H2|].
    intros [|j] Hj; [exact Hv|]. apply H3. lia.
Qed.

Lemma headers_nth ws i :
  (i < max_column ws)%nat ->
  nth i (headers ws) None = c_value (cell_at ws 1 (i + 1)).
Proof.
  intros Hi. unfold headers.
  rewrite (nth_indep _ None (c_value (cell_at ws 1 O)))
    by (now rewrite length_map, length_seq).
  rewrite (map_nth (fun c => c_value (cell_at ws 1 c))), seq_nth by exact Hi.
  now replace (1 + i)%nat with (i + 1)%nat by lia.
Qed.

(** The first loop: the header in bold. *)
Lemma bold_header_spec ws :
  let wsb :=
    fold_left (fun ws c => set_cell ws 1 c (set_bold (cell_at ws 1 c)))
              (List.seq 1 (max_column ws)) ws in
  max_row wsb = max_row ws /\ max_column wsb = max_column ws
  /\ column_width wsb = column_width ws
  /\ (forall r c,
        c_value (cell_at wsb r c) = c_value (cell_at ws r c)
        /\ c_fill (cell_at wsb r c) = c_fill (cell_at ws r c)
        /\ c_bold (cell_at wsb r c)
           = if ((r =? 1)%nat && in_columns (max_column ws) c)%bool
             then true else c_bold (cell_at ws r c))
  /\ headers wsb = headers ws.
Proof.
  destruct (paint_row_spec set_bold 1 (List.seq 1 (max_column ws)) set_bold_idem ws)
    as (P1 & P2 & P3 & P4).
  cbv zeta in *. set (wsb := fold_left _ _ ws) in *.
  assert (Hc : forall r c,
             c_value (cell_at wsb r c) = c_value (cell_at ws r c)
             /\ c_fill (cell_at wsb r c) = c_fill (cell_at ws r c)
             /\ c_bold (cell_at wsb r c)
                = if ((r =? 1)%nat && in_columns (max_column ws) c)%bool
                  then true else c_bold (cell_at ws r c)).
  { intros r c. rewrite P4, existsb_columns. now destruct (_ && _)%bool. }
  split; [exact P1|]. split; [exact P2|]. split; [exact P3|]. split; [exact Hc|].
  unfold headers. rewrite P2. apply map_ext. intros c. apply Hc.
Qed.

(** The function, by what the workbook holds. *)
Lemma colorize_excel_eq path w :
  colorize_excel book path w =
  match load_workbook book path w with
  | (Raise e, w1) => (Raise e, w1)
  | (Ok ws, w1) =>
    let wsb :=
      fold_left (fun ws c => set_cell ws 1 c (set_bold (cell_at ws 1 c)))
                (List.seq 1 (max_column ws)) ws in
    match index_of (lit "Статус") (headers wsb) with
    | None => wb_save book path wsb w1
    | Some i =>
      let wsf :=
        fold_left
          (fun ws r =>
             let status := c_value (cell_at ws r (i + 1)) in
             let fill := fill_of status in
             fold_left
               (fun ws c => set_cell ws r c (set_fill fill (cell_at ws r c)))
               (List.seq 1 (max_column ws)) ws)
          (List.seq 2 (max_row wsb - 1)) wsb in
      match set_widths (List.seq 1 (max_column wsf)) wsf with
      | Ok ws' => wb_save book path ws' w1
      | Raise e => (Raise e, w1)
      end
    end
  end.
Proof.
  unfold colorize_excel, bind, lift_res, headers.
  destruct (load_workbook book path w) as [[ws|e] w1]; [|reflexivity].
  cbv zeta. destruct (index_of _ _); [|reflexivity].
  now destruct (set_widths _ _).
Qed.

Lemma colorize_excel_painted path w ws w1 i :
  load_workbook book path w = (Ok ws, w1) ->
  index_of (lit "Статус") (headers ws) = Some i ->
  (Z.of_nat (max_column ws) <= 18278)%Z ->
  exists ws',
    colorize_excel book path w = wb_save book path ws' w1 /\
    max_row ws' = max_row ws /\ max_column ws' = max_column ws /\
    (forall r c,
       c_value (cell_at ws' r c) = c_value (cell_at ws r c)
       /\ c_bold (cell_at ws' r c)
          = (if ((r =? 1)%nat && in_columns (max_column ws) c)%bool
             then true else c_bold (cell_at ws r c))
       /\ c_fill (cell_at ws' r c)
          = (if (in_rows (max_row ws) r && in_columns (max_column ws) c)%bool
             then Some (fill_of (c_value (cell_at ws r (i + 1))))
             else c_fill (cell_at ws r c))) /\
    (forall c, in_columns (max_column ws) c = true ->
       exists l,
         get_column_letter c = Ok l
         /\ column_width ws' l = Some (Nat.min (column_max_len ws c + 2) 70)) /\
    (forall l, in_columns (max_column ws) (column_index l) = false ->
       column_width ws' l = column_width ws l).
Proof.
  intros Hload Hidx Hwide. rewrite colorize_excel_eq, Hload.
  destruct (bold_header_spec ws) as (B1 & B2 & B3 & B4 & B5).
  cbv zeta in *. set (wsb := fold_left _ (List.seq 1 (max_column ws)) ws) in *.
  rewrite B5, Hidx.
  destruct (paint_rows_spec (i + 1) (List.seq 2 (max_row wsb - 1)) wsb)
    as (F1 & F2 & F3 & F4).
  cbv zeta in *. set (wsf := fold_left _ (List.seq 2 (max_row wsb - 1)) wsb) in *.
  assert (Hcols : Forall (fun c => (1 <= c)%nat /\ (Z.of_nat c <= 18278)%Z)
                         (List.seq 1 (max_column wsf))).
  { apply Forall_forall. intros c Hc. apply in_seq in Hc.
    rewrite F2, B2 in Hc. lia. }
  destruct (set_widths_ok _ wsf Hcols) as (ws' & Hset). rewrite Hset.
  destruct (set_widths_spec _ _ _ Hset (seq_NoDup _ _))
    as (S1 & S2 & S3 & S4 & S5).
  exists ws'. split; [reflexivity|].
  split; [now rewrite S1, F1, B1|]. split; [now rewrite S2, F2, B2|].
  split; [|split].
  - intros r c. rewrite S3. destruct (F4 r c) as (V & Bo & Fi).
    destruct (B4 r c) as (V' & Fi' & Bo').
    rewrite V, Bo, Fi, V', Bo', Fi', B1, B2, existsb_rows.
    destruct (B4 r (i + 1)) as (-> & _ & _). now repeat split.
  - intros c Hc. destruct (S4 c) as (l & Hl & Hw).
    { apply in_seq. rewrite F2, B2. unfold in_columns in Hc.
      apply andb_true_iff in Hc. destruct Hc as [H1 H2].
      apply Nat.leb_le in H1, H2. lia. }
    exists l. split; [exact Hl|]. rewrite Hw. f_equal. f_equal. f_equal.
    apply column_max_len_ext; [now rewrite F1, B1|].
    intros r c'. destruct (F4 r c') as (-> & _). apply B4.
  - intros l Hl. rewrite S5, F3, B3; [reflexivity|].
    intros Hin. apply in_seq in Hin. rewrite F2, B2 in Hin.
    unfold in_columns in Hl. apply andb_false_iff in Hl.
    destruct Hl as [H|H]; apply Nat.leb_gt in H; lia.
Qed.

End ReportFacts.

Section ReportFacts2.

Context {W : Type} (book : Book W).

Lemma colorize_excel_unpainted path w ws w1 :
  load_workbook book path w = (Ok ws, w1) ->
  index_of (lit "Статус") (headers ws) = None ->
  exists ws',
    colorize_excel book path w = wb_save book path ws' w1 /\
    max_row ws' = max_row ws /\ max_column ws' = max_column ws /\
    column_width ws' = column_width ws /\
    (forall r c,
       c_value (cell_at ws' r c) = c_value (cell_at ws r c)
       /\ c_fill (cell_at ws' r c) = c_fill (cell_at ws r c)
       /\ c_bold (cell_at ws' r c)
          = if ((r =? 1)%nat && in_columns (max_column ws) c)%bool
            then true else c_bold (cell_at ws r c)).
Proof.
  intros Hload Hidx. rewrite colorize_excel_eq, Hload.
  destruct (bold_header_spec ws) as (B1 & B2 & B3 & B4 & B5).
  cbv zeta in *. set (wsb := fold_left _ (List.seq 1 (max_column ws)) ws) in *.
  rewrite B5, Hidx. now exists wsb.
Qed.

Lemma pystr_eqb_refl s : pystr_eqb s s = true.
Proof. unfold pystr_eqb. now destruct (list_eq_dec N.eq_dec s s). Qed.

Lemma value_is_spec v s : value_is v s = true <-> v = Some (VStr s).
Proof.
  destruct v as [[t|z|t]|]; simpl; try (split; discriminate).
  rewrite pystr_eqb_spec. split; [now intros -> | now intros [= ->]].
Qed.

Lemma fills_distinct :
  fill_ok <> fill_fail /\ fill_ok <> fill_nf /\ fill_ok <> fill_err
  /\ fill_fail <> fill_nf /\ fill_fail <> fill_err /\ fill_nf <> fill_err.
Proof. vm_compute. repeat split; discriminate. Qed.

Lemma fill_of_cases v :
  (fill_of v = fill_ok <-> v = Some (VStr (lit "OK")))
  /\ (fill_of v = fill_fail <-> v = Some (VStr (lit "FAIL")))
  /\ (fill_of v = fill_nf <-> v = Some (VStr (lit "NOT FOUND")))
  /\ (fill_of v = fill_err <->
      v <> Some (VStr (lit "OK")) /\ v <> Some (VStr (lit "FAIL"))
      /\ v <> Some (VStr (lit "NOT FOUND"))).
Proof.
  destruct fills_distinct as (F1 & F2 & F3 & F4 & F5 & F6).
  destruct (@status_strings_distinct) as (D1 & D2 & D3 & D4 & D5 & D6).
  unfold fill_of.
  destruct (value_is v (lit "OK")) eqn:H1;
    [apply value_is_spec in H1; subst v|].
  2: destruct (value_is v (lit "FAIL")) eqn:H2;
    [apply value_is_spec in H2; subst v|].
  3: destruct (value_is v (lit "NOT FOUND")) eqn:H3;
    [apply value_is_spec in H3; subst v|].
  4: assert (N1 : v <> Some (VStr (lit "OK")))
      by (intros E; apply value_is_spec in E; congruence).
  4: assert (N2 : v <> Some (VStr (lit "FAIL")))
      by (intros E; apply value_is_spec in E; congruence).
  4: assert (N3 : v <> Some (VStr (lit "NOT FOUND")))
      by (intros E; apply value_is_spec in E; congruence).
  all: repeat split; intros;
    repeat match goal with H : _ /\ _ |- _ => destruct H end;
    congruence.
Qed.

End ReportFacts2.

(** X15. When the header has a cell [Статус], the first such column is
    the status column, and the sheet is saved with every cell of the data
    rows, in the columns of the sheet, filled by the status of its row:
    green for OK, red for FAIL, yellow for NOT FOUND, grey for anything
    else; the header row and the cells outside the sheet keep their
    fill. *)
Theorem colorize_excel_fills_rows {W : Type} (book : Book W) (path : pystr)
    (w : W) (ws : Worksheet) (w1 : W) (i : nat)
    (Hload : load_workbook book path w = (Ok ws, w1))
    (Hstatus : index_of (lit "Статус") (headers ws) = Some i)
    (Hwide : (Z.of_nat (max_column ws) <= 18278)%Z) :
  exists ws',
    colorize_excel book path w = wb_save book path ws' w1 /\
    (i < max_column ws)%nat /\
    c_value (cell_at ws 1 (i + 1)) = Some (VStr (lit "Статус")) /\
    (forall c, (1 <= c <= i)%nat ->
       c_value (cell_at ws 1 c) <> Some (VStr (lit "Статус"))) /\
    (forall r c,
       (2 <= r <= max_row ws)%nat -> (1 <= c <= max_column ws)%nat ->
       c_fill (cell_at ws' r c)
       = Some (fill_of (c_value (cell_at ws r (i + 1))))) /\
    (forall r c,
       (r < 2 \/ max_row ws < r \/ c < 1 \/ max_column ws < c)%nat ->
       c_fill (cell_at ws' r c) = c_fill (cell_at ws r c)) /\
    (forall v,
       (fill_of v = fill_ok <-> v = Some (VStr (lit "OK")))
       /\ (fill_of v = fill_fail <-> v = Some (VStr (lit "FAIL")))
       /\ (fill_of v = fill_nf <-> v = Some (VStr (lit "NOT FOUND")))
       /\ (fill_of v = fill_err <->
           v <> Some (VStr (lit "OK")) /\ v <> Some (VStr (lit "FAIL"))
           /\ v <> Some (VStr (lit "NOT FOUND")))).
Proof.
  destruct (colorize_excel_painted book path w ws w1 i Hload Hstatus Hwide)
    as (ws' & Hrun & _ & _ & Hcells & _).
  destruct (index_of_some _ _ _ Hstatus) as (Hlt & Hat & Hbefore).
  unfold headers in Hlt. rewrite length_map, length_seq in Hlt.
  exists ws'. split; [exact Hrun|]. split; [exact Hlt|].
  split; [|split; [|split; [|split]]].
  - rewrite <- (headers_nth ws i Hlt). now apply value_is_spec.
  - intros c Hc Heq. specialize (Hbefore (c - 1)%nat ltac:(lia)).
    rewrite (headers_nth ws (c - 1)) in Hbefore by lia.
    replace (c - 1 + 1)%nat with c in Hbefore by lia.
    apply value_is_spec in Heq. congruence.
  - intros r c Hr Hc. destruct (Hcells r c) as (_ & _ & ->).
    unfold in_rows, in_columns.
    destruct (Nat.leb_spec 2 r), (Nat.leb_spec r (max_row ws)),
      (Nat.leb_spec 1 c), (Nat.leb_spec c (max_column ws)); try lia.
    reflexivity.
  - intros r c Hout. destruct (Hcells r c) as (_ & _ & ->).
    unfold in_rows, in_columns.
    destruct (Nat.leb_spec 2 r), (Nat.leb_spec r (max_row ws)),
      (Nat.leb_spec 1 c), (Nat.leb_spec c (max_column ws)); try lia;
      reflexivity.
  - exact fill_of_cases.
Qed.

(** X16. Colouring changes no value and no dimension of the sheet it
    saves; it makes the cells of the header bold, and changes the font of
    no other cell. *)
Theorem colorize_excel_keeps_values {W : Type} (book : Book W) (path : pystr)
    (w : W) (ws : Worksheet) (w1 : W)
    (Hload : load_workbook book path w = (Ok ws, w1))
    (Hwide : (Z.of_nat (max_column ws) <= 18278)%Z) :
  exists ws',
    colorize_excel book path w = wb_save book path ws' w1 /\
    max_row ws' = max_row ws /\ max_column ws' = max_column ws /\
    (forall r c, c_value (cell_at ws' r c) = c_value (cell_at ws r c)) /\
    (forall c, (1 <= c <= max_column ws)%nat -> c_bold (cell_at ws' 1 c) = true) /\
    (forall r c,
       (r <> 1 \/ c < 1 \/ max_column ws < c)%nat ->
       c_bold (cell_at ws' r c) = c_bold (cell_at ws r c)).
Proof.
  assert (H : exists ws',
             colorize_excel book path w = wb_save book path ws' w1 /\
             max_row ws' = max_row ws /\ max_column ws' = max_column ws /\
             forall r c,
               c_value (cell_at ws' r c) = c_value (cell_at ws r c)
               /\ c_bold (cell_at ws' r c)
                  = if ((r =? 1)%nat && in_columns (max_column ws) c)%bool
                    then true else c_bold (cell_at ws r c)).
  { destruct (index_of (lit "Статус") (headers ws)) as [i|] eqn:Hidx.
    - destruct (colorize_excel_painted book path w ws w1 i Hload Hidx Hwide)
        as (ws' & Hrun & H1 & H2 & Hcells & _).
      exists ws'. repeat split; try assumption; apply Hcells.
    - destruct (colorize_excel_unpainted book path w ws w1 Hload Hidx)
        as (ws' & Hrun & H1 & H2 & _ & Hcells).
      exists ws'. repeat split; try assumption; apply Hcells. }
  destruct H as (ws' & Hrun & H1 & H2 & Hcells).
  exists ws'. split; [exact Hrun|]. split; [exact H1|]. split; [exact H2|].
  split; [intros r c; apply Hcells|]. split.
  - intros c Hc. destruct (Hcells 1%nat c) as (_ & ->).
    unfold in_columns.
    destruct (Nat.leb_spec 1 c), (Nat.leb_spec c (max_column ws)); try lia.
    reflexivity.
  - intros r c Hout. destruct (Hcells r c) as (_ & ->).
    unfold in_columns.
    destruct (Nat.eqb_spec r 1), (Nat.leb_spec 1 c),
      (Nat.leb_spec c (max_column ws)); try lia; reflexivity.
Qed.

(** X17. With a status column, every column of the sheet gets the width
    of its longest text and two more, 70 at most, under its letter;
    letters name their columns one to one, and no other width is
    changed. *)
Theorem colorize_excel_sets_widths {W : Type} (book : Book W) (path : pystr)
    (w : W) (ws : Worksheet) (w1 : W) (i : nat)
    (Hload : load_workbook book path w = (Ok ws, w1))
    (Hstatus : index_of (lit "Статус") (headers ws) = Some i)
    (Hwide : (Z.of_nat (max_column ws) <= 18278)%Z) :
  exists ws',
    colorize_excel book path w = wb_save book path ws' w1 /\
    (forall c, (1 <= c <= max_column ws)%nat ->
       exists l width,
         get_column_letter c = Ok l /\ column_index l = c /\
         column_width ws' l = Some width /\
         width = Nat.min (column_max_len ws c + 2) 70 /\
         (2 <= width <= 70)%nat) /\
    (forall l, (column_index l < 1 \/ max_column ws < column_index l)%nat ->
       column_width ws' l = column_width ws l).
Proof.
  destruct (colorize_excel_painted book path w ws w1 i Hload Hstatus Hwide)
    as (ws' & Hrun & _ & _ & _ & Hw & Hother).
  exists ws'. split; [exact Hrun|]. split.
  - intros c Hc. destruct (Hw c) as (l & Hl & Hwl).
    { unfold in_columns.
      destruct (Nat.leb_spec 1 c), (Nat.leb_spec c (max_column ws));
        first [reflexivity | lia]. }
    exists l, (Nat.min (column_max_len ws c + 2) 70).
    split; [exact Hl|]. split; [exact (get_column_letter_index _ _ Hl)|].
    split; [exact Hwl|]. split; [reflexivity | lia].
  - intros l Hl. apply Hother. unfold in_columns.
    destruct (Nat.leb_spec 1 (column_index l)),
      (Nat.leb_spec (column_index l) (max_column ws));
      first [reflexivity | lia].
Qed.

(** X18. A sheet whose header has no cell [Статус] is saved with its
    header in bold and nothing else changed: no fill, no width, no
    value. *)
Theorem colorize_excel_without_status_column {W : Type} (book : Book W)
    (path : pystr) (w : W) (ws : Worksheet) (w1 : W)
    (Hload : load_workbook book path w = (Ok ws, w1))
    (Hnone : forall c, (1 <= c <= max_column ws)%nat ->
               c_value (cell_at ws 1 c) <> Some (VStr (lit "Статус"))) :
  exists ws',
    colorize_excel book path w = wb_save book path ws' w1 /\
    (forall r c, c_fill (cell_at ws' r c) = c_fill (cell_at ws r c)) /\
    (forall l, column_width ws' l = column_width ws l) /\
    (forall r c, c_value (cell_at ws' r c) = c_value (cell_at ws r c)) /\
    (forall c, (1 <= c <= max_column ws)%nat -> c_bold (cell_at ws' 1 c) = true).
Proof.
  assert (Hidx : index_of (lit "Статус") (headers ws) = None).
  { destruct (index_of (lit "Статус") (headers ws)) as [i|] eqn:Hidx;
      [|reflexivity].
    destruct (index_of_some _ _ _ Hidx) as (Hlt & Hat & _).
    unfold headers in Hlt. rewrite length_map, length_seq in Hlt.
    rewrite (headers_nth ws i Hlt) in Hat. apply value_is_spec in Hat.
    elim (Hnone (i + 1)%nat); [lia | exact Hat]. }
  destruct (colorize_excel_unpainted book path w ws w1 Hload Hidx)
    as (ws' & Hrun & _ & _ & Hw & Hcells).
  exists ws'. split; [exact Hrun|]. split; [intros r c; apply Hcells|].
  split; [intros l; now rewrite Hw|]. split; [intros r c; apply Hcells|].
  intros c Hc. destruct (Hcells 1%nat c) as (_ & _ & ->). unfold in_columns.
  destruct (Nat.leb_spec 1 c), (Nat.leb_spec c (max_column ws)); try lia.
  reflexivity.
Qed.

Lemma main_iter_status {U : UnicodeDB} {W : Type} (page : Handler W)
    (cfg : Config) (item_id : pystr) (st : St W) :
  exists row st',
    main_iter page cfg item_id st = (Ok row, st') /\
    (r_status row = lit "OK" \/ r_status row = lit "FAIL"
     \/ r_status row = lit "NOT FOUND" \/ r_status row = lit "ERROR").
Proof.
  rewrite main_iter_cases. cbv zeta.
  destruct (locate page cfg (strip item_id) st) as [[[|n]|e] st1];
    [ destruct (shot page cfg (lit "NOT FOUND") (strip item_id) st1) as [p st2]
    | destruct (read_row page (strip item_id) st1) as [[[d y]|e] st2];
      [ destruct (year_eqb y (OK_YEAR cfg));
        [ | destruct (shot page cfg (lit "FAIL") (strip item_id) st2) as [p st3] ]
      | destruct (error_pass_row page cfg (strip item_id) e st2) as (p & st' & ->) ]
    | destruct (error_pass_row page cfg (strip item_id) e st1) as (p & st' & ->) ];
    (eexists _, _; split; [reflexivity|]);
    cbn [row_of r_status status error_locals]; tauto.
Qed.

(** X19. The colour the chain of comparisons gives the status a pass
    records: green exactly for OK, red exactly for FAIL, yellow exactly
    for NOT FOUND and grey exactly for ERROR. *)
Theorem report_colour_by_status {U : UnicodeDB} {W : Type} (page : Handler W)
    (cfg : Config) (item_id : pystr) (st : St W) :
  exists row st',
    main_iter page cfg item_id st = (Ok row, st') /\
    let fill := fill_of (Some (VStr (r_status row))) in
    (fill = fill_ok <-> r_status row = lit "OK") /\
    (fill = fill_fail <-> r_status row = lit "FAIL") /\
    (fill = fill_nf <-> r_status row = lit "NOT FOUND") /\
    (fill = fill_err <-> r_status row = lit "ERROR").
Proof.
  destruct (main_iter_status page cfg item_id st) as (row & st' & Hiter & Hst).
  exists row, st'. split; [exact Hiter|]. cbv zeta.
  destruct (fill_of_cases (Some (VStr (r_status row)))) as (C1 & C2 & C3 & C4).
  destruct (@status_strings_distinct) as (D1 & D2 & D3 & D4 & D5 & D6).
  rewrite C1, C2, C3, C4.
  split; [split; [intros [= H]; exact H | now intros ->]|].
  split; [split; [intros [= H]; exact H | now intros ->]|].
  split; [split; [intros [= H]; exact H | now intros ->]|].
  split.
  - intros (N1 & N2 & N3).
    destruct Hst as [H|[H|[H|H]]]; [| | |exact H]; rewrite H in *; congruence.
  - intros ->. repeat split; intros [= E]; congruence.
Qed.

(** * The theorems at work on scripted pages *)

Lemma pystr_eqb_false a b : pystr_eqb a b = false -> a <> b.
Proof. unfold pystr_eqb. now destruct (list_eq_dec N.eq_dec a b). Qed.

Lemma run_pair {S A} (x : Res A * S) (r : Res A) :
  fst x = r -> x = (r, snd x).
Proof. destruct x. simpl. now intros ->. Qed.

(** C1 as the specification words it fails on that page: the lookup found
    the row and the recorded year is absent, and yet the status is ERROR,
    not FAIL. *)
Lemma status_classification_counterexample :
  fst (locate scripted default_config (lit "A1")
         (start detached_script)) = Ok 1%nat /\
  exists row,
    fst (main_iter (U := ascii_db) scripted default_config (lit "A1")
           (start detached_script)) = Ok row /\
    r_year row = None /\
    r_year row <> Some (OK_YEAR default_config) /\
    r_status row = lit "ERROR" /\
    r_status row <> lit "FAIL".
Proof.
  split; [vm_compute; reflexivity|].
  eexists. split; [vm_compute; reflexivity|].
  cbn [r_year r_status]. split; [reflexivity|]. split; [discriminate|].
  split; [vm_compute; reflexivity|].
  apply pystr_eqb_false. vm_compute. reflexivity.
Qed.

(** C5 as the specification words it fails on an identifier with an
    ampersand and a blank: they reach the URL as they are. *)
Lemma make_url_counterexample :
  spec_url_encode (lit "A&B 1") = lit "A%26B%201" /\
  make_url default_config (lit "A&B 1")
  = lit "https://globaldrive.ru/bitrix/admin/highloadblock_rows_list.php?PAGEN_1=1&SIZEN_1=20&ENTITY_ID=4&lang=ru&set_filter=Y&adm_filter_applied=0&find_id=A&B 1" /\
  make_url default_config (lit "A&B 1")
  <> query_prefix default_config ++ spec_url_encode (lit "A&B 1").
Proof.
  split; [vm_compute; reflexivity|]. split; [vm_compute; reflexivity|].
  apply pystr_eqb_false. vm_compute. reflexivity.
Qed.

(** C6 as the specification words it fails in its own boundary case: the
    comment is the Russian sentence, not [Expected 2024, got 2025], and a
    row without a date is commented with [не распознано]. *)
Lemma fail_comment_counterexample :
  (exists row,
     fst (main_iter (U := ascii_db) scripted config_2024 (lit "A1")
            (start boundary_script)) = Ok row /\
     r_status row = lit "FAIL" /\
     r_comment row = lit "Ожидали 2024, фактически: 2025" /\
     r_comment row <> lit "Expected 2024, got 2025") /\
  (exists row,
     fst (main_iter (U := ascii_db) scripted config_2024 (lit "A1")
            (start dateless_script)) = Ok row /\
     r_status row = lit "FAIL" /\
     r_comment row = lit "Ожидали 2024, фактически: не распознано").
Proof.
  split; eexists; (split; [vm_compute; reflexivity|]); cbn [r_status r_comment].
  - split; [vm_compute; reflexivity|]. split; [vm_compute; reflexivity|].
    apply pystr_eqb_false. vm_compute. reflexivity.
  - split; vm_compute; reflexivity.
Qed.

(** C3 at work: an impossible date before a valid one, a text without a
    date, two valid dates, and a leap day. *)
Lemma extract_year_first_token_witness :
  extract_year (U := ascii_db)
    (lit " 7 | 31.02.2025 10:00:00 | 01.02.2025 10:00:00 ")
  = Ok (lit "31.02.2025 10:00:00", None)
  /\ extract_year (U := ascii_db) (lit "A1	Тест	admin") = Ok (lit "", None)
  /\ extract_year (U := ascii_db) (lit "x 01.02.2025  10:00:00 y 03.04.2024 11:11:11")
     = Ok (lit "01.02.2025  10:00:00", Some 2025%Z)
  /\ extract_year (U := arabic_db) (lit "29.02.2024 23:59:59")
     = Ok (ascii_token 2 9 0 2 2 0 2 4 2 3 5 9 5 9 [32%N], Some 2024%Z).
Proof.
  split; [|split; [|split]].
  - refine (proj2 (proj1 (proj2 (extract_year_first_token (U := ascii_db) _))
                     (lit "7 | ") _ (lit " | 01.02.2025 10:00:00") _)
              (ValueError (lit "day is out of range for month")) _).
    + apply search_date_some. vm_compute. reflexivity.
    + vm_compute. reflexivity.
  - apply (proj1 (extract_year_first_token (U := ascii_db) _)).
    apply search_date_none. vm_compute. reflexivity.
  - refine (proj1 (proj1 (proj2 (extract_year_first_token (U := ascii_db) _))
                     (lit "x ") _ (lit " y 03.04.2024 11:11:11") _)
              (mk_datetime 2025 2 1 10 0 0) _).
    + apply search_date_some. vm_compute. reflexivity.
    + vm_compute. reflexivity.
  - refine (proj2 (proj2 (extract_year_first_token (U := arabic_db) _))
              [] [] 2 9 0 2 2 0 2 4 [32%N] 2 3 5 9 5 9 _ _ _ _ _)%nat.
    + repeat constructor.
    + discriminate.
    + repeat constructor.
    + repeat constructor.
    + apply search_date_some. vm_compute. reflexivity.
Defined.

(** C10 at work: blanks around an impossible date. *)
Lemma extract_year_never_raises_witness :
  extract_year (U := ascii_db)
    ([32; 9; 160]%N ++ lit "31.02.2025 10:00:00" ++ [10; 32]%N)
  = extract_year (U := ascii_db) (lit "31.02.2025 10:00:00")
  /\ extract_year (U := ascii_db) (lit "31.02.2025 10:00:00")
     = Ok (lit "31.02.2025 10:00:00", None).
Proof.
  pose proof (extract_year_never_raises (U := ascii_db)
                (lit "31.02.2025 10:00:00")) as (_ & _ & Hsp & Hexc).
  split.
  - apply Hsp; repeat constructor.
  - apply (Hexc [] _ []
             (ValueError (lit "day is out of range for month"))).
    + apply search_date_some. vm_compute. reflexivity.
    + vm_compute. reflexivity.
Defined.

Lemma run_pair2 {L S A} (x : Res A * (L * S)) (r : Res A) :
  fst x = r -> x = (r, (fst (snd x), snd (snd x))).
Proof. destruct x as [r0 [l s]]. simpl. now intros ->. Qed.

(** C6 at work on the page of the boundary case, expected year 2024. *)
Lemma fail_comment_names_years_witness :
  exists row st',
    main_iter (U := ascii_db) scripted config_2024 (lit "A1")
      (start boundary_script) = (Ok row, st') /\
    r_status row = lit "FAIL" /\
    r_comment row = lit "Ожидали 2024, фактически: 2025".
Proof.
  refine (proj2 (fail_comment_names_years (U := ascii_db) scripted config_2024
                   (lit "A1") (start boundary_script) 0
                   (snd (locate scripted config_2024 (lit "A1")
                           (start boundary_script))) _)
            (lit "A1	Тест	01.02.2025 10:00:00	admin") []
            (lit "A1	Тест	") (lit "	admin") _ _ _).
  - apply run_pair. vm_compute. reflexivity.
  - vm_compute. reflexivity.
  - apply search_date_some. vm_compute. reflexivity.
  - reflexivity.
Defined.

(** C7 at work on a page that raises a plain exception. *)
Lemma faults_become_error_rows_witness :
  exists row st',
    main_iter (U := ascii_db) scripted default_config (lit "A1")
      (start broken_script) = (Ok row, st') /\
    r_status row = lit "ERROR" /\
    r_comment row = lit "Exception: net::ERR_CONNECTION_RESET".
Proof.
  destruct (proj1 (proj2 (faults_become_error_rows (U := ascii_db) scripted
                            default_config (lit "A1") (start broken_script)))
              (Exception (lit "net::ERR_CONNECTION_RESET")) _ _
              (run_pair2 _ _ eq_refl))
    as (row & st' & Hiter & Hst & Hc & _).
  exists row, st'. split; [exact Hiter|]. split; [exact Hst|].
  rewrite Hc. vm_compute. reflexivity.
Defined.

(** C9 at work on a page without the link, with and without a
    working screenshot. *)
Lemma not_found_row_witness :
  (exists row st',
     main_iter (U := ascii_db) scripted default_config (lit "A2")
       (start empty_script) = (Ok row, st') /\
     r_status row = lit "NOT FOUND" /\ r_year row = None /\
     r_screenshot row = lit "") /\
  (exists row st',
     main_iter (U := ascii_db) scripted default_config (lit "A2")
       (start empty_script_shot) = (Ok row, st') /\
     r_status row = lit "NOT FOUND" /\ r_year row = None /\
     r_screenshot row = lit "screenshots\NOT_FOUND_A2.png").
Proof.
  split.
  - destruct (not_found_row (U := ascii_db) scripted default_config (lit "A2")
                (start empty_script)
                (snd (locate scripted default_config (lit "A2")
                        (start empty_script)))
                (run_pair _ _ eq_refl))
      as (row & st' & Hiter & Hst & Hy & _ & _ & Hfail).
    exists row, st'. repeat split; try assumption.
    apply (Hfail (PWError (lit "Target closed")) []). vm_compute. reflexivity.
  - destruct (not_found_row (U := ascii_db) scripted default_config (lit "A2")
                (start empty_script_shot)
                (snd (locate scripted default_config (lit "A2")
                        (start empty_script_shot)))
                (run_pair _ _ eq_refl))
      as (row & st' & Hiter & Hst & Hy & _ & Hshot & _).
    exists row, st'. repeat split; try assumption.
    rewrite (Hshot []); vm_compute; reflexivity.
Defined.

(** C8 at work on a page whose row is detached while it is read. *)
Lemma session_fault_recovers_once_witness :
  exists row st' before r after,
    main_iter (U := ascii_db) scripted default_config (lit "A1")
      (start detached_script) = (Ok row, st') /\
    r_status row = lit "ERROR" /\
    trace st'
    = trace (start detached_script)
      ++ before ++ Ev (Goto (admin_root default_config)) r :: after /\
    count_events (is_goto (admin_root default_config))
      (before ++ Ev (Goto (admin_root default_config)) r :: after) = 1%nat /\
    match r with
    | Ok _ =>
      exists r1 rest, after = Ev (Count (lit "a[href*='logout=Y']")) r1 :: rest
    | Raise _ => after = []
    end.
Proof.
  destruct (session_fault_recovers_once (U := ascii_db) scripted default_config
              (lit "A1") (start detached_script) (lit "Target closed") _ _
              (run_pair2 _ _ eq_refl))
    as (row & st' & before & r & after & Hiter & Hst & _ & Ht & _ & _ & Hc
        & (st2 & st3 & _ & _ & Hr) & _).
  exists row, st', before, r, after.
  split; [exact Hiter|]. split; [exact Hst|]. split; [exact Ht|].
  split; [exact Hc|].
  destruct r as [u|e]; [|exact (proj2 Hr)].
  exact (proj2 (proj2 Hr)).
Defined.

(** The calls of that pass, one by one: the navigation, the wait, the
    logout link, the lookup, the row that went away, the screenshot, and
    then the recovery, which is the navigation to the admin root followed
    by session assurance. *)
Example detached_pass_calls :
  trace (snd (main_iter (U := ascii_db) scripted default_config (lit "A1")
                (start detached_script)))
  = [Ev (Goto (make_url default_config (lit "A1"))) (Ok tt);
     Ev (WaitForSelector (lit "table.adm-list-table") 15000) (Ok tt);
     Ev (Count (lit "a[href*='logout=Y']")) (Ok 1%nat);
     Ev (FirstCount (lit "a:has-text('A1')")) (Ok 1%nat);
     Ev (RowInnerText (lit "a:has-text('A1')"))
        (Raise (PWError (lit "Target closed")));
     Ev (Screenshot (lit "screenshots\ERROR_A1.png")) (Ok tt);
     Ev (Goto (lit "https://globaldrive.ru/bitrix/admin/")) (Ok tt);
     Ev (Count (lit "a[href*='logout=Y']")) (Ok 0%nat);
     Ev (Count (lit "input[name='USER_LOGIN']")) (Ok 0%nat);
     Ev (WaitForTimeout 500) (Ok tt)].
Proof. vm_compute. reflexivity. Qed.

(** C4 at work on a page whose table never appears. *)
Lemma wait_for_table_retries_once_witness :
  let st :=
    snd (perform scripted (Goto (make_url default_config (lit "A1")))
           (start timeout_script)) in
  fst (wait_for_table scripted st)
  = Raise (PWTimeoutError (lit "Timeout 15000ms exceeded, again.")) /\
  exists row st',
    main_iter (U := ascii_db) scripted default_config (lit "A1")
      (start timeout_script) = (Ok row, st') /\
    r_status row = lit "ERROR" /\
    r_comment row = lit "Timeout: Timeout 15000ms exceeded, again.".
Proof.
  intros st.
  pose proof (wait_for_table_retries_once (U := ascii_db) scripted st)
    as (_ & Hretry & Hcaller).
  split.
  - destruct (Hretry (lit "Timeout 15000ms exceeded.")
                (snd (perform scripted
                        (WaitForSelector (lit "table.adm-list-table") 15000) st))
                (snd (ensure_admin_session scripted
                        (snd (perform scripted
                                (WaitForSelector (lit "table.adm-list-table")
                                   15000) st))))
                (Raise (PWTimeoutError (lit "Timeout 15000ms exceeded, again.")))
                (snd (wait_for_table scripted st))
                (run_pair _ _ eq_refl) (run_pair _ _ eq_refl))
      as [Hw _].
    + vm_compute. reflexivity.
    + now rewrite Hw.
  - destruct (Hcaller default_config (lit "A1") (start timeout_script)
                (lit "Timeout 15000ms exceeded, again.")
                (snd (wait_for_table scripted st))
                (run_pair _ _ eq_refl) (run_pair _ _ eq_refl))
      as (row & st' & Hiter & Hst & Hc & _).
    exists row, st'. split; [exact Hiter|]. split; [exact Hst|].
    rewrite Hc. vm_compute. reflexivity.
Defined.

(** The run of the specification's example: three identifiers, the second
    without a row; three rows come back, in that order. *)
Example main_loop_three_ids :
  match
    fst (main_loop (U := ascii_db) scripted default_config
           [lit "A1"; lit "A2"; lit "A3"] []
           (start [RDone; RDone; RCount 1; RCount 1;
                   RText (lit "A1	01.02.2025 10:00:00");
                   RDone; RDone; RCount 1; RCount 0; RDone;
                   RDone; RDone; RCount 1; RCount 1;
                   RText (lit "A3	05.06.2024 09:30:00")]))
  with
  | Ok rows => map (fun r => (r_id r, r_status r)) rows
  | Raise _ => []
  end
  = [(lit "A1", lit "OK"); (lit "A2", lit "NOT FOUND"); (lit "A3", lit "FAIL")].
Proof. vm_compute. reflexivity. Qed.
(** * The further properties at work *)

(** Two screenshots of the identifier A1, one for FAIL and one for ERROR,
    do not share a file. *)
Lemma screenshots_share_a_file_witness :
  lit "screenshots\FAIL_A1.png" = lit "screenshots\ERROR_A1.png"
  <-> lit "FAIL" = lit "ERROR" /\ lit "A1" = lit "A1".
Proof.
  apply (screenshots_share_a_file scripted default_config
           (lit "FAIL") (lit "ERROR") (lit "A1") (lit "A1")
           (start []) (start [])
           (lit "screenshots\FAIL_A1.png") (lit "screenshots\ERROR_A1.png")
           (snd (save_screenshot scripted default_config (lit "FAIL") (lit "A1")
                   (start [])))
           (snd (save_screenshot scripted default_config (lit "ERROR") (lit "A1")
                   (start [])))).
  - right. left. reflexivity.
  - right. right. reflexivity.
  - apply run_pair. vm_compute. reflexivity.
  - apply run_pair. vm_compute. reflexivity.
  - vm_compute. discriminate.
  - vm_compute. discriminate.
Defined.

(** The text NaN is dropped. *)
Lemma keeps_all_but_blank_and_nan_witness :
  keeps (C := ascii_case) (lit "NaN") = false
  <-> lit "NaN" = [] \/ nan_spelling (lit "NaN").
Proof.
  apply (keeps_all_but_blank_and_nan (C := ascii_case) (lit "NaN")).
  vm_compute. reflexivity.
Defined.

(** The example file gives A1, B2 and A1 again. *)
Lemma load_ids_from_csv_returns_witness :
  let ids := [lit "A1"; lit "B2"; lit "A1"] in
  ids <> [] /\
  Forall (fun x => x <> [] /\ strip x = x
                   /\ lower (C := ascii_case) x <> lit "nan") ids /\
  exists w1 df raw,
    path_exists example_disk EXAMPLE_IDS_FILE tt = (true, w1) /\
    read_csv example_disk EXAMPLE_IDS_FILE w1 = (Ok df, tt) /\
    df_empty df = false /\
    id_column df = Some raw /\
    ids = filter (keeps (C := ascii_case))
                 (map strip (map (astype_str (Pandas := text_cells)) raw)).
Proof.
  apply (load_ids_from_csv_returns (P := text_cells) (C := ascii_case)
           example_disk EXAMPLE_IDS_FILE tt).
  vm_compute. reflexivity.
Defined.

(** A file that is not there. *)
Lemma load_ids_from_csv_raises_witness :
  let path := lit "ids.csv" in
  let e := FileNotFoundError (lit "Файл не найден: ids.csv") in
  (path_exists example_disk path tt = (false, tt)
   /\ e = FileNotFoundError (lit "Файл не найден: " ++ path)) \/
  (exists w1,
     path_exists example_disk path tt = (true, w1) /\
     (read_csv example_disk path w1 = (Raise e, tt) \/
      exists df,
        read_csv example_disk path w1 = (Ok df, tt) /\
        ((df_empty df = true
          /\ e = ValueError (lit "Файл пустой: " ++ path)) \/
         (df_empty df = false
          /\ e = ValueError (lit "В файле нет валидных ID: " ++ path)
          /\ exists raw,
               id_column df = Some raw
               /\ Forall (fun c => keeps (C := ascii_case)
                                     (strip (astype_str (Pandas := text_cells) c))
                                   = false) raw)))).
Proof.
  apply (load_ids_from_csv_raises (P := text_cells) (C := ascii_case)
           example_disk (lit "ids.csv") tt).
  vm_compute. reflexivity.
Defined.

(** From the second identifier of the example file on: two rows, for B2
    and A1. *)
Lemma loaded_ids_fill_the_report_witness :
  let args := mkArgs false true 2 in
  let ids := [lit "A1"; lit "B2"; lit "A1"] in
  exists rows st',
    main_loop (U := ascii_db) scripted default_config (ids_from args ids) []
      (start []) = (Ok rows, st') /\
    map r_id rows = ids_from args ids /\
    length rows = (length ids - Z.to_nat (args_start_from args - 1))%nat /\
    ((args_start_from args <= 1)%Z -> map r_id rows = ids) /\
    ((Z.of_nat (length ids) < args_start_from args)%Z ->
     rows = [] /\ st' = start []).
Proof.
  apply (loaded_ids_fill_the_report (P := text_cells) (C := ascii_case)
           example_disk EXAMPLE_IDS_FILE tt _ tt).
  vm_compute. reflexivity.
Defined.

(** The sample report: the OK row turns green, the ERROR row grey, the
    header keeps its fill. *)
Lemma colorize_excel_fills_rows_witness :
  exists ws',
    colorize_excel (memory_book sample_report) OUTPUT_FILE []
    = (Ok tt, [ws']) /\
    c_fill (cell_at ws' 2 1) = Some fill_ok /\
    c_fill (cell_at ws' 3 8) = Some fill_err /\
    c_fill (cell_at ws' 1 6) = None.
Proof.
  destruct (colorize_excel_fills_rows (memory_book sample_report) OUTPUT_FILE []
              sample_report [] 5 eq_refl)
    as (ws' & Hrun & _ & _ & _ & Hfill & Hout & _).
  - vm_compute. reflexivity.
  - vm_compute. discriminate.
  - exists ws'. split; [exact Hrun|].
    rewrite (Hfill 2%nat 1%nat), (Hfill 3%nat 8%nat), (Hout 1%nat 6%nat);
      try (vm_compute; lia).
    repeat split; vm_compute; reflexivity.
Defined.

(** The sample report keeps its values and gets a bold header. *)
Lemma colorize_excel_keeps_values_witness :
  exists ws',
    colorize_excel (memory_book sample_report) OUTPUT_FILE []
    = (Ok tt, [ws']) /\
    c_value (cell_at ws' 3 6) = Some (VStr (lit "ERROR")) /\
    c_bold (cell_at ws' 1 6) = true /\
    c_bold (cell_at ws' 2 6) = false.
Proof.
  destruct (colorize_excel_keeps_values (memory_book sample_report) OUTPUT_FILE []
              sample_report [] eq_refl)
    as (ws' & Hrun & _ & _ & Hval & Hbold & Hplain).
  - vm_compute. discriminate.
  - exists ws'. split; [exact Hrun|].
    rewrite Hval, (Hbold 6%nat), (Hplain 2%nat 6%nat); try (vm_compute; lia).
    repeat split; vm_compute; reflexivity.
Defined.

(** The widths of the sample report: the identifiers' column is as wide
    as its longest text and two more, the URLs' column is cut at 70. *)
Lemma colorize_excel_sets_widths_witness :
  exists ws',
    colorize_excel (memory_book sample_report) OUTPUT_FILE []
    = (Ok tt, [ws']) /\
    column_width ws' (lit "A") = Some 4%nat /\
    column_width ws' (lit "B") = Some 70%nat /\
    column_width ws' (lit "I") = None.
Proof.
  destruct (colorize_excel_sets_widths (memory_book sample_report) OUTPUT_FILE []
              sample_report [] 5 eq_refl)
    as (ws' & Hrun & Hw & Hother).
  - vm_compute. reflexivity.
  - vm_compute. discriminate.
  - exists ws'. split; [exact Hrun|].
    destruct (Hw 1%nat) as (l1 & w1 & Hl1 & _ & Hw1 & -> & _);
      [vm_compute; lia|].
    destruct (Hw 2%nat) as (l2 & w2 & Hl2 & _ & Hw2 & -> & _);
      [vm_compute; lia|].
    replace (lit "A") with l1 by (vm_compute in Hl1; now injection Hl1).
    replace (lit "B") with l2 by (vm_compute in Hl2; now injection Hl2).
    rewrite Hw1, Hw2, (Hother (lit "I")) by (vm_compute; lia).
    repeat split; vm_compute; reflexivity.
Defined.

(** An empty report: one cell, no header; the sheet is saved with no
    fill and no width. *)
Lemma colorize_excel_without_status_column_witness :
  exists ws',
    colorize_excel (memory_book (sheet_of [])) OUTPUT_FILE [] = (Ok tt, [ws']) /\
    c_fill (cell_at ws' 1 1) = None /\
    column_width ws' (lit "A") = None /\
    c_bold (cell_at ws' 1 1) = true.
Proof.
  destruct (colorize_excel_without_status_column (memory_book (sheet_of []))
              OUTPUT_FILE [] (sheet_of []) [] eq_refl)
    as (ws' & Hrun & Hfill & Hw & _ & Hbold).
  - intros c Hc. vm_compute in Hc. replace c with 1%nat by lia.
    vm_compute. discriminate.
  - exists ws'. split; [exact Hrun|].
    rewrite Hfill, Hw, (Hbold 1%nat) by (vm_compute; lia).
    repeat split.
Defined.
